(** * xcsg: the driver of the CSG pipeline (src/xcsg/xcsg_main.cpp)

    A shallow embedding of [xcsg_main::run], [xcsg_main::run_xsolid] and
    [xcsg_main::run_xshape2d].  The driver owns no geometry: it sequences
    calls into the factory, the boolean kernels, the triangulator and the
    file encoders.  Those collaborators are therefore an interface
    ([collaborators]) over an abstract world [W]; the driver is a program
    in a small monad that threads the world, records every collaborator
    call and every console line in a trace, and propagates C++ exceptions.
    An exception undoes nothing: the world and the trace at the point of
    the [throw] are part of the outcome, and so is the state of a local
    object that a throwing call was mutating.

    - the data model and the console lines;
    - [Interface]: the collaborators;
    - [Demo]: collaborators one can compute with;
    - [Driver]: the three functions, then their properties, then C1-C10 and
      the further properties X1-X18;
    - the claims and the further properties on the runs of [Demo]. *)

From Stdlib Require Import String Ascii List Bool Arith ZArith NArith Lia.
From Stdlib Require Import DecimalString Sorted.
Import ListNotations.
Local Open Scope string_scope.
Local Open Scope list_scope.

Set Implicit Arguments.

(** ** Exceptions *)

(** The exception classes the driver distinguishes.  [carve::exception] is a
    class of the carve kernel and is not derived from [std::exception]. *)
Inductive exn : Type :=
| logic_error (what : string)
| runtime_error (what : string)
| std_exception (what : string)
| carve_exception (str : string)
| foreign_exception.

Definition is_std_exception (e : exn) : bool :=
  match e with
  | logic_error _ | runtime_error _ | std_exception _ => true
  | carve_exception _ | foreign_exception => false
  end.

Definition is_carve_exception (e : exn) : bool :=
  match e with
  | carve_exception _ => true
  | _ => false
  end.

Definition what (e : exn) : string :=
  match e with
  | logic_error s | runtime_error s | std_exception s | carve_exception s => s
  | foreign_exception => ""
  end.

Inductive result (A : Type) : Type :=
| Ret (a : A)
| Raise (e : exn).
Arguments Ret {A} a.
Arguments Raise {A} e.

(** ** Text *)

Definition endl : string := String (ascii_of_nat 10) EmptyString.

(** [operator<<] on a [size_t]: decimal digits. *)
Definition show_N (n : N) : string := NilEmpty.string_of_uint (N.to_uint n).

(** [std::replace(s.begin(), s.end(), '\\', '/')] *)
Definition backslash : ascii := ascii_of_nat 92.
Definition slash : ascii := ascii_of_nat 47.

Fixpoint replace (old new : ascii) (s : string) : string :=
  match s with
  | EmptyString => EmptyString
  | String c r => String (if Ascii.eqb c old then new else c) (replace old new r)
  end.

Fixpoint occurs (c : ascii) (s : string) : bool :=
  match s with
  | EmptyString => false
  | String d r => Ascii.eqb d c || occurs c r
  end.

Fixpoint is_prefix (p s : string) : bool :=
  match p, s with
  | EmptyString, _ => true
  | String a p', String b s' => Ascii.eqb a b && is_prefix p' s'
  | String _ _, EmptyString => false
  end.

(** [contains needle hay]: [needle] occurs in [hay] as a substring. *)
Fixpoint contains (needle hay : string) : bool :=
  is_prefix needle hay ||
  match hay with
  | EmptyString => false
  | String _ r => contains needle r
  end.

(** [static_cast<int>] of a [size_t]: the low 32 bits, read as two's
    complement. *)
Definition to_int (n : N) : Z :=
  let m := (Z.of_N n mod 2 ^ 32)%Z in
  if (m <? 2 ^ 31)%Z then m else (m - 2 ^ 32)%Z.

(** ** Data model *)

(** Modelled from the spec: the class [cf_xmlNode] is declared in
    csg_parser/cf_xmlTree.h, which is not part of the sources.  A scene node
    is a "tag (string), ordered set of properties (key->value), ordered
    sequence of child nodes".  Iterating a node also visits its attribute
    nodes, which answer [is_attribute_node]. *)
#[warnings="-register-all"]
Inductive cf_xmlNode : Type :=
  mk_node { tag : string;
            is_attribute_node : bool;
            properties : list (string * string);
            children : list cf_xmlNode }.

(** Modelled from the spec: the class [cf_xmlTree] (same header): a
    document, with a root once one has been read or built. *)
Definition cf_xmlTree : Type := option cf_xmlNode.

(** Modelled from the spec: [cf_xmlTree::get_root] fills its argument and
    returns [true] when the tree has a root. *)
Definition get_root (t : cf_xmlTree) : option cf_xmlNode := t.

(** Modelled from the spec: the class [boost_command_line] is not part of the
    sources.  The command line is "a required input-file argument; boolean
    flags selecting output formats; a [fullpath] flag; an implicit numeric
    ceiling on boolean-operation count"; the driver reads it through
    [parsed_ok()], [count(name)], [get<std::string>(name)], which can throw,
    and [max_bool()]. *)
Record boost_command_line : Type :=
  { parsed_ok : bool;
    count : string -> nat;
    get_string : string -> result string;
    max_bool : N }.

(** The same command line, with the separators of its arguments already
    written as slashes. *)
Definition normalised (cmd : boost_command_line) : boost_command_line :=
  {| parsed_ok := parsed_ok cmd;
     count := count cmd;
     get_string := fun name =>
       match get_string cmd name with
       | Ret s => Ret (replace backslash slash s)
       | Raise e => Raise e
       end;
     max_bool := max_bool cmd |}.

Inductive format3d : Type :=
| fmt_csg | fmt_amf | fmt_obj | fmt_off | fmt_stl (binary : bool).

Inductive format2d : Type :=
| fmt_svg | fmt_dxf.

(** ** Console lines *)

(** What the driver writes to [cout]: a line, or the part of a line that is
    streamed before or after a call made in the middle of the statement
    ([cout << label << f(...) << endl] streams the label, then calls [f]).
    Wall-clock readings ([boost::posix_time]) and the elapsed seconds printed
    from them are left out. *)
Inductive message : Type :=
| MissingInput
| Converting (xcsg_file : string)
| Processing (name : string)
| NotFound (xcsg_file : string)
| ProcessingSolid (tag : string)
| ProcessingShape2d (tag : string)
| CompletedTree (nbool : N)
| StartingBooleans
| CompletedBooleans
| Warning (msg : string)
| ResultLumps (nmani : N)
| Lump (number nverts nfaces : N)
| Triangulating
| TriangulationCompleted
| Triangulated (ntri : N)
| Exporting
| CreatedLabel (label : string)
| CreatedFile (name : string).

Definition render (m : message) : string :=
  match m with
  | MissingInput =>
      endl ++ "Error, missing required input parameter <xcsg-file>" ++ endl
  | Converting f => "Converting from OpenSCAD " ++ f ++ endl
  | Processing n => "xcsg processing: " ++ n ++ endl
  | NotFound f => "error: xcsg input file not found: " ++ f ++ endl
  | ProcessingSolid t => "processing solid: " ++ t ++ endl
  | ProcessingShape2d t => "processing shape2d: " ++ t ++ endl
  | CompletedTree n =>
      "...completed CSG tree: " ++ show_N n
        ++ " boolean operations to process." ++ endl
  | StartingBooleans => "...starting boolean operations" ++ endl
  | CompletedBooleans => "...completed boolean operations in "
  | Warning msg => "WARNING: " ++ msg ++ endl
  | ResultLumps n =>
      "...result model contains " ++ show_N n
        ++ (if (n =? 1)%N then " lump." else " lumps.") ++ endl
  | Lump i v f =>
      "...lump " ++ show_N i ++ ": " ++ show_N v ++ " vertices, "
        ++ show_N f ++ " polygon faces." ++ endl
  | Triangulating => "...Triangulating lump ... " ++ endl
  | TriangulationCompleted => "...Triangulation completed with "
  | Triangulated n => show_N n ++ " triangle faces "
  | Exporting => "...Exporting results " ++ endl
  | CreatedLabel label => label
  | CreatedFile name => name ++ endl
  end.

(** * The collaborators *)

Module Interface.

Section Types.

(** Types owned by the collaborators. *)
Variable W : Type.               (* file system, kernels, global settings *)
Variable std_filename : Type.
Variable xsolid : Type.          (* 3D model graph *)
Variable xshape2d : Type.        (* 2D model graph *)
Variable carve_mesh : Type.      (* what [create_carve_mesh] hands the kernel *)
Variable clipper_profile : Type.
Variable pos3d : Type.           (* vertex coordinates *)
Variable polygon2d : Type.

(** Modelled from the spec: the class [xpolyhedron] is declared in
    xpolyhedron.h, which is not part of the sources.  A lump is "an indexed
    vertex/face polyhedron"; a face lists the indices of its vertices. *)
Record xpolyhedron : Type :=
  { vertices : list pos3d;
    faces : list (list nat) }.

Definition v_size (p : xpolyhedron) : N := N.of_nat (length (vertices p)).
Definition f_size (p : xpolyhedron) : N := N.of_nat (length (faces p)).

(** Modelled from the spec: the class [carve_boolean] is declared in
    carve_boolean.h, which is not part of the sources.  Its result is "an
    ownership container of zero or more disjoint Manifold lumps, each an
    indexed vertex/face polyhedron", "lazily indexable, one entry per
    disjoint connected solid". *)
Definition carve_boolean : Type := list xpolyhedron.

(** Modelled from the spec: a [carve_boolean] as declared, before any call
    of [compute]: no lump. *)
Definition carve_boolean_new : carve_boolean := [].

(** Modelled from the spec: [carve_boolean::size], the number of lumps. *)
Definition csg_size (csg : carve_boolean) : nat := length csg.

(** Modelled from the spec: [carve_boolean::create_manifold], the lump of
    that index. *)
Definition create_manifold (csg : carve_boolean) (imani : nat) : xpolyhedron :=
  nth imani csg {| vertices := []; faces := [] |}.

(** Modelled from the spec: [xpolyhedron::check_polyhedron] is defined in
    xpolyhedron.cpp, which is not part of the sources.  A lump needs
    triangulation "iff any face has more than 3 vertices"; [num_non_tri]
    counts those faces.  What the check prints is not modelled. *)
Definition check_polyhedron (p : xpolyhedron) : nat :=
  length (filter (fun f => (3 <? length f)%nat) (faces p)).

(** Modelled from the spec: the class [carve_triangulate] (carve_triangulate.h,
    not part of the sources) accumulates "one combined triangle mesh": [add]
    copies a lump unchanged, [compute2d] adds what the triangulation kernel
    made of the lump and returns its number of faces. *)
Definition carve_triangulate : Type := list xpolyhedron.

(** Modelled from the spec: a [carve_triangulate] as declared: an empty
    mesh. *)
Definition carve_triangulate_new : carve_triangulate := [].

(** Modelled from the spec: [carve_triangulate::carve_polyset], the mesh
    accumulated so far. *)
Definition carve_polyset (t : carve_triangulate) : list xpolyhedron := t.

(** Modelled from the spec: [xpolyhedron::create_carve_polyhedron] hands the
    same vertices and faces to the kernel's side. *)
Definition create_carve_polyhedron (p : xpolyhedron) : xpolyhedron := p.

(** Modelled from the spec: a [polyset2d] is "an ordered set of disjoint
    Polygon2D loops". *)
Definition polyset2d : Type := list polygon2d.

(** ** The collaborators

    A call that can throw returns a [result]; a status-returning query or a
    setter does not.  [carve_compute] mutates the accumulator it is called on
    and may throw in the middle: it returns the accumulator as the call left
    it, and the exception if there is one. *)
Record collaborators : Type :=
  { (* std_filename *)
    filename_of : string -> std_filename;
    Exists : string -> W -> bool;
    GetExt : std_filename -> string;
    SetExt : std_filename -> string -> std_filename;
    GetFullPath : std_filename -> string;
    GetFullName : std_filename -> string;
    (* csg_parser, cf_xmlTree *)
    to_xcsg : string -> cf_xmlTree -> W -> result cf_xmlTree * W;
    write_xml : cf_xmlTree -> string -> W -> result unit * W;
    read_xml : cf_xmlTree -> string -> W -> bool * cf_xmlTree * W;
    (* mesh_utils *)
    set_secant_tolerance : cf_xmlNode -> W -> W;
    (* xcsg_factory, xsolid, xshape2d *)
    is_solid : cf_xmlNode -> bool;
    is_shape2d : cf_xmlNode -> bool;
    make_solid : cf_xmlNode -> W -> result (option xsolid) * W;
    make_shape2d : cf_xmlNode -> W -> result (option xshape2d) * W;
    solid_nbool : xsolid -> N;
    shape2d_nbool : xshape2d -> N;
    create_carve_mesh : xsolid -> W -> result carve_mesh * W;
    create_clipper_profile : xshape2d -> W -> result clipper_profile * W;
    (* boolean_timer *)
    timer_init : Z -> W -> W;
    (* the kernels *)
    carve_compute : carve_mesh -> carve_boolean -> W ->
                    carve_boolean * option exn * W;
    triangulate_kernel : xpolyhedron -> W -> result xpolyhedron * W;
    clipper_compute : clipper_profile -> W -> result polyset2d * W;
    (* out_triangles, amf_file, openscad_csg, svg_file, dxf_file *)
    encode3d : format3d -> list xpolyhedron -> string -> W -> result string * W;
    openscad_open : string -> W -> result string * W;
    write_polygon : string -> polygon2d -> W -> result unit * W;
    encode2d : format2d -> polyset2d -> string -> W -> result string * W }.

End Types.

End Interface.

Import Interface.

(** * A concrete world

    Collaborators simple enough to run the driver on: a model graph is known
    by the tag of its node, the kernel returns a tetrahedron and a box, and
    the world is the name of the one call that is made to throw. *)
Module Demo.

Definition W : Type := string.
Definition pos3d : Type := (Z * Z * Z)%type.
Definition polygon2d : Type := list (Z * Z).

Definition dot : ascii := ascii_of_nat 46.

(** The extension of a path, from its last dot. *)
Fixpoint ext_from (s : string) : option string :=
  match s with
  | EmptyString => None
  | String c r =>
      match ext_from r with
      | Some e => Some e
      | None => if Ascii.eqb c dot then Some s else None
      end
  end.

Definition get_ext (s : string) : string :=
  match ext_from s with
  | Some e => e
  | None => ""
  end.

Fixpoint stem (s : string) : string :=
  match s with
  | EmptyString => EmptyString
  | String c r =>
      match ext_from r with
      | Some _ => String c (stem r)
      | None => if Ascii.eqb c dot then EmptyString else String c (stem r)
      end
  end.

Definition set_ext (s ext : string) : string := stem s ++ "." ++ ext.

Fixpoint full_name (s : string) : string :=
  match s with
  | EmptyString => EmptyString
  | String c r =>
      if occurs slash r then full_name r
      else if Ascii.eqb c slash then r else s
  end.

Definition tetrahedron : xpolyhedron pos3d :=
  {| vertices := [(0, 0, 0); (1, 0, 0); (0, 1, 0); (0, 0, 1)]%Z;
     faces := [[0; 2; 1]; [0; 1; 3]; [1; 2; 3]; [2; 0; 3]] |}.

Definition box : xpolyhedron pos3d :=
  {| vertices := [(0, 0, 0); (1, 0, 0); (1, 1, 0); (0, 1, 0);
                  (0, 0, 1); (1, 0, 1); (1, 1, 1); (0, 1, 1)]%Z;
     faces := [[0; 3; 2; 1]; [4; 5; 6; 7]; [0; 1; 5; 4];
               [1; 2; 6; 5]; [2; 3; 7; 6]; [3; 0; 4; 7]] |}.

(** A fan of triangles over a face. *)
Fixpoint fan (a b : nat) (rest : list nat) : list (list nat) :=
  match rest with
  | [] => []
  | c :: rest' => [a; b; c] :: fan a c rest'
  end.

Definition fan_face (f : list nat) : list (list nat) :=
  match f with
  | a :: b :: rest => fan a b rest
  | _ => []
  end.

Definition triangles (p : xpolyhedron pos3d) : xpolyhedron pos3d :=
  {| vertices := vertices p; faces := flat_map fan_face (faces p) |}.

Definition unit_square : polygon2d := [(0, 0); (1, 0); (1, 1); (0, 1)]%Z.

Definition leaf (t : string) : cf_xmlNode :=
  {| tag := t; is_attribute_node := false; properties := []; children := [] |}.

Definition attribute (t : string) : cf_xmlNode :=
  {| tag := t; is_attribute_node := true; properties := []; children := [] |}.

Definition scene (nodes : list cf_xmlNode) : cf_xmlTree :=
  Some {| tag := "xcsg"; is_attribute_node := false;
          properties := [("secant_tolerance", "0.01")]; children := nodes |}.

(** What is in the files. *)
Definition content (path : string) : cf_xmlTree :=
  let name := full_name path in
  if String.eqb name "cube.xcsg" then
    scene [attribute "secant_tolerance"; leaf "note"; leaf "cube";
           leaf "square"; leaf "union3d"]
  else if String.eqb name "square.xcsg" then scene [leaf "square"; leaf "cube"]
  else if String.eqb name "union.xcsg" then scene [leaf "union3d"]
  else if String.eqb name "notes.xcsg" then
    scene [attribute "secant_tolerance"; leaf "note"]
  else if String.eqb name "page.xcsg" then Some (leaf "html")
  else None.

Definition one_of (tags : list string) (n : cf_xmlNode) : bool :=
  existsb (String.eqb (tag n)) tags.

Definition extension3d (f : format3d) : string :=
  match f with
  | fmt_csg => ".csg"
  | fmt_amf => ".amf"
  | fmt_obj => ".obj"
  | fmt_off => ".off"
  | fmt_stl _ => ".stl"
  end.

Definition extension2d (f : format2d) : string :=
  match f with
  | fmt_svg => ".svg"
  | fmt_dxf => ".dxf"
  end.

(** [unless name e a w]: the call returns [a], unless the world [w] is
    [name]: then it throws [e]. *)
Definition unless {A} (name : string) (e : exn) (a : A) (w : W)
  : result A * W :=
  if String.eqb w name then (Raise e, w) else (Ret a, w).

Definition X
  : collaborators W string string string string string pos3d polygon2d :=
  {| filename_of := fun s => s;
     Exists := fun p _ => negb (String.eqb (full_name p) "missing.xcsg");
     GetExt := get_ext;
     SetExt := set_ext;
     GetFullPath := fun s => s;
     GetFullName := full_name;
     to_xcsg := fun p _ =>
       unless "parser" (runtime_error "syntax error") (scene [leaf "cube"]);
     write_xml := fun _ _ w => (Ret tt, w);
     read_xml := fun tree p w =>
       if String.eqb (full_name p) "unreadable.xcsg" then (false, tree, w)
       else (true, content p, w);
     set_secant_tolerance := fun _ w => w;
     is_solid := one_of ["cube"; "union3d"; "hollow"];
     is_shape2d := one_of ["square"; "offset2d"; "blank"];
     make_solid := fun n =>
       unless "factory" (logic_error "unknown tag")
         (if String.eqb (tag n) "hollow" then None else Some (tag n));
     make_shape2d := fun n =>
       unless "factory" (logic_error "unknown tag")
         (if String.eqb (tag n) "blank" then None else Some (tag n));
     solid_nbool := fun o => if String.eqb o "union3d" then 5%N else 0%N;
     shape2d_nbool := fun o => if String.eqb o "offset2d" then 5%N else 0%N;
     create_carve_mesh := fun o =>
       unless "mesh" (carve_exception "degenerate mesh") o;
     create_clipper_profile := fun o =>
       unless "profile" (runtime_error "open contour") o;
     timer_init := fun _ w => w;
     carve_compute := fun _ csg w =>
       if String.eqb w "carve" then
         (csg ++ [tetrahedron], Some (carve_exception "intersection"), w)
       else if String.eqb w "memory" then
         (csg, Some (std_exception "bad_alloc"), w)
       else (csg ++ [tetrahedron; box], None, w);
     triangulate_kernel := fun p =>
       unless "triangulate" (carve_exception "not planar") (triangles p);
     clipper_compute := fun _ =>
       unless "clipper" (runtime_error "clipper") [unit_square];
     encode3d := fun f _ file =>
       unless (extension3d f) (runtime_error "disk full")
         (stem file ++ extension3d f)%string;
     openscad_open := fun file w => (Ret (stem file ++ ".csg")%string, w);
     write_polygon := fun _ _ w => (Ret tt, w);
     encode2d := fun f _ file =>
       unless (extension2d f) (runtime_error "disk full")
         (stem file ++ extension2d f)%string |}.

(** A command line that parsed: the input file, the flags, the ceiling. *)
Definition command_line (xcsg_file : string) (flags : list string)
    (ceiling : N) : boost_command_line :=
  {| parsed_ok := true;
     count := fun name =>
       if String.eqb name "xcsg-file" then 1
       else if existsb (String.eqb name) flags then 1 else 0;
     get_string := fun _ => Ret xcsg_file;
     max_bool := ceiling |}.

(** [models\cube.xcsg], written with a backslash. *)
Definition cube_path : string :=
  "models" ++ String backslash "cube.xcsg".

(** Three formats for a solid, with both STL flags, and a ceiling of 3. *)
Definition solid_cmd (xcsg_file : string) : boost_command_line :=
  command_line xcsg_file ["obj"; "astl"; "stl"; "csg"] 3.

(** All three formats for a 2D shape. *)
Definition shape2d_cmd (xcsg_file : string) : boost_command_line :=
  command_line xcsg_file ["dxf"; "svg"; "csg"] 3.

Definition scene_root (nodes : list cf_xmlNode) : cf_xmlNode :=
  {| tag := "xcsg"; is_attribute_node := false;
     properties := [("secant_tolerance", "0.01")]; children := nodes |}.

(** [X] with another [GetFullPath], another boolean kernel and another
    triangulation kernel. *)
Definition X_with (full_path : string -> string)
    (compute : string -> carve_boolean pos3d -> W ->
               carve_boolean pos3d * option exn * W)
    (triangulate : xpolyhedron pos3d -> W -> result (xpolyhedron pos3d) * W)
  : collaborators W string string string string string pos3d polygon2d :=
  {| filename_of := filename_of X;
     Exists := Exists X;
     GetExt := GetExt X;
     SetExt := SetExt X;
     GetFullPath := full_path;
     GetFullName := GetFullName X;
     to_xcsg := to_xcsg X;
     write_xml := write_xml X;
     read_xml := read_xml X;
     set_secant_tolerance := set_secant_tolerance X;
     is_solid := is_solid X;
     is_shape2d := is_shape2d X;
     make_solid := make_solid X;
     make_shape2d := make_shape2d X;
     solid_nbool := solid_nbool X;
     shape2d_nbool := shape2d_nbool X;
     create_carve_mesh := create_carve_mesh X;
     create_clipper_profile := create_clipper_profile X;
     timer_init := timer_init X;
     carve_compute := compute;
     triangulate_kernel := triangulate;
     clipper_compute := clipper_compute X;
     encode3d := encode3d X;
     openscad_open := openscad_open X;
     write_polygon := write_polygon X;
     encode2d := encode2d X |}.

(** A kernel that leaves a box and throws, and a triangulation kernel that
    throws too. *)
Definition brittle
  : collaborators W string string string string string pos3d polygon2d :=
  X_with (fun s => s)
    (fun _ csg w => (csg ++ [box], Some (carve_exception "intersection"), w))
    (fun _ w => (Raise (carve_exception "not planar"), w)).

(** A [std_filename] that answers with the separators of the platform,
    here backslashes. *)
Definition native
  : collaborators W string string string string string pos3d polygon2d :=
  X_with (replace slash backslash) (carve_compute X) (triangulate_kernel X).

(** [models\cube.csg], an OpenSCAD file. *)
Definition cube_csg_path : string :=
  "models" ++ String backslash "cube.csg".

(** A command line whose argument cannot be read as a string. *)
Definition broken_cmd : boost_command_line :=
  {| parsed_ok := true;
     count := fun _ => 1;
     get_string := fun _ => Raise (std_exception "bad any_cast");
     max_bool := 3 |}.

End Demo.

(** * The driver *)

Section Driver.

(** Types owned by the collaborators. *)
Variable W : Type.               (* file system, kernels, global settings *)
Variable std_filename : Type.
Variable xsolid : Type.          (* 3D model graph *)
Variable xshape2d : Type.        (* 2D model graph *)
Variable carve_mesh : Type.      (* what [create_carve_mesh] hands the kernel *)
Variable clipper_profile : Type.
Variable pos3d : Type.           (* vertex coordinates *)
Variable polygon2d : Type.

Local Abbreviation xpolyhedron := (Interface.xpolyhedron pos3d).
Local Abbreviation carve_boolean := (Interface.carve_boolean pos3d).
Local Abbreviation carve_boolean_new := (Interface.carve_boolean_new pos3d).
Local Abbreviation carve_triangulate := (Interface.carve_triangulate pos3d).
Local Abbreviation carve_triangulate_new :=
  (Interface.carve_triangulate_new pos3d).
Local Abbreviation polyset2d := (Interface.polyset2d polygon2d).
Local Abbreviation collaborators :=
  (Interface.collaborators W std_filename xsolid xshape2d carve_mesh
     clipper_profile pos3d polygon2d).

Variable X : collaborators.
Variable m_cmd : boost_command_line.

(** ** The trace *)

(** What a run does that can be observed, in order. *)
Inductive event : Type :=
| Cout (m : message)
| EvExists (path : string)
| EvToXcsg (path : string)
| EvWriteXml (path : string)
| EvReadXml (path : string)
| EvSetSecantTolerance (root : cf_xmlNode)
| EvMakeSolid (node : cf_xmlNode)
| EvMakeShape2d (node : cf_xmlNode)
| EvTimerInit (nsteps : Z)
| EvCreateCarveMesh (obj : xsolid)
| EvCarveCompute (mesh : carve_mesh)
| EvTriangulate (lump : xpolyhedron)
| EvAdd (lump : xpolyhedron)
| EvCreateClipperProfile (obj : xshape2d)
| EvClipperCompute (profile : clipper_profile)
| EvEncode3d (f : format3d) (mesh : list xpolyhedron) (path : string)
| EvOpenscad (path : string)
| EvWritePolygon (poly : polygon2d)
| EvEncode2d (f : format2d) (polyset : polyset2d) (path : string).

(** ** The monad: world, trace, exceptions *)

Definition M (A : Type) : Type := W -> result A * W * list event.

Definition ret {A} (a : A) : M A := fun w => (Ret a, w, []).

Definition throw {A} (e : exn) : M A := fun w => (Raise e, w, []).

Definition bind {A B} (m : M A) (k : A -> M B) : M B :=
  fun w =>
    match m w with
    | (Ret a, w1, t1) => let '(r, w2, t2) := k a w1 in (r, w2, t1 ++ t2)
    | (Raise e, w1, t1) => (Raise e, w1, t1)
    end.

Notation "x <- m ;; k" := (bind m (fun x => k))
  (at level 61, m at next level, right associativity).
Notation "m ;; k" := (bind m (fun _ => k))
  (at level 61, right associativity).

(** Something observable that involves no collaborator. *)
Definition note (ev : event) : M unit := fun w => (Ret tt, w, [ev]).

Definition cout (m : message) : M unit := note (Cout m).

(** A collaborator call that can throw. *)
Definition call {A} (ev : event) (f : W -> result A * W) : M A :=
  fun w => let '(r, w1) := f w in (r, w1, [ev]).

(** A collaborator call that returns normally. *)
Definition act {A} (ev : event) (f : W -> A * W) : M A :=
  fun w => let '(a, w1) := f w in (Ret a, w1, [ev]).

(** [size_t] increment. *)
Definition size_t_succ (n : N) : N := ((n + 1) mod 2 ^ 64)%N.

Definition when (b : bool) (m : M unit) : M unit :=
  if b then m else ret tt.

Definition flag (name : string) : bool := (0 <? count m_cmd name)%nat.

(** ** Helpers of the driver *)

Definition DisplayName (fname : std_filename) (show_path : bool) : string :=
  if show_path then GetFullPath X fname else GetFullName X fname.

(** Lines 143-147 and 236-240: the ceiling on boolean operations. *)
Definition max_message : string :=
  "Max " ++ show_N (max_bool m_cmd)
    ++ " boolean operations allowed in this configuration.".

Definition check_max_bool (nbool : N) : M unit :=
  if (max_bool m_cmd <? nbool)%N then throw (logic_error max_message)
  else ret tt.

(** ** [xcsg_main::run_xsolid], lines 132-222

    The readings of the clock (lines 154, 160, 178, 193) only feed the
    elapsed seconds of two console lines and are left out. *)

(** Lines 156-164, the body of the [try] block, on the local [csg].  The
    argument [obj->create_carve_mesh()] is evaluated before [csg.compute] is
    entered.  An exception leaves [csg] as the throwing call left it. *)
Definition try_boolean (obj : xsolid) (nbool : N) (csg : carve_boolean)
  : W -> result unit * carve_boolean * W * list event :=
  fun w =>
    let w1 := timer_init X (to_int nbool) w in
    match create_carve_mesh X obj w1 with
    | (Raise e, w2) =>
        (Raise e, csg, w2, [EvTimerInit (to_int nbool); EvCreateCarveMesh obj])
    | (Ret mesh, w2) =>
        match carve_compute X mesh csg w2 with
        | (csg1, Some e, w3) =>
            (Raise e, csg1, w3,
             [EvTimerInit (to_int nbool); EvCreateCarveMesh obj;
              EvCarveCompute mesh])
        | (csg1, None, w3) =>
            (Ret tt, csg1, w3,
             [EvTimerInit (to_int nbool); EvCreateCarveMesh obj;
              EvCarveCompute mesh; Cout CompletedBooleans])
        end
    end.

(** Lines 155-172: [carve_boolean csg; try { ... } catch(carve::exception&)].
    The handler prints a warning and falls through; the rethrow is commented
    out in the source. *)
Definition boolean3d (obj : xsolid) (nbool : N) : M carve_boolean :=
  fun w =>
    match try_boolean obj nbool carve_boolean_new w with
    | (Ret _, csg, w1, t) => (Ret csg, w1, t)
    | (Raise e, csg, w1, t) =>
        if is_carve_exception e
        then (Ret csg, w1, t ++ [Cout (Warning ("(carve error): " ++ what e))])
        else (Raise e, w1, t)
    end.

(** Lines 182-201, one turn of the loop over the lumps.  Line 191 is one
    statement with the call of [compute2d] inside: [...Triangulation
    completed with ] is streamed before the call, the number of faces once
    it has returned. *)
Definition lump (csg : carve_boolean) (imani : nat)
    (triangulate : carve_triangulate) : M carve_triangulate :=
  let poly := create_manifold csg imani in
  cout (Lump (size_t_succ (N.of_nat imani)) (v_size poly) (f_size poly)) ;;
  let num_non_tri := check_polyhedron poly in
  if (0 <? num_non_tri)%nat then
    cout Triangulating ;;
    cout TriangulationCompleted ;;
    tris <- call (EvTriangulate (create_carve_polyhedron poly))
                 (triangulate_kernel X (create_carve_polyhedron poly)) ;;
    cout (Triangulated (f_size tris)) ;;
    ret (triangulate ++ [tris])
  else
    (* triangulation not required *)
    note (EvAdd (create_carve_polyhedron poly)) ;;
    ret (triangulate ++ [create_carve_polyhedron poly]).

(** Lines 180-202: [for(size_t imani=0; imani<nmani; imani++)];
    [remaining] is [nmani - imani]. *)
Fixpoint lumps (csg : carve_boolean) (remaining imani : nat)
    (triangulate : carve_triangulate) : M carve_triangulate :=
  match remaining with
  | O => ret triangulate
  | S k =>
      triangulate1 <- lump csg imani triangulate ;;
      lumps csg k (S imani) triangulate1
  end.

(** One line of 209-215, [cout << label << DisplayName(std_filename(
    exporter.write_...(xcsg_file)),show_path) << endl]: the label is
    streamed, then the encoder is called, then the name of the file it
    returned is streamed. *)
Definition write3d (f : format3d) (label : string)
    (mesh : list xpolyhedron) (xcsg_file : string) (show_path : bool) : M unit :=
  cout (CreatedLabel label) ;;
  path <- call (EvEncode3d f mesh xcsg_file) (encode3d X f mesh xcsg_file) ;;
  cout (CreatedFile (DisplayName (filename_of X path) show_path)).

(** Lines 206-215.  [exporter] and [amf] are given the same polyset. *)
Definition export3d (mesh : list xpolyhedron) (xcsg_file : string)
    (show_path : bool) : M unit :=
  when (flag "csg")
    (write3d fmt_csg "Created OpenSCAD file: " mesh xcsg_file show_path) ;;
  when (flag "amf")
    (write3d fmt_amf "Created AMF file     : " mesh xcsg_file show_path) ;;
  when (flag "obj")
    (write3d fmt_obj "Created OBJ file     : " mesh xcsg_file show_path) ;;
  when (flag "off")
    (write3d fmt_off "Created OFF file(s)  : " mesh xcsg_file show_path) ;;
  (* write STL last so it is the most recent updated format *)
  if flag "stl" then
    write3d (fmt_stl true) "Created STL file     : " mesh xcsg_file show_path
  else
    when (flag "astl")
      (write3d (fmt_stl false) "Created STL file     : " mesh xcsg_file
         show_path).

(** Lines 174-215: what follows the [try] block. *)
Definition after_boolean3d (csg : carve_boolean) (xcsg_file : string)
    (show_path : bool) : M bool :=
  let nmani := csg_size csg in
  cout (ResultLumps (N.of_nat nmani)) ;;
  (* we export only triangles *)
  triangulate <- lumps csg nmani 0 carve_triangulate_new ;;
  cout Exporting ;;
  export3d (carve_polyset triangulate) xcsg_file show_path ;;
  ret true.

Definition no_data : exn := logic_error "xcsg tree contains no data. ".

Definition run_xsolid (node : cf_xmlNode) (xcsg_file : string) : M bool :=
  cout (ProcessingSolid (tag node)) ;;
  obj <- call (EvMakeSolid node) (make_solid X node) ;;
  match obj with
  | Some obj =>
      let show_path := flag "fullpath" in
      let nbool := solid_nbool X obj in
      cout (CompletedTree nbool) ;;
      check_max_bool nbool ;;
      when (0 <? nbool)%N (cout StartingBooleans) ;;
      csg <- boolean3d obj nbool ;;
      after_boolean3d csg xcsg_file show_path
  | None => throw no_data
  end.

(** ** [xcsg_main::run_xshape2d], lines 225-280 *)

(** Lines 255-258. *)
Fixpoint write_polygons (openscad : string) (polyset : polyset2d) : M unit :=
  match polyset with
  | [] => ret tt
  | poly :: rest =>
      call (EvWritePolygon poly) (write_polygon X openscad poly) ;;
      write_polygons openscad rest
  end.

(** Lines 265 and 271: as on the 3D path, the label is streamed before the
    encoder is called. *)
Definition write2d (f : format2d) (label : string) (polyset : polyset2d)
    (xcsg_file : string) (show_path : bool) : M unit :=
  cout (CreatedLabel label) ;;
  path <- call (EvEncode2d f polyset xcsg_file)
               (encode2d X f polyset xcsg_file) ;;
  cout (CreatedFile (DisplayName (filename_of X path) show_path)).

(** Lines 252-272.  An [openscad_csg] is known by its [path()]; line 259
    has no call that can throw inside. *)
Definition export2d (polyset : polyset2d) (xcsg_file : string)
    (show_path : bool) : M unit :=
  when (flag "csg")
    (openscad <- call (EvOpenscad xcsg_file) (openscad_open X xcsg_file) ;;
     write_polygons openscad polyset ;;
     cout (CreatedLabel "Created OpenSCAD file: ") ;;
     cout (CreatedFile (DisplayName (filename_of X openscad) show_path))) ;;
  (* write SVG? *)
  when (flag "svg")
    (write2d fmt_svg "Created SVG      file: " polyset xcsg_file show_path) ;;
  (* write DXF last so it is the most recent updated format *)
  when (flag "dxf")
    (write2d fmt_dxf "Created DXF      file: " polyset xcsg_file show_path).

(** Lines 245-248: [clipper_boolean csg; csg.compute(...)] and the polyset
    of its profile.  There is no [try] here. *)
Definition boolean2d (obj : xshape2d) : M polyset2d :=
  profile <- call (EvCreateClipperProfile obj) (create_clipper_profile X obj) ;;
  call (EvClipperCompute profile) (clipper_compute X profile).

Definition run_xshape2d (node : cf_xmlNode) (xcsg_file : string) : M bool :=
  cout (ProcessingShape2d (tag node)) ;;
  obj <- call (EvMakeShape2d node) (make_shape2d X node) ;;
  match obj with
  | Some obj =>
      let show_path := flag "fullpath" in
      let nbool := shape2d_nbool X obj in
      cout (CompletedTree nbool) ;;
      check_max_bool nbool ;;
      when (0 <? nbool)%N (cout StartingBooleans) ;;
      polyset <- boolean2d obj ;;
      let nmani := length polyset in
      cout (ResultLumps (N.of_nat nmani)) ;;
      export2d polyset xcsg_file show_path ;;
      ret true
  | None => throw no_data
  end.

(** ** [xcsg_main::run], lines 57-129 *)

(** Lines 109-119, the body of the loop over the children of the root;
    returns the new [icount]. *)
Definition child_step (child : cf_xmlNode) (icount : N) (xcsg_file : string)
  : M N :=
  if negb (is_attribute_node child) then
    if is_solid X child then
      run_xsolid child xcsg_file ;; ret (size_t_succ icount)
    else if is_shape2d X child then
      run_xshape2d child xcsg_file ;; ret (size_t_succ icount)
    else ret icount
  else ret icount.

(** Lines 108-121: [for(auto i=root.begin(); i!=root.end(); i++)] with
    [if(icount > 0)break;] at the end of each turn. *)
Fixpoint children_loop (rest : list cf_xmlNode) (icount : N)
    (xcsg_file : string) : M unit :=
  match rest with
  | [] => ret tt
  | child :: rest' =>
      icount1 <- child_step child icount xcsg_file ;;
      if (0 <? icount1)%N then ret tt
      else children_loop rest' icount1 xcsg_file
  end.

(** Lines 65-74: read the argument and normalise its separators. *)
Definition command_line_error (ex : exn) : exn :=
  logic_error ("xcsg  command line processing error: " ++ what ex
                 ++ ", please report. " ++ endl).

Definition input_path : M string :=
  match get_string m_cmd "xcsg-file" with
  | Ret s => ret (replace backslash slash s)
  | Raise ex =>
      if is_std_exception ex then throw (command_line_error ex) else throw ex
  end.

(** Lines 84-94: a [.csg] input is converted and written next to itself as
    [.xcsg]; returns the tree, [file] and [xcsg_file] as they are then. *)
Definition convert (tree : cf_xmlTree) (file : std_filename)
    (xcsg_file : string) : M (cf_xmlTree * std_filename * string) :=
  if String.eqb (GetExt X file) ".csg" then
    cout (Converting xcsg_file) ;;
    tree1 <- call (EvToXcsg xcsg_file) (to_xcsg X xcsg_file tree) ;;
    let file1 := SetExt X file "xcsg" in
    let xcsg_file1 := GetFullPath X file1 in
    call (EvWriteXml xcsg_file1) (write_xml X tree1 xcsg_file1) ;;
    ret (tree1, file1, xcsg_file1)
  else ret (tree, file, xcsg_file).

(** Lines 96-127. *)
Definition process (tree : cf_xmlTree) (file : std_filename)
    (xcsg_file : string) (show_path : bool) : M unit :=
  r <- act (EvReadXml xcsg_file) (read_xml X tree xcsg_file) ;;
  let '(ok, tree1) := r in
  if ok : bool then
    cout (Processing (DisplayName file show_path)) ;;
    match get_root tree1 with
    | Some root =>
        if String.eqb "xcsg" (tag root) then
          (* set the global secant tolerance *)
          act (EvSetSecantTolerance root)
              (fun w => (tt, set_secant_tolerance X root w)) ;;
          children_loop (children root) 0 xcsg_file
        else ret tt
    | None => ret tt
    end
  else cout (NotFound xcsg_file).

Definition file_not_found (xcsg_file : string) : exn :=
  runtime_error ("File does not exist: " ++ xcsg_file).

Definition run : M bool :=
  if negb (parsed_ok m_cmd) then ret false
  else if (count m_cmd "xcsg-file" =? 0)%nat then
    cout MissingInput ;; ret false
  else
    xcsg_file <- input_path ;;
    found <- act (EvExists xcsg_file) (fun w => (Exists X xcsg_file w, w)) ;;
    if negb found then throw (file_not_found xcsg_file)
    else
      (* determine if we shall display full file paths *)
      let show_path := flag "fullpath" in
      let tree : cf_xmlTree := None in
      let file := filename_of X xcsg_file in
      c <- convert tree file xcsg_file ;;
      let '(tree1, file1, xcsg_file1) := c in
      process tree1 file1 xcsg_file1 show_path ;;
      ret true.

(** ** Vocabulary of the properties *)

(** The three components of a run. *)
Definition outcome {A} (x : result A * W * list event) : result A := fst (fst x).
Definition world_after {A} (x : result A * W * list event) : W := snd (fst x).
Definition trace {A} (x : result A * W * list event) : list event := snd x.

(** The lines a trace prints. *)
Fixpoint console (t : list event) : list message :=
  match t with
  | [] => []
  | Cout m :: rest => m :: console rest
  | _ :: rest => console rest
  end.

(** Every event a computation can emit satisfies [P]. *)
Definition emits {A} (P : event -> Prop) (m : M A) : Prop :=
  forall w, Forall P (trace (m w)).

(** Calls into the boolean kernels and the triangulation kernel. *)
Definition is_kernel_call (ev : event) : bool :=
  match ev with
  | EvCreateCarveMesh _ | EvCarveCompute _ | EvTriangulate _
  | EvCreateClipperProfile _ | EvClipperCompute _ => true
  | _ => false
  end.

(** A child of the root that the loop of [run] acts on. *)
Definition classified (child : cf_xmlNode) : bool :=
  negb (is_attribute_node child) && (is_solid X child || is_shape2d X child).

(** The path taken for such a child: the solid path wins. *)
Definition process_child (child : cf_xmlNode) (xcsg_file : string) : M bool :=
  if is_solid X child then run_xsolid child xcsg_file
  else run_xshape2d child xcsg_file.

(** The first line of [run_xsolid] and of [run_xshape2d]. *)
Definition is_entry (ev : event) : bool :=
  match ev with
  | Cout (ProcessingSolid _) | Cout (ProcessingShape2d _) => true
  | _ => false
  end.

Definition entries (t : list event) : nat := length (filter is_entry t).

(** The encoders, as the command line selects them. *)
Inductive encoder : Type :=
| enc3d (f : format3d)
| enc_csg2d
| enc2d (f : format2d).

Definition encoder_of (ev : event) : option encoder :=
  match ev with
  | EvEncode3d f _ _ => Some (enc3d f)
  | EvOpenscad _ => Some enc_csg2d
  | EvEncode2d f _ _ => Some (enc2d f)
  | _ => None
  end.

(** The encoders a trace invokes, in the order it invokes them. *)
Fixpoint encoders (t : list event) : list encoder :=
  match t with
  | [] => []
  | ev :: rest =>
      match encoder_of ev with
      | Some e => e :: encoders rest
      | None => encoders rest
      end
  end.

(** The fixed order: script format, AMF, OBJ, OFF, STL for a solid; script
    format, SVG, DXF for a 2D shape. *)
Definition rank (e : encoder) : nat :=
  match e with
  | enc3d fmt_csg => 0
  | enc3d fmt_amf => 1
  | enc3d fmt_obj => 2
  | enc3d fmt_off => 3
  | enc3d (fmt_stl _) => 4
  | enc_csg2d => 0
  | enc2d fmt_svg => 1
  | enc2d fmt_dxf => 2
  end.

(** What the flags ask for: ASCII STL only when binary STL is not asked. *)
Definition enabled (e : encoder) : bool :=
  match e with
  | enc3d fmt_csg => flag "csg"
  | enc3d fmt_amf => flag "amf"
  | enc3d fmt_obj => flag "obj"
  | enc3d fmt_off => flag "off"
  | enc3d (fmt_stl true) => flag "stl"
  | enc3d (fmt_stl false) => flag "astl" && negb (flag "stl")
  | enc_csg2d => flag "csg"
  | enc2d fmt_svg => flag "svg"
  | enc2d fmt_dxf => flag "dxf"
  end.

Definition is_3d (e : encoder) : bool :=
  match e with
  | enc3d _ => true
  | _ => false
  end.

(** [m] invokes the encoders of [plan] in that order, stopping early only
    when it throws. *)
Definition follows {A} (m : M A) (plan : list encoder) : Prop :=
  forall w, exists rest,
    plan = encoders (trace (m w)) ++ rest
    /\ (forall a, outcome (m w) = Ret a -> rest = []).

Definition planned3d : list encoder :=
  (if flag "csg" then [enc3d fmt_csg] else [])
  ++ (if flag "amf" then [enc3d fmt_amf] else [])
  ++ (if flag "obj" then [enc3d fmt_obj] else [])
  ++ (if flag "off" then [enc3d fmt_off] else [])
  ++ (if flag "stl" then [enc3d (fmt_stl true)]
      else if flag "astl" then [enc3d (fmt_stl false)] else []).

Definition planned2d : list encoder :=
  (if flag "csg" then [enc_csg2d] else [])
  ++ (if flag "svg" then [enc2d fmt_svg] else [])
  ++ (if flag "dxf" then [enc2d fmt_dxf] else []).

(** The triangulation gate, in the words of the specification: a lump needs
    triangulation iff any face has more than 3 vertices. *)
Definition needs_triangulation (p : xpolyhedron) : bool :=
  existsb (fun f => (3 <? length f)%nat) (faces p).

(** What the gate did with each lump, in order: [true] for a call of the
    triangulation kernel, [false] for a pass-through. *)
Fixpoint gate (t : list event) : list (bool * xpolyhedron) :=
  match t with
  | [] => []
  | EvTriangulate p :: rest => (true, p) :: gate rest
  | EvAdd p :: rest => (false, p) :: gate rest
  | _ :: rest => gate rest
  end.

Definition decision (p : xpolyhedron) : bool * xpolyhedron :=
  (needs_triangulation p, p).

(** A lump that needs no triangulation is in the mesh as it is. *)
Definition passed_through (lump out : xpolyhedron) : Prop :=
  needs_triangulation lump = false -> out = lump.

(** The combined mesh, in the words of the specification: "per Manifold,
    [needs_triangulation], then either [pass_through] (face set copied
    unchanged) or [triangulate] via the external triangulation kernel", and
    "all processed manifolds are accumulated into one combined triangle
    mesh".  The kernel is called in the world the calls before it have
    left; an exception of the kernel ends the accumulation. *)
Fixpoint combined_mesh (manifolds : list xpolyhedron) (w : W)
  : result (list xpolyhedron) * W :=
  match manifolds with
  | [] => (Ret [], w)
  | manifold :: rest =>
      if needs_triangulation manifold then
        match triangulate_kernel X manifold w with
        | (Ret triangles, w1) =>
            match combined_mesh rest w1 with
            | (Ret mesh, w2) => (Ret (triangles :: mesh), w2)
            | (Raise e, w2) => (Raise e, w2)
            end
        | (Raise e, w1) => (Raise e, w1)
        end
      else
        match combined_mesh rest w with
        | (Ret mesh, w2) => (Ret (manifold :: mesh), w2)
        | (Raise e, w2) => (Raise e, w2)
        end
  end.

(** The file paths an event shows to a collaborator or to the user. *)
Definition paths (ev : event) : list string :=
  match ev with
  | EvExists p | EvToXcsg p | EvWriteXml p | EvReadXml p | EvOpenscad p
  | EvEncode3d _ _ p | EvEncode2d _ _ p
  | Cout (Converting p) | Cout (NotFound p) => [p]
  | _ => []
  end.

Definition sees (allowed : list string) (ev : event) : bool :=
  forallb (fun p => existsb (String.eqb p) allowed) (paths ev).

(** No path that the event shows has a backslash. *)
Definition slashed (ev : event) : bool :=
  forallb (fun p => negb (occurs backslash p)) (paths ev).

(** The command line names an input file, as [raw]. *)
Definition names_input (raw : string) : Prop :=
  parsed_ok m_cmd = true
  /\ count m_cmd "xcsg-file" <> 0
  /\ get_string m_cmd "xcsg-file" = Ret raw.

(** What [read_xml] returned leaves the loop of [run] nothing to act on: the
    tree could not be read, or it has no root, or its root is not tagged
    [xcsg], or no child of the root is classified. *)
Definition nothing_to_process (ok : bool) (tree : cf_xmlTree) : bool :=
  negb ok ||
  match get_root tree with
  | None => true
  | Some root =>
      negb (String.eqb "xcsg" (tag root))
      || forallb (fun c => negb (classified c)) (children root)
  end.

(** The console lines of [run_xsolid] and [run_xshape2d] after their first. *)
Definition is_node_line (m : message) : bool :=
  match m with
  | CompletedTree _ | StartingBooleans | CompletedBooleans | Warning _
  | ResultLumps _ | Lump _ _ _ | Triangulating | TriangulationCompleted
  | Triangulated _ | Exporting | CreatedLabel _ | CreatedFile _ => true
  | _ => false
  end.

(** [P] holds of every event [run_xsolid] or [run_xshape2d] can emit after
    its first line, when called on [xcsg_file]. *)
Definition holds_after_entry (P : event -> Prop) (xcsg_file : string) : Prop :=
  (forall m, is_node_line m = true -> P (Cout m))
  /\ (forall n, P (EvMakeSolid n)) /\ (forall n, P (EvMakeShape2d n))
  /\ (forall n, P (EvTimerInit n))
  /\ (forall o, P (EvCreateCarveMesh o)) /\ (forall m, P (EvCarveCompute m))
  /\ (forall p, P (EvTriangulate p)) /\ (forall p, P (EvAdd p))
  /\ (forall o, P (EvCreateClipperProfile o))
  /\ (forall p, P (EvClipperCompute p))
  /\ (forall f m, P (EvEncode3d f m xcsg_file))
  /\ P (EvOpenscad xcsg_file)
  /\ (forall p, P (EvWritePolygon p))
  /\ (forall f ps, P (EvEncode2d f ps xcsg_file)).

(** What a path has emitted when it reaches its boolean stage. *)
Definition starting (nbool : N) : list event :=
  if (0 <? nbool)%N then [Cout StartingBooleans] else [].

Definition solid_head (node : cf_xmlNode) (obj : xsolid) : list event :=
  [Cout (ProcessingSolid (tag node)); EvMakeSolid node;
   Cout (CompletedTree (solid_nbool X obj))] ++ starting (solid_nbool X obj).

Definition shape2d_head (node : cf_xmlNode) (obj : xshape2d) : list event :=
  [Cout (ProcessingShape2d (tag node)); EvMakeShape2d node;
   Cout (CompletedTree (shape2d_nbool X obj))]
  ++ starting (shape2d_nbool X obj).

(** [... ;; return true] *)
Definition then_true {A} (r : result A) : result bool :=
  match r with
  | Ret _ => Ret true
  | Raise e => Raise e
  end.

(** From world [w], [run] gets as far as processing [child], the first
    classified child of the root, with [xcsg_file], in world [w1]; [before]
    is what it has emitted by then. *)
Definition reaches (w : W) (child : cf_xmlNode) (xcsg_file : string) (w1 : W)
    (before : list event) : Prop :=
  exists raw tree1 file1 w2 t2 tree3 w3 root,
    names_input raw
    /\ Exists X (replace backslash slash raw) w = true
    /\ convert None (filename_of X (replace backslash slash raw))
          (replace backslash slash raw) w
        = (Ret (tree1, file1, xcsg_file), w2, t2)
    /\ read_xml X tree1 xcsg_file w2 = (true, tree3, w3)
    /\ get_root tree3 = Some root
    /\ tag root = "xcsg"
    /\ find classified (children root) = Some child
    /\ w1 = set_secant_tolerance X root w3
    /\ before = EvExists (replace backslash slash raw) :: t2
                 ++ [EvReadXml xcsg_file;
                     Cout (Processing (DisplayName file1 (flag "fullpath")));
                     EvSetSecantTolerance root].

(** The paths a run on the input [raw] can show. *)
Definition seen_paths (raw : string) : list string :=
  let xcsg_file := replace backslash slash raw in
  let file := filename_of X xcsg_file in
  if String.eqb (GetExt X file) ".csg"
  then [xcsg_file; GetFullPath X (SetExt X file "xcsg")]
  else [xcsg_file].

(** The model graph built for [child] in world [w] asks for more boolean
    operations than the ceiling allows. *)
Definition over_ceiling (child : cf_xmlNode) (w : W) : Prop :=
  if is_solid X child then
    exists obj w1, make_solid X child w = (Ret (Some obj), w1)
                   /\ (max_bool m_cmd < solid_nbool X obj)%N
  else
    exists obj w1, make_shape2d X child w = (Ret (Some obj), w1)
                   /\ (max_bool m_cmd < shape2d_nbool X obj)%N.

(** ** Vocabulary of the further properties *)

(** The command line gives [run] nothing to work on. *)
Definition usage_error : Prop :=
  parsed_ok m_cmd = false \/ count m_cmd "xcsg-file" = 0.

(** What the conversion of a [.csg] input does. *)
Definition is_conversion (ev : event) : bool :=
  match ev with
  | Cout (Converting _) | EvToXcsg _ | EvWriteXml _ => true
  | _ => false
  end.

(** What [run] does itself, before the tolerance is set: the command line,
    the input file, its conversion and its reading. *)
Definition is_input_event (ev : event) : bool :=
  match ev with
  | EvExists _ | EvToXcsg _ | EvWriteXml _ | EvReadXml _
  | Cout MissingInput | Cout (Converting _) | Cout (Processing _)
  | Cout (NotFound _) => true
  | _ => false
  end.

Definition is_tolerance (ev : event) : bool :=
  match ev with
  | EvSetSecantTolerance _ => true
  | _ => false
  end.

(** Calls that build or change geometry: the factory, the timer of the
    boolean stage, the kernels, the accumulation of the mesh. *)
Definition builds_geometry (ev : event) : bool :=
  is_kernel_call ev ||
  match ev with
  | EvMakeSolid _ | EvMakeShape2d _ | EvTimerInit _ | EvAdd _ => true
  | _ => false
  end.

(** What only the path of a solid does. *)
Definition solid_only (ev : event) : bool :=
  match ev with
  | EvMakeSolid _ | EvTimerInit _ | EvCreateCarveMesh _ | EvCarveCompute _
  | EvTriangulate _ | EvAdd _ | EvEncode3d _ _ _
  | Cout (ProcessingSolid _) | Cout CompletedBooleans | Cout (Warning _)
  | Cout (Lump _ _ _) | Cout Triangulating | Cout TriangulationCompleted
  | Cout (Triangulated _)
  | Cout Exporting => true
  | _ => false
  end.

(** What only the path of a 2D shape does. *)
Definition shape2d_only (ev : event) : bool :=
  match ev with
  | EvMakeShape2d _ | EvCreateClipperProfile _ | EvClipperCompute _
  | EvOpenscad _ | EvWritePolygon _ | EvEncode2d _ _ _
  | Cout (ProcessingShape2d _) => true
  | _ => false
  end.

(** The [...lump i: v vertices, f polygon faces.] lines of a trace. *)
Fixpoint lump_lines (t : list event) : list (N * N * N) :=
  match t with
  | [] => []
  | Cout (Lump i v f) :: rest => (i, v, f) :: lump_lines rest
  | _ :: rest => lump_lines rest
  end.

(** The lumps with their sizes, numbered from [first]. *)
Fixpoint numbered (first : nat) (csg : list xpolyhedron)
  : list (N * N * N) :=
  match csg with
  | [] => []
  | p :: rest => (N.of_nat first, v_size p, f_size p) :: numbered (S first) rest
  end.

(** The polygons a trace writes to the OpenSCAD file. *)
Fixpoint written (t : list event) : list polygon2d :=
  match t with
  | [] => []
  | EvWritePolygon p :: rest => p :: written rest
  | _ :: rest => written rest
  end.

(** A part of a [Created ... file: name] line. *)
Definition is_created (ev : event) : bool :=
  match ev with
  | Cout (CreatedLabel _) | Cout (CreatedFile _) => true
  | _ => false
  end.

(** The number of parts of [Created ... file: name] lines in a trace. *)
Definition created (t : list event) : nat := length (filter is_created t).

Definition is_label (ev : event) : bool :=
  match ev with
  | Cout (CreatedLabel _) => true
  | _ => false
  end.

Definition is_file (ev : event) : bool :=
  match ev with
  | Cout (CreatedFile _) => true
  | _ => false
  end.

(** The number of labels [Created ... file: ] and of file names after them
    in a trace. *)
Definition labels (t : list event) : nat := length (filter is_label t).
Definition files (t : list event) : nat := length (filter is_file t).

(** [m] prints a file name for each encoder it invokes, but for the one
    that throws, and no label without an encoder. *)
Definition reports_its_files {A} (m : M A) : Prop :=
  forall w,
    files (trace (m w)) <= labels (trace (m w))
    /\ labels (trace (m w)) <= length (encoders (trace (m w)))
    /\ match outcome (m w) with
       | Ret _ => files (trace (m w)) = length (encoders (trace (m w)))
       | Raise _ => length (encoders (trace (m w))) <= S (files (trace (m w)))
       end.

(** [m] throws nothing but exceptions that satisfy [Q]. *)
Definition raises_only {A} (Q : exn -> Prop) (m : M A) : Prop :=
  forall w e, outcome (m w) = Raise e -> Q e.

(** The failures the driver raises itself while it processes a node. *)
Definition own_failure (e : exn) : Prop :=
  e = no_data \/ e = logic_error max_message.

(** An exception thrown by a collaborator of the 3D path and not caught
    there. *)
Definition thrown_on_solid_path (e : exn) : Prop :=
  (exists node w w1, make_solid X node w = (Raise e, w1))
  \/ (exists obj w w1,
         create_carve_mesh X obj w = (Raise e, w1)
         /\ is_carve_exception e = false)
  \/ (exists mesh csg w csg1 w1,
         carve_compute X mesh csg w = (csg1, Some e, w1)
         /\ is_carve_exception e = false)
  \/ (exists p w w1, triangulate_kernel X p w = (Raise e, w1))
  \/ (exists f mesh path w w1, encode3d X f mesh path w = (Raise e, w1)).

(** An exception thrown by a collaborator of the 2D path. *)
Definition thrown_on_shape2d_path (e : exn) : Prop :=
  (exists node w w1, make_shape2d X node w = (Raise e, w1))
  \/ (exists obj w w1, create_clipper_profile X obj w = (Raise e, w1))
  \/ (exists profile w w1, clipper_compute X profile w = (Raise e, w1))
  \/ (exists path w w1, openscad_open X path w = (Raise e, w1))
  \/ (exists openscad p w w1, write_polygon X openscad p w = (Raise e, w1))
  \/ (exists f polyset path w w1,
         encode2d X f polyset path w = (Raise e, w1)).

(** A failure of the input: the argument cannot be read, the file does not
    exist, or its conversion throws. *)
Definition input_failure (e : exn) : Prop :=
  (exists ex,
      get_string m_cmd "xcsg-file" = Raise ex
      /\ e = if is_std_exception ex then command_line_error ex else ex)
  \/ (exists raw,
         get_string m_cmd "xcsg-file" = Ret raw
         /\ e = file_not_found (replace backslash slash raw))
  \/ (exists path tree w w1, to_xcsg X path tree w = (Raise e, w1))
  \/ (exists tree path w w1, write_xml X tree path w = (Raise e, w1)).

(** ** How computations run *)

Unset Implicit Arguments.

Lemma bind_run {A B} (m : M A) (k : A -> M B) (w : W) :
  bind m k w =
    match m w with
    | (Ret a, w1, t1) =>
        (outcome (k a w1), world_after (k a w1), t1 ++ trace (k a w1))
    | (Raise e, w1, t1) => (Raise e, w1, t1)
    end.
Proof.
  unfold bind, outcome, world_after, trace.
  destruct (m w) as [[[a | e] w1] t1]; [ | reflexivity ].
  destruct (k a w1) as [[r w2] t2]; reflexivity.
Qed.

Lemma bind_returns {A B} (m : M A) (k : A -> M B) w a w1 t1 :
  m w = (Ret a, w1, t1) ->
  bind m k w = (outcome (k a w1), world_after (k a w1), t1 ++ trace (k a w1)).
Proof. intros H. rewrite bind_run, H. reflexivity. Qed.

Lemma bind_raises {A B} (m : M A) (k : A -> M B) w e w1 t1 :
  m w = (Raise e, w1, t1) -> bind m k w = (Raise e, w1, t1).
Proof. intros H. rewrite bind_run, H. reflexivity. Qed.

Lemma run_eta {A} (x : result A * W * list event) :
  x = (outcome x, world_after x, trace x).
Proof. destruct x as [[r w] t]. reflexivity. Qed.

Lemma check_max_bool_over (nbool : N) (w : W) :
  (max_bool m_cmd < nbool)%N ->
  check_max_bool nbool w = (Raise (logic_error max_message), w, []).
Proof.
  intros H. unfold check_max_bool.
  apply N.ltb_lt in H. rewrite H. reflexivity.
Qed.

Lemma check_max_bool_within (nbool : N) (w : W) :
  (nbool <= max_bool m_cmd)%N -> check_max_bool nbool w = (Ret tt, w, []).
Proof.
  intros H. unfold check_max_bool.
  apply N.ltb_ge in H. rewrite H. reflexivity.
Qed.

Lemma bind_note {B} (ev : event) (k : unit -> M B) (w : W) :
  bind (note ev) k w =
    (outcome (k tt w), world_after (k tt w), ev :: trace (k tt w)).
Proof. rewrite bind_run. reflexivity. Qed.

Lemma bind_cout {B} (m : message) (k : unit -> M B) (w : W) :
  bind (cout m) k w =
    (outcome (k tt w), world_after (k tt w), Cout m :: trace (k tt w)).
Proof. apply bind_note. Qed.

Lemma bind_ret {A B} (a : A) (k : A -> M B) (w : W) : bind (ret a) k w = k a w.
Proof. rewrite bind_run. cbn. symmetry. apply run_eta. Qed.

Lemma bind_throw {A B} (e : exn) (k : A -> M B) (w : W) :
  bind (throw e) k w = (Raise e, w, []).
Proof. rewrite bind_run. reflexivity. Qed.

Lemma bind_call_returns {A B} ev (f : W -> result A * W) (k : A -> M B) w a w1 :
  f w = (Ret a, w1) ->
  bind (call ev f) k w =
    (outcome (k a w1), world_after (k a w1), ev :: trace (k a w1)).
Proof. intros H. rewrite bind_run. unfold call. rewrite H. reflexivity. Qed.

Lemma bind_call_raises {A B} ev (f : W -> result A * W) (k : A -> M B) w e w1 :
  f w = (Raise e, w1) -> bind (call ev f) k w = (Raise e, w1, [ev]).
Proof. intros H. rewrite bind_run. unfold call. rewrite H. reflexivity. Qed.

Lemma bind_act {A B} ev (f : W -> A * W) (k : A -> M B) w :
  bind (act ev f) k w =
    (outcome (k (fst (f w)) (snd (f w))),
     world_after (k (fst (f w)) (snd (f w))),
     ev :: trace (k (fst (f w)) (snd (f w)))).
Proof. rewrite bind_run. unfold act. destruct (f w). reflexivity. Qed.

Ltac projections := cbn [outcome world_after trace fst snd app].

(** The two paths up to the ceiling check. *)
Lemma run_xsolid_over node xcsg_file w obj w1 :
  make_solid X node w = (Ret (Some obj), w1) ->
  (max_bool m_cmd < solid_nbool X obj)%N ->
  run_xsolid node xcsg_file w =
    (Raise (logic_error max_message), w1,
     [Cout (ProcessingSolid (tag node)); EvMakeSolid node;
      Cout (CompletedTree (solid_nbool X obj))]).
Proof.
  intros Hmake Hover. unfold run_xsolid.
  rewrite bind_cout, (bind_call_returns _ _ _ _ _ _ Hmake). cbn zeta.
  rewrite bind_cout, bind_run, (check_max_bool_over _ _ Hover).
  reflexivity.
Qed.

Lemma run_xshape2d_over node xcsg_file w obj w1 :
  make_shape2d X node w = (Ret (Some obj), w1) ->
  (max_bool m_cmd < shape2d_nbool X obj)%N ->
  run_xshape2d node xcsg_file w =
    (Raise (logic_error max_message), w1,
     [Cout (ProcessingShape2d (tag node)); EvMakeShape2d node;
      Cout (CompletedTree (shape2d_nbool X obj))]).
Proof.
  intros Hmake Hover. unfold run_xshape2d.
  rewrite bind_cout, (bind_call_returns _ _ _ _ _ _ Hmake). cbn zeta.
  rewrite bind_cout, bind_run, (check_max_bool_over _ _ Hover).
  reflexivity.
Qed.

(** ** What a computation can emit *)

Lemma emits_ret {A} P (a : A) : emits P (ret a).
Proof. intros w. constructor. Qed.

Lemma emits_throw {A} P e : emits P (@throw A e).
Proof. intros w. constructor. Qed.

Lemma emits_note (P : event -> Prop) ev : P ev -> emits P (note ev).
Proof. intros H w. cbn. now repeat constructor. Qed.

Lemma emits_call {A} (P : event -> Prop) ev (f : W -> result A * W) :
  P ev -> emits P (call ev f).
Proof. intros H w. unfold call. destruct (f w). cbn. now repeat constructor. Qed.

Lemma emits_act {A} (P : event -> Prop) ev (f : W -> A * W) :
  P ev -> emits P (act ev f).
Proof. intros H w. unfold act. destruct (f w). cbn. now repeat constructor. Qed.

Lemma emits_bind {A B} P (m : M A) (k : A -> M B) :
  emits P m -> (forall a, emits P (k a)) -> emits P (bind m k).
Proof.
  intros Hm Hk w. rewrite bind_run. specialize (Hm w).
  destruct (m w) as [[[a | e] w1] t1]; projections; [ | exact Hm ].
  apply Forall_app. split; [ exact Hm | apply Hk ].
Qed.

Lemma emits_when P b (m : M unit) : emits P m -> emits P (when b m).
Proof. intros H. destruct b; [ exact H | apply emits_ret ]. Qed.

Lemma emits_check_max_bool P nbool : emits P (check_max_bool nbool).
Proof.
  unfold check_max_bool.
  destruct (_ <? _)%N; [ apply emits_throw | apply emits_ret ].
Qed.

Lemma emits_boolean3d (P : event -> Prop) obj nbool :
  P (EvTimerInit (to_int nbool)) ->
  P (EvCreateCarveMesh obj) ->
  (forall mesh, P (EvCarveCompute mesh)) ->
  P (Cout CompletedBooleans) ->
  (forall msg, P (Cout (Warning msg))) ->
  emits P (boolean3d obj nbool).
Proof.
  intros H1 H2 H3 H4 H5 w. unfold boolean3d, try_boolean.
  destruct (create_carve_mesh X obj _) as [[mesh | e] w2].
  - destruct (carve_compute X mesh _ w2) as [[csg1 [e | ]] w3].
    + destruct (is_carve_exception e); cbn; repeat constructor; auto.
    + cbn. repeat constructor; auto.
  - destruct (is_carve_exception e); cbn; repeat constructor; auto.
Qed.

Ltac emits_step :=
  lazymatch goal with
  | |- emits _ (bind _ _) => apply emits_bind; [ | intros ? ]
  | |- emits _ (ret _) => apply emits_ret
  | |- emits _ (throw _) => apply emits_throw
  | |- emits _ (cout _) => apply emits_note
  | |- emits _ (note _) => apply emits_note
  | |- emits _ (call _ _) => apply emits_call
  | |- emits _ (act _ _) => apply emits_act
  | |- emits _ (when _ _) => apply emits_when
  | |- emits _ (check_max_bool _) => apply emits_check_max_bool
  | |- emits _ (boolean3d _ _) => apply emits_boolean3d; intros
  | |- emits _ (if ?b then _ else _) => destruct b
  | |- emits _ (match ?x with _ => _ end) => destruct x
  end.

Ltac emits_all := repeat (cbv zeta; emits_step).

Ltac as_emits :=
  lazymatch goal with
  | |- forall w, Forall ?P (trace (@?m w)) =>
      lazymatch m with
      | (fun w => ?c w) => change (emits P c)
      end
  end.

(** The stages, for a property [P] that holds of each event they can emit:
    the side conditions are left to the caller. *)
Lemma emits_lumps (P : event -> Prop) csg :
  (forall i v f, P (Cout (Lump i v f))) ->
  P (Cout Triangulating) ->
  P (Cout TriangulationCompleted) ->
  (forall n, P (Cout (Triangulated n))) ->
  (forall p, P (EvTriangulate p)) ->
  (forall p, P (EvAdd p)) ->
  forall remaining imani tri, emits P (lumps csg remaining imani tri).
Proof.
  intros H1 H2 H3 H4 H5 H6.
  induction remaining as [ | k IH ]; intros imani tri; cbn [lumps].
  - apply emits_ret.
  - apply emits_bind; [ | intros a; apply IH ].
    unfold lump. emits_all; auto.
Qed.

Lemma emits_export3d (P : event -> Prop) mesh xcsg_file show_path :
  (forall f, P (EvEncode3d f mesh xcsg_file)) ->
  (forall label, P (Cout (CreatedLabel label))) ->
  (forall name, P (Cout (CreatedFile name))) ->
  emits P (export3d mesh xcsg_file show_path).
Proof. intros H1 H2 H3. unfold export3d, write3d. emits_all; auto. Qed.

Lemma emits_write_polygons (P : event -> Prop) openscad polyset :
  (forall p, P (EvWritePolygon p)) ->
  emits P (write_polygons openscad polyset).
Proof.
  intros H.
  induction polyset as [ | p ps IH ]; cbn [write_polygons]; emits_all; auto.
Qed.

Lemma emits_export2d (P : event -> Prop) polyset xcsg_file show_path :
  P (EvOpenscad xcsg_file) ->
  (forall p, P (EvWritePolygon p)) ->
  (forall f, P (EvEncode2d f polyset xcsg_file)) ->
  (forall label, P (Cout (CreatedLabel label))) ->
  (forall name, P (Cout (CreatedFile name))) ->
  emits P (export2d polyset xcsg_file show_path).
Proof.
  intros H1 H2 H3 H4 H5. unfold export2d, write2d. emits_all; auto.
  now apply emits_write_polygons.
Qed.

Lemma run_xsolid_trace (P : event -> Prop) node xcsg_file w :
  holds_after_entry P xcsg_file ->
  exists rest,
    trace (run_xsolid node xcsg_file w) = Cout (ProcessingSolid (tag node)) :: rest
    /\ Forall P rest.
Proof.
  intros (Hc & H1 & H2 & H3 & H4 & H5 & H6 & H7 & H8 & H9 & Ha & Hb & Hd & He).
  unfold run_xsolid. rewrite bind_cout. projections.
  eexists. split; [ reflexivity | ].
  revert w. as_emits. emits_all; auto.
  unfold after_boolean3d. emits_all; auto.
  - apply emits_lumps; auto.
  - apply emits_export3d; auto.
Qed.

Lemma run_xshape2d_trace (P : event -> Prop) node xcsg_file w :
  holds_after_entry P xcsg_file ->
  exists rest,
    trace (run_xshape2d node xcsg_file w)
      = Cout (ProcessingShape2d (tag node)) :: rest
    /\ Forall P rest.
Proof.
  intros (Hc & H1 & H2 & H3 & H4 & H5 & H6 & H7 & H8 & H9 & Ha & Hb & Hd & He).
  unfold run_xshape2d. rewrite bind_cout. projections.
  eexists. split; [ reflexivity | ].
  revert w. as_emits. emits_all; auto.
  - unfold boolean2d. emits_all; auto.
  - apply emits_export2d; auto.
Qed.

Lemma no_entry_after_entry xcsg_file :
  holds_after_entry (fun ev => is_entry ev = false) xcsg_file.
Proof. repeat split; auto. intros m; now destruct m. Qed.

(** ** The loop over the children of the root *)

Lemma size_t_succ_0 : (0 <? size_t_succ 0)%N = true.
Proof. reflexivity. Qed.

Lemma child_step_skips child xcsg_file w :
  classified child = false ->
  child_step child 0 xcsg_file w = (Ret 0%N, w, []).
Proof.
  unfold classified, child_step. intros H.
  destruct (is_attribute_node child); [ reflexivity | ].
  destruct (is_solid X child); [ discriminate | ].
  destruct (is_shape2d X child); [ discriminate | reflexivity ].
Qed.

Lemma child_step_acts child xcsg_file :
  classified child = true ->
  child_step child 0 xcsg_file =
    (process_child child xcsg_file ;; ret (size_t_succ 0)).
Proof.
  unfold classified, child_step, process_child. intros H.
  destruct (is_attribute_node child); [ discriminate | ].
  destruct (is_solid X child); [ reflexivity | ].
  destruct (is_shape2d X child); [ reflexivity | discriminate ].
Qed.

(** The loop does what processing the first classified child does. *)
Lemma children_loop_find rest xcsg_file w :
  children_loop rest 0 xcsg_file w =
    match find classified rest with
    | Some child => (process_child child xcsg_file ;; ret tt) w
    | None => (Ret tt, w, [])
    end.
Proof.
  induction rest as [ | child rest IH ]; [ reflexivity | ].
  cbn [children_loop find].
  destruct (classified child) eqn:Hc.
  - rewrite (child_step_acts _ _ Hc), !bind_run.
    destruct (process_child child xcsg_file w) as [[[b | e] w1] t1];
      [ | reflexivity ].
    unfold ret. projections. rewrite size_t_succ_0. projections.
    now rewrite !app_nil_r.
  - rewrite bind_run, (child_step_skips _ _ _ Hc). cbn iota.
    change (0 <? 0)%N with false. cbn iota. projections.
    rewrite IH. destruct (find classified rest); symmetry; apply run_eta.
Qed.

Lemma process_child_entries child xcsg_file w :
  entries (trace (process_child child xcsg_file w)) = 1.
Proof.
  assert (Hrest : forall rest, Forall (fun ev => is_entry ev = false) rest ->
                               filter is_entry rest = []).
  { induction 1 as [ | ev rest Hev _ IH ]; [ reflexivity | ].
    cbn. now rewrite Hev. }
  unfold process_child, entries.
  destruct (is_solid X child).
  - destruct (run_xsolid_trace _ child xcsg_file w
                (no_entry_after_entry xcsg_file)) as (rest & -> & H).
    cbn. now rewrite (Hrest _ H).
  - destruct (run_xshape2d_trace _ child xcsg_file w
                (no_entry_after_entry xcsg_file)) as (rest & -> & H).
    cbn. now rewrite (Hrest _ H).
Qed.

(** ** The order of the encoders *)

Lemma encoders_app t1 t2 : encoders (t1 ++ t2) = encoders t1 ++ encoders t2.
Proof.
  induction t1 as [ | ev t1 IH ]; [ reflexivity | ].
  cbn. destruct (encoder_of ev); cbn; now rewrite IH.
Qed.

Lemma follows_ret {A} (a : A) : follows (ret a) [].
Proof. intros w. exists []. split; [ reflexivity | intros; reflexivity ]. Qed.

Lemma follows_throw {A} e plan : follows (@throw A e) plan.
Proof. intros w. exists plan. split; [ reflexivity | intros a H; discriminate H ]. Qed.

Lemma follows_note ev : encoder_of ev = None -> follows (note ev) [].
Proof.
  intros H w. exists []. cbn. rewrite H.
  split; [ reflexivity | intros; reflexivity ].
Qed.

Lemma follows_call {A} ev (f : W -> result A * W) :
  encoder_of ev = None -> follows (call ev f) [].
Proof.
  intros H w. exists []. unfold call. destruct (f w) as [r w1]. cbn.
  rewrite H. split; [ reflexivity | intros; reflexivity ].
Qed.

Lemma follows_act {A} ev (f : W -> A * W) :
  encoder_of ev = None -> follows (act ev f) [].
Proof.
  intros H w. exists []. unfold act. destruct (f w) as [r w1]. cbn.
  rewrite H. split; [ reflexivity | intros; reflexivity ].
Qed.

Lemma follows_encoder {A} ev (f : W -> result A * W) e :
  encoder_of ev = Some e -> follows (call ev f) [e].
Proof.
  intros H w. exists []. unfold call. destruct (f w) as [r w1]. cbn.
  rewrite H. split; [ reflexivity | intros; reflexivity ].
Qed.

Lemma follows_bind {A B} (m : M A) (k : A -> M B) p1 p2 :
  follows m p1 -> (forall a, follows (k a) p2) -> follows (bind m k) (p1 ++ p2).
Proof.
  intros Hm Hk w. rewrite bind_run.
  destruct (Hm w) as (rest1 & E1 & R1).
  destruct (m w) as [[[a | e] w1] t1]; projections; cbn [trace snd] in E1.
  - rewrite (R1 a eq_refl), app_nil_r in E1. subst p1.
    destruct (Hk a w1) as (rest2 & E2 & R2). exists rest2.
    rewrite encoders_app, <- app_assoc, <- E2. split; [ reflexivity | exact R2 ].
  - exists (rest1 ++ p2). rewrite app_assoc, <- E1.
    split; [ reflexivity | intros a H; discriminate H ].
Qed.

Lemma follows_silent {A B} (m : M A) (k : A -> M B) plan :
  follows m [] -> (forall a, follows (k a) plan) -> follows (bind m k) plan.
Proof. intros Hm Hk. apply (follows_bind m k [] plan Hm Hk). Qed.

Lemma follows_when b (m : M unit) plan :
  follows m plan -> follows (when b m) (if b then plan else []).
Proof. intros H. destruct b; [ exact H | apply follows_ret ]. Qed.

Lemma follows_when_silent b (m : M unit) :
  follows m [] -> follows (when b m) [].
Proof. intros H. destruct b; [ exact H | apply follows_ret ]. Qed.

Ltac silent_step :=
  lazymatch goal with
  | |- follows (bind (export3d _ _ _) _) _ => fail
  | |- follows (bind (export2d _ _ _) _) _ => fail
  | |- follows (when _ _) [] => apply follows_when_silent
  | |- follows (check_max_bool _) [] =>
      unfold check_max_bool
  | |- follows (bind _ _) _ => apply follows_silent; [ | intros ? ]
  | |- follows (ret _) _ => apply follows_ret
  | |- follows (throw _) _ => apply follows_throw
  | |- follows (cout _) _ => apply follows_note; reflexivity
  | |- follows (note _) _ => apply follows_note; reflexivity
  | |- follows (call _ _) _ => apply follows_call; reflexivity
  | |- follows (act _ _) _ => apply follows_act; reflexivity
  | |- follows (if ?b then _ else _) _ => destruct b
  | |- follows (match ?x with _ => _ end) _ => destruct x
  end.

Ltac silent := repeat (cbv zeta; silent_step).

Lemma boolean3d_silent obj nbool : follows (boolean3d obj nbool) [].
Proof.
  intros w. exists []. unfold boolean3d, try_boolean.
  destruct (create_carve_mesh X obj _) as [[mesh | e] w2].
  - destruct (carve_compute X mesh _ w2) as [[csg1 [e | ]] w3].
    + destruct (is_carve_exception e); cbn; auto.
    + cbn. auto.
  - destruct (is_carve_exception e); cbn; auto.
Qed.

Lemma lumps_silent csg remaining :
  forall imani tri, follows (lumps csg remaining imani tri) [].
Proof.
  induction remaining as [ | k IH ]; intros imani tri; cbn [lumps].
  - apply follows_ret.
  - apply follows_silent; [ | intros a; apply IH ].
    unfold lump. silent.
Qed.

Lemma write_polygons_silent openscad polyset :
  follows (write_polygons openscad polyset) [].
Proof.
  induction polyset as [ | p ps IH ]; cbn [write_polygons]; silent. exact IH.
Qed.

Lemma write3d_follows f label mesh xcsg_file show_path :
  follows (write3d f label mesh xcsg_file show_path) [enc3d f].
Proof.
  unfold write3d.
  apply follows_silent; [ apply follows_note; reflexivity | intros _ ].
  apply (follows_bind _ _ [enc3d f] []).
  - now apply follows_encoder.
  - intros path. silent.
Qed.

Lemma write2d_follows f label polyset xcsg_file show_path :
  follows (write2d f label polyset xcsg_file show_path) [enc2d f].
Proof.
  unfold write2d.
  apply follows_silent; [ apply follows_note; reflexivity | intros _ ].
  apply (follows_bind _ _ [enc2d f] []).
  - now apply follows_encoder.
  - intros path. silent.
Qed.

Lemma export3d_follows mesh xcsg_file show_path :
  follows (export3d mesh xcsg_file show_path) planned3d.
Proof.
  unfold export3d, planned3d.
  repeat (apply follows_bind;
          [ apply follows_when, write3d_follows | intros _ ]).
  destruct (flag "stl"); [ apply write3d_follows | ].
  apply follows_when, write3d_follows.
Qed.

Lemma export2d_follows polyset xcsg_file show_path :
  follows (export2d polyset xcsg_file show_path) planned2d.
Proof.
  unfold export2d, planned2d.
  apply follows_bind; [ | intros _; apply follows_bind; [ | intros _ ] ];
    try apply follows_when, write2d_follows.
  apply follows_when.
  apply (follows_bind _ _ [enc_csg2d] []); [ now apply follows_encoder | ].
  intros openscad. silent. apply write_polygons_silent.
Qed.

Lemma run_xsolid_follows node xcsg_file :
  follows (run_xsolid node xcsg_file) planned3d.
Proof.
  unfold run_xsolid. silent.
  - apply boolean3d_silent.
  - unfold after_boolean3d. silent.
    + apply lumps_silent.
    + rewrite <- (app_nil_r planned3d). apply follows_bind.
      * apply export3d_follows.
      * intros _. apply follows_ret.
Qed.

Lemma run_xshape2d_follows node xcsg_file :
  follows (run_xshape2d node xcsg_file) planned2d.
Proof.
  unfold run_xshape2d. silent.
  - unfold boolean2d. silent.
  - rewrite <- (app_nil_r planned2d). apply follows_bind.
    + apply export2d_follows.
    + intros _. apply follows_ret.
Qed.

Lemma StronglySorted_app_l {A} (R : A -> A -> Prop) l1 l2 :
  StronglySorted R (l1 ++ l2) -> StronglySorted R l1.
Proof.
  induction l1 as [ | a l1 IH ]; intros H; [ constructor | ].
  cbn in H. inversion H as [ | ? ? Hs Hf ]; subst. constructor.
  - now apply IH.
  - apply Forall_app in Hf. apply Hf.
Qed.

Lemma planned3d_sorted : StronglySorted lt (map rank planned3d).
Proof.
  unfold planned3d.
  destruct (flag "csg"), (flag "amf"), (flag "obj"), (flag "off"),
    (flag "stl"), (flag "astl");
    cbn; repeat constructor.
Qed.

Lemma planned2d_sorted : StronglySorted lt (map rank planned2d).
Proof.
  unfold planned2d.
  destruct (flag "csg"), (flag "svg"), (flag "dxf"); cbn; repeat constructor.
Qed.

Lemma planned3d_enabled e :
  In e planned3d <-> is_3d e = true /\ enabled e = true.
Proof.
  unfold planned3d, enabled.
  destruct (flag "csg"), (flag "amf"), (flag "obj"), (flag "off"),
    (flag "stl"), (flag "astl");
    destruct e as [ [ | | | | [ | ] ] | | [ | ] ]; cbn;
    intuition (discriminate || congruence).
Qed.

Lemma planned2d_enabled e :
  In e planned2d <-> is_3d e = false /\ enabled e = true.
Proof.
  unfold planned2d, enabled.
  destruct (flag "csg"), (flag "svg"), (flag "dxf");
    destruct e as [ [ | | | | [ | ] ] | | [ | ] ]; cbn;
    intuition (discriminate || congruence).
Qed.

Lemma follows_in_order {A} (m : M A) plan (ok : encoder -> Prop) w :
  follows m plan ->
  StronglySorted lt (map rank plan) ->
  (forall e, In e plan <-> ok e) ->
  StronglySorted lt (map rank (encoders (trace (m w))))
  /\ (forall e, In e (encoders (trace (m w))) -> ok e)
  /\ (forall a, outcome (m w) = Ret a ->
       forall e, ok e -> In e (encoders (trace (m w)))).
Proof.
  intros Hf Hsorted Hok. destruct (Hf w) as (rest & E & R).
  repeat split.
  - rewrite E, map_app in Hsorted. exact (StronglySorted_app_l _ _ _ Hsorted).
  - intros e He. apply Hok. rewrite E. apply in_or_app. now left.
  - intros a Ha e He. apply Hok in He.
    rewrite E, (R a Ha), app_nil_r in He. exact He.
Qed.

(** ** The triangulation gate *)

Lemma check_polyhedron_needs p :
  (0 <? check_polyhedron p)%nat = needs_triangulation p.
Proof.
  unfold check_polyhedron, needs_triangulation.
  induction (faces p) as [ | f fs IH ]; [ reflexivity | ].
  cbn [filter existsb]. destruct (3 <? length f)%nat; [ reflexivity | exact IH ].
Qed.

Lemma gate_app t1 t2 : gate (t1 ++ t2) = gate t1 ++ gate t2.
Proof.
  induction t1 as [ | ev t1 IH ]; [ reflexivity | ].
  destruct ev; cbn; now rewrite IH.
Qed.

(** One turn: one decision, and on return one more entry in the mesh. *)
Lemma lump_gate csg imani tri w :
  gate (trace (lump csg imani tri w)) = [decision (create_manifold csg imani)]
  /\ (forall tri1, outcome (lump csg imani tri w) = Ret tri1 ->
        exists out, tri1 = tri ++ [out]
                    /\ passed_through (create_manifold csg imani) out).
Proof.
  unfold lump, decision, passed_through. cbv zeta.
  rewrite bind_cout, check_polyhedron_needs. projections.
  destruct (needs_triangulation (create_manifold csg imani)).
  - rewrite !bind_cout, bind_run. unfold call, create_carve_polyhedron.
    destruct (triangulate_kernel X _ w) as [[tris | e] w1]; projections.
    + rewrite bind_cout. cbn. split; [ reflexivity | ].
      intros tri1 H. injection H as <-. exists tris. split; [ reflexivity | ].
      discriminate.
    + cbn. split; [ reflexivity | discriminate ].
  - rewrite bind_note. cbn. split; [ reflexivity | ].
    intros tri1 H. injection H as <-. eexists. split; reflexivity.
Qed.

Lemma lumps_gate csg :
  forall remaining imani tri w,
  exists done,
    done <= remaining
    /\ gate (trace (lumps csg remaining imani tri w))
         = map (fun i => decision (create_manifold csg i)) (seq imani done)
    /\ (forall tri1, outcome (lumps csg remaining imani tri w) = Ret tri1 ->
          done = remaining
          /\ exists outs,
               tri1 = tri ++ outs
               /\ Forall2 passed_through
                    (map (create_manifold csg) (seq imani remaining)) outs).
Proof.
  induction remaining as [ | k IH ]; intros imani tri w; cbn [lumps].
  - exists 0. split; [ lia | ]. split; [ reflexivity | ].
    intros tri1 H. injection H as <-.
    split; [ reflexivity | ]. exists []. rewrite app_nil_r.
    split; [ reflexivity | constructor ].
  - rewrite bind_run.
    destruct (lump_gate csg imani tri w) as (Hg & Hout).
    destruct (lump csg imani tri w) as [[[tri1 | e] w1] t1]; projections;
      cbn [trace outcome fst snd] in Hg, Hout.
    + destruct (Hout tri1 eq_refl) as (out & -> & Hpass).
      destruct (IH (S imani) (tri ++ [out]) w1) as (done & Hle & Hgate & Hret).
      exists (S done). split; [ lia | ]. split.
      * rewrite gate_app, Hg, Hgate. reflexivity.
      * intros tri2 H. destruct (Hret tri2 H) as (-> & outs & -> & Hall).
        split; [ reflexivity | ]. exists (out :: outs).
        rewrite <- app_assoc. split; [ reflexivity | ].
        cbn [seq map]. now constructor.
    + exists 1. split; [ lia | ]. split; [ exact Hg | discriminate ].
Qed.

(** The loop against the combined mesh of the specification. *)
Lemma lump_result csg imani tri w :
  (outcome (lump csg imani tri w), world_after (lump csg imani tri w)) =
    if needs_triangulation (create_manifold csg imani) then
      match triangulate_kernel X (create_manifold csg imani) w with
      | (Ret tris, w1) => (Ret (tri ++ [tris]), w1)
      | (Raise e, w1) => (Raise e, w1)
      end
    else (Ret (tri ++ [create_manifold csg imani]), w).
Proof.
  unfold lump. cbv zeta.
  rewrite bind_cout, check_polyhedron_needs. projections.
  destruct (needs_triangulation (create_manifold csg imani)).
  - rewrite !bind_cout, bind_run. unfold call, create_carve_polyhedron.
    destruct (triangulate_kernel X _ w) as [[tris | e] w1]; projections;
      [ rewrite bind_cout | ]; reflexivity.
  - rewrite bind_note. reflexivity.
Qed.

Lemma skipn_nth_cons {A} (d : A) (l : list A) :
  forall i, i < length l -> skipn i l = nth i l d :: skipn (S i) l.
Proof.
  induction l as [ | a l IH ]; intros i Hi; [ cbn in Hi; lia | ].
  destruct i as [ | i ]; [ reflexivity | ].
  cbn [skipn nth]. apply IH. cbn in Hi. lia.
Qed.

Lemma lumps_result csg :
  forall remaining imani tri w,
    imani + remaining = length csg ->
    (outcome (lumps csg remaining imani tri w),
     world_after (lumps csg remaining imani tri w)) =
      match combined_mesh (skipn imani csg) w with
      | (Ret mesh, w1) => (Ret (tri ++ mesh), w1)
      | (Raise e, w1) => (Raise e, w1)
      end.
Proof.
  induction remaining as [ | k IH ]; intros imani tri w Hlen; cbn [lumps].
  - replace imani with (length csg) by lia.
    rewrite skipn_all. cbn. now rewrite app_nil_r.
  - rewrite (skipn_nth_cons {| vertices := []; faces := [] |} csg imani)
      by lia.
    cbn [combined_mesh]. fold (create_manifold csg imani).
    rewrite bind_run. pose proof (lump_result csg imani tri w) as Hl.
    destruct (lump csg imani tri w) as [[[tri1 | e] w1] t1]; projections;
      cbn [outcome world_after fst snd] in Hl;
      destruct (needs_triangulation (create_manifold csg imani)).
    + destruct (triangulate_kernel X (create_manifold csg imani) w)
        as [[tris | e] w2]; [ | discriminate Hl ].
      injection Hl as -> ->. rewrite (IH (S imani) _ _ ltac:(lia)).
      destruct (combined_mesh (skipn (S imani) csg) _) as [[mesh | e] w3];
        [ now rewrite <- app_assoc | reflexivity ].
    + injection Hl as -> ->. rewrite (IH (S imani) _ _ ltac:(lia)).
      destruct (combined_mesh (skipn (S imani) csg) _) as [[mesh | e] w3];
        [ now rewrite <- app_assoc | reflexivity ].
    + destruct (triangulate_kernel X (create_manifold csg imani) w)
        as [[tris | e1] w2]; [ discriminate Hl | ].
      now injection Hl as -> ->.
    + discriminate Hl.
Qed.

(** The loop returns the combined mesh of the lumps, or throws what the
    triangulation kernel threw. *)
Lemma lumps_combined csg w :
  (outcome (lumps csg (csg_size csg) 0 carve_triangulate_new w),
   world_after (lumps csg (csg_size csg) 0 carve_triangulate_new w))
  = combined_mesh csg w.
Proof.
  rewrite (lumps_result csg (csg_size csg) 0 carve_triangulate_new w eq_refl).
  cbn [skipn]. destruct (combined_mesh csg w) as [[mesh | e] w1]; reflexivity.
Qed.

Lemma lumps_returns csg w mesh w1 :
  combined_mesh csg w = (Ret mesh, w1) ->
  lumps csg (csg_size csg) 0 carve_triangulate_new w
    = (Ret mesh, w1, trace (lumps csg (csg_size csg) 0 carve_triangulate_new w)).
Proof.
  intros H. pose proof (lumps_combined csg w) as Hl. rewrite H in Hl.
  injection Hl as Ho Hw.
  rewrite (run_eta (lumps csg (csg_size csg) 0 carve_triangulate_new w)) at 1.
  now rewrite Ho, Hw.
Qed.

Lemma lumps_raises csg w e w1 :
  combined_mesh csg w = (Raise e, w1) ->
  lumps csg (csg_size csg) 0 carve_triangulate_new w
    = (Raise e, w1, trace (lumps csg (csg_size csg) 0 carve_triangulate_new w)).
Proof.
  intros H. pose proof (lumps_combined csg w) as Hl. rewrite H in Hl.
  injection Hl as Ho Hw.
  rewrite (run_eta (lumps csg (csg_size csg) 0 carve_triangulate_new w)) at 1.
  now rewrite Ho, Hw.
Qed.

(** What the combined mesh is made of. *)
Lemma combined_mesh_entries csg :
  forall w mesh w1,
    combined_mesh csg w = (Ret mesh, w1) ->
    Forall2 passed_through csg mesh.
Proof.
  induction csg as [ | p csg IH ]; intros w mesh w1; cbn [combined_mesh].
  - intros H. injection H as <- <-. constructor.
  - destruct (needs_triangulation p) eqn:Hp.
    + destruct (triangulate_kernel X p w) as [[tris | e] w2]; [ | discriminate ].
      destruct (combined_mesh csg w2) as [[m | e] w3] eqn:Hm; [ | discriminate ].
      intros H. injection H as <- <-.
      constructor; [ intros E; congruence | exact (IH _ _ _ Hm) ].
    + destruct (combined_mesh csg w) as [[m | e] w3] eqn:Hm; [ | discriminate ].
      intros H. injection H as <- <-.
      constructor; [ intros _; reflexivity | exact (IH _ _ _ Hm) ].
Qed.

(** The combined mesh is a triangle mesh, if what the kernel returns is. *)
Lemma combined_mesh_triangles csg :
  (forall p w tris w1,
      triangulate_kernel X p w = (Ret tris, w1) ->
      needs_triangulation tris = false) ->
  forall w mesh w1,
    combined_mesh csg w = (Ret mesh, w1) ->
    Forall (fun out => needs_triangulation out = false) mesh.
Proof.
  intros Hkernel.
  induction csg as [ | p csg IH ]; intros w mesh w1; cbn [combined_mesh].
  - intros H. injection H as <- <-. constructor.
  - destruct (needs_triangulation p) eqn:Hp.
    + destruct (triangulate_kernel X p w) as [[tris | e] w2] eqn:Hk;
        [ | discriminate ].
      destruct (combined_mesh csg w2) as [[m | e] w3] eqn:Hm; [ | discriminate ].
      intros H. injection H as <- <-.
      constructor; [ exact (Hkernel _ _ _ _ Hk) | exact (IH _ _ _ Hm) ].
    + destruct (combined_mesh csg w) as [[m | e] w3] eqn:Hm; [ | discriminate ].
      intros H. injection H as <- <-.
      constructor; [ exact Hp | exact (IH _ _ _ Hm) ].
Qed.

(** Lumps that need no triangulation are their own combined mesh. *)
Lemma combined_mesh_of_triangles csg w :
  forallb (fun p => negb (needs_triangulation p)) csg = true ->
  combined_mesh csg w = (Ret csg, w).
Proof.
  induction csg as [ | p csg IH ]; intros H; [ reflexivity | ].
  cbn in H. apply andb_prop in H as [Hp Hcsg]. apply negb_true_iff in Hp.
  cbn [combined_mesh]. now rewrite Hp, (IH Hcsg).
Qed.

Lemma map_nth_firstn {A} (d : A) (l : list A) :
  forall done, done <= length l ->
    map (fun i => nth i l d) (seq 0 done) = firstn done l.
Proof.
  induction l as [ | a l IH ]; intros done Hle.
  - cbn in Hle. replace done with 0 by lia. reflexivity.
  - destruct done as [ | done ]; [ reflexivity | ].
    cbn [seq map firstn nth]. f_equal.
    rewrite <- seq_shift, map_map. apply IH. cbn in Hle. lia.
Qed.

Lemma decisions_firstn csg done :
  done <= length csg ->
  map (fun i => decision (create_manifold csg i)) (seq 0 done)
    = map decision (firstn done csg).
Proof.
  intros Hle.
  rewrite <- (map_nth_firstn {| vertices := []; faces := [] |} csg done Hle).
  rewrite map_map. reflexivity.
Qed.

(** ** The two paths, stage by stage *)

Lemma bind_when_cout {B} (b : bool) (m : message) (k : unit -> M B) (w : W) :
  bind (when b (cout m)) k w =
    (outcome (k tt w), world_after (k tt w),
     (if b then [Cout m] else []) ++ trace (k tt w)).
Proof.
  destruct b; cbn [when].
  - apply bind_cout.
  - rewrite bind_ret. apply run_eta.
Qed.

(** A solid within the ceiling: the run is its boolean stage and what
    follows it. *)
Lemma run_xsolid_within node xcsg_file w obj w1 :
  make_solid X node w = (Ret (Some obj), w1) ->
  (solid_nbool X obj <= max_bool m_cmd)%N ->
  run_xsolid node xcsg_file w =
    (outcome ((csg <- boolean3d obj (solid_nbool X obj) ;;
               after_boolean3d csg xcsg_file (flag "fullpath")) w1),
     world_after ((csg <- boolean3d obj (solid_nbool X obj) ;;
                   after_boolean3d csg xcsg_file (flag "fullpath")) w1),
     solid_head node obj
       ++ trace ((csg <- boolean3d obj (solid_nbool X obj) ;;
                  after_boolean3d csg xcsg_file (flag "fullpath")) w1)).
Proof.
  intros Hmake Hle. unfold run_xsolid, solid_head, starting.
  rewrite bind_cout, (bind_call_returns _ _ _ _ _ _ Hmake). cbv zeta.
  rewrite bind_cout, bind_run, (check_max_bool_within _ _ Hle).
  projections. rewrite bind_when_cout. projections. reflexivity.
Qed.

Lemma run_xshape2d_within node xcsg_file w obj w1 :
  make_shape2d X node w = (Ret (Some obj), w1) ->
  (shape2d_nbool X obj <= max_bool m_cmd)%N ->
  run_xshape2d node xcsg_file w =
    (outcome ((polyset <- boolean2d obj ;;
               cout (ResultLumps (N.of_nat (length polyset))) ;;
               export2d polyset xcsg_file (flag "fullpath") ;; ret true) w1),
     world_after ((polyset <- boolean2d obj ;;
               cout (ResultLumps (N.of_nat (length polyset))) ;;
               export2d polyset xcsg_file (flag "fullpath") ;; ret true) w1),
     shape2d_head node obj
       ++ trace ((polyset <- boolean2d obj ;;
               cout (ResultLumps (N.of_nat (length polyset))) ;;
               export2d polyset xcsg_file (flag "fullpath") ;; ret true) w1)).
Proof.
  intros Hmake Hle. unfold run_xshape2d, shape2d_head, starting.
  rewrite bind_cout, (bind_call_returns _ _ _ _ _ _ Hmake). cbv zeta.
  rewrite bind_cout, bind_run, (check_max_bool_within _ _ Hle).
  projections. rewrite bind_when_cout. projections. reflexivity.
Qed.

(** The [catch] clause. *)
Lemma boolean3d_caught obj nbool w e csg w1 t :
  try_boolean obj nbool carve_boolean_new w = (Raise e, csg, w1, t) ->
  is_carve_exception e = true ->
  boolean3d obj nbool w
    = (Ret csg, w1, t ++ [Cout (Warning ("(carve error): " ++ what e))]).
Proof. intros Htry He. unfold boolean3d. now rewrite Htry, He. Qed.


Lemma after_boolean3d_exports csg xcsg_file show_path w tri w1 t1 :
  lumps csg (csg_size csg) 0 carve_triangulate_new w = (Ret tri, w1, t1) ->
  after_boolean3d csg xcsg_file show_path w =
    (then_true (outcome (export3d (carve_polyset tri) xcsg_file show_path w1)),
     world_after (export3d (carve_polyset tri) xcsg_file show_path w1),
     Cout (ResultLumps (N.of_nat (csg_size csg))) :: t1
       ++ Cout Exporting
       :: trace (export3d (carve_polyset tri) xcsg_file show_path w1)).
Proof.
  intros Hl. unfold after_boolean3d. cbv zeta.
  rewrite bind_cout, (bind_returns _ _ _ _ _ _ Hl), bind_cout, bind_run.
  destruct (export3d (carve_polyset tri) xcsg_file show_path w1)
    as [[[[] | e] w2] t2]; projections; cbn [then_true ret];
    projections; now rewrite ?app_nil_r.
Qed.

Lemma after_boolean3d_raises csg xcsg_file show_path w e w1 t1 :
  lumps csg (csg_size csg) 0 carve_triangulate_new w = (Raise e, w1, t1) ->
  after_boolean3d csg xcsg_file show_path w =
    (Raise e, w1, Cout (ResultLumps (N.of_nat (csg_size csg))) :: t1).
Proof.
  intros Hl. unfold after_boolean3d. cbv zeta.
  rewrite bind_cout, (bind_raises _ _ _ _ _ _ Hl). reflexivity.
Qed.

(** ** [run], stage by stage *)

Lemma run_named raw w :
  names_input raw ->
  run w =
    if Exists X (replace backslash slash raw) w then
      (outcome
         ((c <- convert None (filename_of X (replace backslash slash raw))
                  (replace backslash slash raw) ;;
           let '(tree1, file1, xcsg_file1) := c in
           process tree1 file1 xcsg_file1 (flag "fullpath") ;; ret true) w),
       world_after
         ((c <- convert None (filename_of X (replace backslash slash raw))
                  (replace backslash slash raw) ;;
           let '(tree1, file1, xcsg_file1) := c in
           process tree1 file1 xcsg_file1 (flag "fullpath") ;; ret true) w),
       EvExists (replace backslash slash raw)
       :: trace
         ((c <- convert None (filename_of X (replace backslash slash raw))
                  (replace backslash slash raw) ;;
           let '(tree1, file1, xcsg_file1) := c in
           process tree1 file1 xcsg_file1 (flag "fullpath") ;; ret true) w))
    else
      (Raise (file_not_found (replace backslash slash raw)), w,
       [EvExists (replace backslash slash raw)]).
Proof.
  intros (Hok & Hcount & Hget). unfold run, input_path.
  rewrite Hok, Hget. cbn [negb].
  destruct (count m_cmd "xcsg-file" =? 0)%nat eqn:Hc;
    [ apply Nat.eqb_eq in Hc; contradiction | ].
  rewrite bind_ret, bind_act. cbn [fst snd].
  destruct (Exists X (replace backslash slash raw) w); cbn [negb].
  - reflexivity.
  - reflexivity.
Qed.

Lemma run_processes raw w tree1 file1 xcsg_file1 w1 t1 :
  names_input raw ->
  Exists X (replace backslash slash raw) w = true ->
  convert None (filename_of X (replace backslash slash raw))
    (replace backslash slash raw) w
    = (Ret (tree1, file1, xcsg_file1), w1, t1) ->
  run w =
    (then_true (outcome (process tree1 file1 xcsg_file1 (flag "fullpath") w1)),
     world_after (process tree1 file1 xcsg_file1 (flag "fullpath") w1),
     EvExists (replace backslash slash raw) :: t1
       ++ trace (process tree1 file1 xcsg_file1 (flag "fullpath") w1)).
Proof.
  intros Hin Hex Hconv. rewrite (run_named _ _ Hin), Hex.
  rewrite (bind_returns _ _ _ _ _ _ Hconv), bind_run.
  destruct (process tree1 file1 xcsg_file1 (flag "fullpath") w1)
    as [[[[] | e] w2] t2]; projections; cbn [then_true ret]; projections;
    now rewrite ?app_nil_r.
Qed.

Lemma process_unreadable tree file xcsg_file show_path w tree1 w1 :
  read_xml X tree xcsg_file w = (false, tree1, w1) ->
  process tree file xcsg_file show_path w
    = (Ret tt, w1, [EvReadXml xcsg_file; Cout (NotFound xcsg_file)]).
Proof. intros H. unfold process. rewrite bind_act, H. reflexivity. Qed.

Lemma process_no_scene tree file xcsg_file show_path w tree1 w1 :
  read_xml X tree xcsg_file w = (true, tree1, w1) ->
  match get_root tree1 with
  | Some root => String.eqb "xcsg" (tag root) = false
  | None => True
  end ->
  process tree file xcsg_file show_path w
    = (Ret tt, w1,
       [EvReadXml xcsg_file; Cout (Processing (DisplayName file show_path))]).
Proof.
  intros H Hroot. unfold process. rewrite bind_act, H. cbn [fst snd].
  rewrite bind_cout.
  destruct (get_root tree1) as [root | ]; [ rewrite Hroot | ]; reflexivity.
Qed.

Lemma process_scene tree file xcsg_file show_path w tree1 w1 root :
  read_xml X tree xcsg_file w = (true, tree1, w1) ->
  get_root tree1 = Some root ->
  tag root = "xcsg" ->
  process tree file xcsg_file show_path w =
    (outcome (children_loop (children root) 0 xcsg_file
                (set_secant_tolerance X root w1)),
     world_after (children_loop (children root) 0 xcsg_file
                    (set_secant_tolerance X root w1)),
     [EvReadXml xcsg_file; Cout (Processing (DisplayName file show_path));
      EvSetSecantTolerance root]
       ++ trace (children_loop (children root) 0 xcsg_file
                   (set_secant_tolerance X root w1))).
Proof.
  intros H Hroot Htag. unfold process. rewrite bind_act, H. cbn [fst snd].
  rewrite bind_cout, Hroot, Htag, String.eqb_refl, bind_act. reflexivity.
Qed.

Lemma run_reaches w child xcsg_file w1 before :
  reaches w child xcsg_file w1 before ->
  run w =
    (then_true (outcome (process_child child xcsg_file w1)),
     world_after (process_child child xcsg_file w1),
     before ++ trace (process_child child xcsg_file w1)).
Proof.
  intros (raw & tree1 & file1 & w2 & t2 & tree3 & w3 & root
          & Hin & Hex & Hconv & Hread & Hroot & Htag & Hfind & -> & ->).
  rewrite (run_processes _ _ _ _ _ _ _ Hin Hex Hconv).
  rewrite (process_scene _ _ _ _ _ _ _ _ Hread Hroot Htag).
  rewrite children_loop_find, Hfind, bind_run.
  destruct (process_child child xcsg_file (set_secant_tolerance X root w3))
    as [[[b | e] w4] t4]; projections; cbn [then_true ret]; projections;
    rewrite ?app_nil_r, <- ?app_assoc; reflexivity.
Qed.

(** ** What a whole run can emit *)

Lemma emits_process_child (P : event -> Prop) child xcsg_file :
  holds_after_entry P xcsg_file ->
  (forall t, P (Cout (ProcessingSolid t))) ->
  (forall t, P (Cout (ProcessingShape2d t))) ->
  emits P (process_child child xcsg_file).
Proof.
  intros H H1 H2 w. unfold process_child. destruct (is_solid X child).
  - destruct (run_xsolid_trace P child xcsg_file w H) as (rest & -> & Hr).
    now constructor.
  - destruct (run_xshape2d_trace P child xcsg_file w H) as (rest & -> & Hr).
    now constructor.
Qed.

Lemma emits_children_loop (P : event -> Prop) xcsg_file rest w :
  holds_after_entry P xcsg_file ->
  (forall t, P (Cout (ProcessingSolid t))) ->
  (forall t, P (Cout (ProcessingShape2d t))) ->
  Forall P (trace (children_loop rest 0 xcsg_file w)).
Proof.
  intros H H1 H2. rewrite children_loop_find.
  destruct (find classified rest) as [child | ]; [ | constructor ].
  apply emits_bind.
  - now apply emits_process_child.
  - intros _. apply emits_ret.
Qed.

Lemma emits_process (P : event -> Prop) tree file xcsg_file show_path :
  holds_after_entry P xcsg_file ->
  (forall t, P (Cout (ProcessingSolid t))) ->
  (forall t, P (Cout (ProcessingShape2d t))) ->
  P (EvReadXml xcsg_file) ->
  (forall name, P (Cout (Processing name))) ->
  P (Cout (NotFound xcsg_file)) ->
  (forall root, P (EvSetSecantTolerance root)) ->
  emits P (process tree file xcsg_file show_path).
Proof.
  intros H H1 H2 H3 H4 H5 H6. unfold process. emits_all; auto.
  intros w. now apply emits_children_loop.
Qed.

Lemma convert_result tree file xcsg_file w tree1 file1 xcsg_file1 w1 t1 :
  convert tree file xcsg_file w = (Ret (tree1, file1, xcsg_file1), w1, t1) ->
  (String.eqb (GetExt X file) ".csg" = false
   /\ file1 = file /\ xcsg_file1 = xcsg_file /\ t1 = [])
  \/ (String.eqb (GetExt X file) ".csg" = true
      /\ file1 = SetExt X file "xcsg"
      /\ xcsg_file1 = GetFullPath X (SetExt X file "xcsg")
      /\ t1 = [Cout (Converting xcsg_file); EvToXcsg xcsg_file;
               EvWriteXml xcsg_file1]).
Proof.
  unfold convert. destruct (String.eqb (GetExt X file) ".csg").
  - rewrite bind_cout.
    destruct (to_xcsg X xcsg_file tree w) as [[tree2 | e] w2] eqn:Hto.
    + rewrite (bind_call_returns _ _ _ _ _ _ Hto).
      destruct (write_xml X tree2 (GetFullPath X (SetExt X file "xcsg")) w2)
        as [[[] | e] w3] eqn:Hwr.
      * rewrite (bind_call_returns _ _ _ _ _ _ Hwr). cbn.
        intros H. injection H as <- <- <- <- <-. right. repeat split.
      * rewrite (bind_call_raises _ _ _ _ _ _ Hwr). cbn. discriminate.
    + rewrite (bind_call_raises _ _ _ _ _ _ Hto). cbn. discriminate.
  - intros H. injection H as <- <- <- <- <-. left. repeat split.
Qed.

Lemma emits_convert (P : event -> Prop) tree file xcsg_file :
  P (Cout (Converting xcsg_file)) ->
  P (EvToXcsg xcsg_file) ->
  P (EvWriteXml (GetFullPath X (SetExt X file "xcsg"))) ->
  emits P (convert tree file xcsg_file).
Proof. intros H1 H2 H3. unfold convert. emits_all; auto. Qed.

(** ** The ceiling on boolean operations *)

Lemma no_kernel_call_before xcsg_file :
  forall tree file,
    emits (fun ev => is_kernel_call ev = false) (convert tree file xcsg_file).
Proof. intros tree file. now apply emits_convert. Qed.

Lemma is_prefix_app p s : is_prefix p (p ++ s) = true.
Proof.
  induction p as [ | a p IH ]; [ reflexivity | ].
  cbn. now rewrite Ascii.eqb_refl.
Qed.

Lemma contains_app needle before after :
  contains needle (before ++ needle ++ after) = true.
Proof.
  induction before as [ | a before IH ].
  - cbn [String.append]. destruct (needle ++ after)%string eqn:E.
    + destruct needle; [ reflexivity | discriminate E ].
    + cbn [contains]. rewrite <- E, is_prefix_app. reflexivity.
  - cbn [String.append contains]. rewrite IH. apply orb_true_r.
Qed.

(** ** Exceptions that are not caught *)

Lemma run_xshape2d_exports node xcsg_file w obj w1 polyset w2 t :
  make_shape2d X node w = (Ret (Some obj), w1) ->
  (shape2d_nbool X obj <= max_bool m_cmd)%N ->
  boolean2d obj w1 = (Ret polyset, w2, t) ->
  run_xshape2d node xcsg_file w =
    (then_true (outcome (export2d polyset xcsg_file (flag "fullpath") w2)),
     world_after (export2d polyset xcsg_file (flag "fullpath") w2),
     shape2d_head node obj ++ t
       ++ Cout (ResultLumps (N.of_nat (length polyset)))
       :: trace (export2d polyset xcsg_file (flag "fullpath") w2)).
Proof.
  intros Hmake Hle Hb.
  rewrite (run_xshape2d_within _ _ _ _ _ Hmake Hle).
  rewrite (bind_returns _ _ _ _ _ _ Hb). cbv zeta.
  rewrite bind_cout, bind_run.
  destruct (export2d polyset xcsg_file (flag "fullpath") w2)
    as [[[[] | e] w3] t3]; projections; cbn [then_true ret]; projections;
    now rewrite ?app_nil_r.
Qed.

(** ** Runs with nothing to process *)

Lemma children_loop_none rest xcsg_file w :
  forallb (fun c => negb (classified c)) rest = true ->
  children_loop rest 0 xcsg_file w = (Ret tt, w, []).
Proof.
  intros H. rewrite children_loop_find.
  replace (find classified rest) with (@None cf_xmlNode); [ reflexivity | ].
  induction rest as [ | c cs IH ]; [ reflexivity | ].
  cbn in H |- *. apply andb_prop in H as [Hc Hcs].
  apply negb_true_iff in Hc. rewrite Hc. now apply IH.
Qed.

Lemma entries_app t1 t2 : entries (t1 ++ t2) = entries t1 + entries t2.
Proof. unfold entries. now rewrite filter_app, length_app. Qed.

Lemma entries_none t :
  Forall (fun ev => is_entry ev = false) t -> entries t = 0.
Proof.
  unfold entries. induction 1 as [ | ev l Hev _ IH ]; [ reflexivity | ].
  cbn. now rewrite Hev.
Qed.

Lemma run_xsolid_no_data node xcsg_file w w1 :
  make_solid X node w = (Ret None, w1) ->
  run_xsolid node xcsg_file w
    = (Raise no_data, w1, [Cout (ProcessingSolid (tag node)); EvMakeSolid node]).
Proof.
  intros Hmake. unfold run_xsolid.
  now rewrite bind_cout, (bind_call_returns _ _ _ _ _ _ Hmake).
Qed.

Lemma run_xshape2d_no_data node xcsg_file w w1 :
  make_shape2d X node w = (Ret None, w1) ->
  run_xshape2d node xcsg_file w
    = (Raise no_data, w1,
       [Cout (ProcessingShape2d (tag node)); EvMakeShape2d node]).
Proof.
  intros Hmake. unfold run_xshape2d.
  now rewrite bind_cout, (bind_call_returns _ _ _ _ _ _ Hmake).
Qed.

(** ** The path of the input file *)

Lemma occurs_replace s : occurs backslash (replace backslash slash s) = false.
Proof.
  induction s as [ | c s IH ]; [ reflexivity | ].
  cbn [replace occurs]. rewrite IH, orb_false_r.
  destruct (Ascii.eqb c backslash) eqn:E; [ reflexivity | exact E ].
Qed.

Lemma replace_without s :
  occurs backslash s = false -> replace backslash slash s = s.
Proof.
  induction s as [ | c s IH ]; [ reflexivity | ].
  cbn [replace occurs]. intros H. apply orb_false_elim in H as [Hc Hs].
  now rewrite Hc, (IH Hs).
Qed.

Lemma sees_in allowed xcsg_file :
  In xcsg_file allowed -> existsb (String.eqb xcsg_file) allowed = true.
Proof.
  intros H. apply existsb_exists. exists xcsg_file.
  split; [ exact H | apply String.eqb_refl ].
Qed.

Lemma sees_one allowed xcsg_file ev :
  In xcsg_file allowed -> paths ev = [xcsg_file] -> sees allowed ev = true.
Proof.
  intros H E. unfold sees. rewrite E. cbn [forallb].
  now rewrite (sees_in _ _ H).
Qed.

Lemma sees_slashed allowed ev :
  (forall q, In q allowed -> occurs backslash q = false) ->
  sees allowed ev = true -> slashed ev = true.
Proof.
  intros Hall. unfold sees, slashed. rewrite !forallb_forall.
  intros H p Hp. specialize (H p Hp).
  apply existsb_exists in H as (q & Hq & E). apply String.eqb_eq in E. subst q.
  now rewrite (Hall p Hq).
Qed.

Lemma seen_paths_slashed raw :
  occurs backslash
    (GetFullPath X
       (SetExt X (filename_of X (replace backslash slash raw)) "xcsg")) = false ->
  forall ev, sees (seen_paths raw) ev = true -> slashed ev = true.
Proof.
  intros Hext ev. unfold sees, slashed, seen_paths. cbv zeta.
  rewrite !forallb_forall. intros H p Hp. specialize (H p Hp).
  apply existsb_exists in H as (q & Hq & E). apply String.eqb_eq in E. subst q.
  destruct (String.eqb _ ".csg"); cbn [In] in Hq.
  - destruct Hq as [<- | [<- | []]]; [ now rewrite occurs_replace | ].
    now rewrite Hext.
  - destruct Hq as [<- | []]. now rewrite occurs_replace.
Qed.

Lemma sees_after_entry allowed xcsg_file :
  In xcsg_file allowed ->
  holds_after_entry (fun ev => sees allowed ev = true) xcsg_file.
Proof.
  intros H. pose proof (sees_in _ _ H) as E.
  unfold holds_after_entry, sees. cbn [paths forallb].
  repeat split; try reflexivity; try (intros; now rewrite E).
  intros m Hm. now destruct m.
Qed.

Lemma process_sees allowed tree file xcsg_file show_path w :
  In xcsg_file allowed ->
  Forall (fun ev => sees allowed ev = true)
    (trace (process tree file xcsg_file show_path w)).
Proof.
  intros H.
  apply emits_process; try reflexivity.
  - now apply sees_after_entry.
  - now apply (sees_one _ xcsg_file).
  - now apply (sees_one _ xcsg_file).
Qed.

(** ** At most one node per run *)

Lemma entries_skip ev t : is_entry ev = false -> entries (ev :: t) = entries t.
Proof. intros H. unfold entries. cbn. now rewrite H. Qed.

Lemma process_entries tree file xcsg_file show_path w :
  entries (trace (process tree file xcsg_file show_path w)) <= 1.
Proof.
  unfold process. rewrite bind_act.
  destruct (read_xml X tree xcsg_file w) as [[ok tree1] w1]. cbn [fst snd].
  destruct ok; [ | cbn; lia ].
  rewrite bind_cout. projections.
  destruct (get_root tree1) as [root | ]; [ | cbn; lia ].
  destruct (String.eqb "xcsg" (tag root)); [ | cbn; lia ].
  rewrite bind_act. cbn [fst snd]. projections.
  rewrite children_loop_find.
  destruct (find classified (children root)) as [child | ]; [ | cbn; lia ].
  rewrite bind_run.
  pose proof (process_child_entries child xcsg_file
                (set_secant_tolerance X root w1)) as Hone.
  destruct (process_child child xcsg_file (set_secant_tolerance X root w1))
    as [[[b | e] w2] t2]; projections; cbn [trace snd] in Hone;
    rewrite !entries_skip, ?entries_app, ?Hone by reflexivity; cbn; lia.
Qed.

Lemma convert_entries tree file xcsg_file w :
  entries (trace (convert tree file xcsg_file w)) = 0.
Proof. apply entries_none. now apply emits_convert. Qed.

Lemma run_entries w : entries (trace (run w)) <= 1.
Proof.
  destruct (parsed_ok m_cmd) eqn:Hok;
    [ | unfold run; rewrite Hok; cbn; lia ].
  destruct (count m_cmd "xcsg-file" =? 0)%nat eqn:Hcount;
    [ unfold run; rewrite Hok, Hcount; cbn; lia | ].
  destruct (get_string m_cmd "xcsg-file") as [raw | ex] eqn:Hget.
  - assert (Hin : names_input raw).
    { repeat split; auto. now apply Nat.eqb_neq. }
    rewrite (run_named raw w Hin).
    destruct (Exists X (replace backslash slash raw) w); [ | cbn; lia ].
    projections. rewrite entries_skip, bind_run by reflexivity.
    pose proof (convert_entries None
                  (filename_of X (replace backslash slash raw))
                  (replace backslash slash raw) w) as Hc.
    destruct (convert None (filename_of X (replace backslash slash raw))
                (replace backslash slash raw) w)
      as [[[[[tree1 file1] xcsg_file1] | e] w1] t1];
      projections; cbn [trace snd] in Hc; [ | lia ].
    rewrite entries_app, Hc, bind_run.
    pose proof (process_entries tree1 file1 xcsg_file1 (flag "fullpath") w1)
      as Hp.
    destruct (process tree1 file1 xcsg_file1 (flag "fullpath") w1)
      as [[[[] | e] w2] t2]; projections; cbn [trace snd] in Hp;
      rewrite ?app_nil_r; lia.
  - unfold run, input_path. rewrite Hok, Hcount, Hget. cbn [negb].
    destruct (is_std_exception ex); rewrite bind_throw; cbn; lia.
Qed.

(** ** The conversion, case by case *)

Lemma convert_skipped tree file xcsg_file w :
  GetExt X file <> ".csg" ->
  convert tree file xcsg_file w = (Ret (tree, file, xcsg_file), w, []).
Proof.
  intros H. unfold convert. apply String.eqb_neq in H. now rewrite H.
Qed.

Lemma convert_parse_fails tree file xcsg_file w e w1 :
  GetExt X file = ".csg" ->
  to_xcsg X xcsg_file tree w = (Raise e, w1) ->
  convert tree file xcsg_file w
    = (Raise e, w1, [Cout (Converting xcsg_file); EvToXcsg xcsg_file]).
Proof.
  intros H Hto. unfold convert. rewrite H, String.eqb_refl.
  now rewrite bind_cout, (bind_call_raises _ _ _ _ _ _ Hto).
Qed.

Lemma convert_write_fails tree file xcsg_file w tree1 w1 e w2 :
  GetExt X file = ".csg" ->
  to_xcsg X xcsg_file tree w = (Ret tree1, w1) ->
  write_xml X tree1 (GetFullPath X (SetExt X file "xcsg")) w1 = (Raise e, w2) ->
  convert tree file xcsg_file w
    = (Raise e, w2,
       [Cout (Converting xcsg_file); EvToXcsg xcsg_file;
        EvWriteXml (GetFullPath X (SetExt X file "xcsg"))]).
Proof.
  intros H Hto Hwr. unfold convert. rewrite H, String.eqb_refl.
  rewrite bind_cout, (bind_call_returns _ _ _ _ _ _ Hto). cbv zeta.
  now rewrite (bind_call_raises _ _ _ _ _ _ Hwr).
Qed.

Lemma convert_done tree file xcsg_file w tree1 w1 w2 :
  GetExt X file = ".csg" ->
  to_xcsg X xcsg_file tree w = (Ret tree1, w1) ->
  write_xml X tree1 (GetFullPath X (SetExt X file "xcsg")) w1 = (Ret tt, w2) ->
  convert tree file xcsg_file w
    = (Ret (tree1, SetExt X file "xcsg", GetFullPath X (SetExt X file "xcsg")),
       w2,
       [Cout (Converting xcsg_file); EvToXcsg xcsg_file;
        EvWriteXml (GetFullPath X (SetExt X file "xcsg"))]).
Proof.
  intros H Hto Hwr. unfold convert. rewrite H, String.eqb_refl.
  rewrite bind_cout, (bind_call_returns _ _ _ _ _ _ Hto). cbv zeta.
  now rewrite (bind_call_returns _ _ _ _ _ _ Hwr).
Qed.

Lemma run_convert_fails raw w e w1 t1 :
  names_input raw ->
  Exists X (replace backslash slash raw) w = true ->
  convert None (filename_of X (replace backslash slash raw))
    (replace backslash slash raw) w = (Raise e, w1, t1) ->
  run w = (Raise e, w1, EvExists (replace backslash slash raw) :: t1).
Proof.
  intros Hin Hex Hconv. rewrite (run_named _ _ Hin), Hex.
  now rewrite (bind_raises _ _ _ _ _ _ Hconv).
Qed.

Lemma encoders_none t :
  Forall (fun ev => encoder_of ev = None) t -> encoders t = [].
Proof.
  induction 1 as [ | ev t Hev _ IH ]; [ reflexivity | ].
  cbn. now rewrite Hev.
Qed.

(** ** After the boolean stage, against the combined mesh *)

Lemma lumps_still csg remaining imani tri :
  emits (fun ev => ev <> Cout Exporting /\ encoder_of ev = None)
    (lumps csg remaining imani tri).
Proof. apply emits_lumps; intros; split; (discriminate || reflexivity). Qed.

Lemma still_trace t :
  Forall (fun ev => ev <> Cout Exporting /\ encoder_of ev = None) t ->
  encoders t = [] /\ ~ In (Cout Exporting) t.
Proof.
  intros H. split.
  - apply encoders_none. exact (Forall_impl _ (fun ev H => proj2 H) H).
  - intros Hin. rewrite Forall_forall in H. now destruct (proj1 (H _ Hin)).
Qed.

Lemma try_boolean_still obj nbool csg0 w r csg w1 t :
  try_boolean obj nbool csg0 w = (r, csg, w1, t) ->
  Forall (fun ev => ev <> Cout Exporting /\ encoder_of ev = None) t.
Proof.
  unfold try_boolean.
  destruct (create_carve_mesh X obj _) as [[mesh | e] w2].
  - destruct (carve_compute X mesh csg0 w2) as [[csg1 [e | ]] w3];
      intros E; injection E as <- <- <- <-;
      repeat constructor; discriminate.
  - intros E; injection E as <- <- <- <-; repeat constructor; discriminate.
Qed.

Lemma solid_head_still node obj :
  Forall (fun ev => ev <> Cout Exporting /\ encoder_of ev = None)
    (solid_head node obj).
Proof.
  unfold solid_head, starting.
  destruct (0 <? solid_nbool X obj)%N; repeat constructor; discriminate.
Qed.

(** The triangulation of every lump returns: the export is reached, on the
    combined mesh. *)
Lemma after_boolean3d_mesh csg xcsg_file show_path w mesh w1 :
  combined_mesh csg w = (Ret mesh, w1) ->
  exists t1,
    after_boolean3d csg xcsg_file show_path w =
      (then_true (outcome (export3d mesh xcsg_file show_path w1)),
       world_after (export3d mesh xcsg_file show_path w1),
       Cout (ResultLumps (N.of_nat (length csg))) :: t1
         ++ Cout Exporting :: trace (export3d mesh xcsg_file show_path w1))
    /\ gate t1 = map decision csg
    /\ encoders t1 = []
    /\ ~ In (Cout Exporting) t1.
Proof.
  intros Hc. pose proof (lumps_returns _ _ _ _ Hc) as Hl.
  exists (trace (lumps csg (csg_size csg) 0 carve_triangulate_new w)).
  split; [ exact (after_boolean3d_exports _ _ _ _ _ _ _ Hl) | ].
  destruct (lumps_gate csg (csg_size csg) 0 carve_triangulate_new w)
    as (done & Hle & Hgate & Hret).
  rewrite Hl in Hret. destruct (Hret mesh eq_refl) as (-> & _).
  split.
  - rewrite Hgate, (decisions_firstn csg (csg_size csg) (le_n _)).
    unfold csg_size. now rewrite firstn_all.
  - apply still_trace, lumps_still.
Qed.

(** The triangulation of a lump throws: nothing is exported. *)
Lemma after_boolean3d_no_mesh csg xcsg_file show_path w e w1 :
  combined_mesh csg w = (Raise e, w1) ->
  exists t1,
    after_boolean3d csg xcsg_file show_path w =
      (Raise e, w1, Cout (ResultLumps (N.of_nat (length csg))) :: t1)
    /\ encoders t1 = []
    /\ ~ In (Cout Exporting) t1.
Proof.
  intros Hc. pose proof (lumps_raises _ _ _ _ Hc) as Hl.
  exists (trace (lumps csg (csg_size csg) 0 carve_triangulate_new w)).
  split; [ exact (after_boolean3d_raises _ _ _ _ _ _ _ Hl) | ].
  apply still_trace, lumps_still.
Qed.

Lemma export3d_mesh mesh xcsg_file show_path w :
  Forall (fun ev => gate [ev] = []
                    /\ forall f m path,
                         ev = EvEncode3d f m path ->
                         m = mesh /\ path = xcsg_file)
    (trace (export3d mesh xcsg_file show_path w)).
Proof.
  apply emits_export3d; intros; (split; [ reflexivity | ]);
    intros f0 m path E; [ injection E as <- <- <-; now split | | ];
    discriminate E.
Qed.

Lemma gate_none t : Forall (fun ev => gate [ev] = []) t -> gate t = [].
Proof.
  induction 1 as [ | ev l Hev _ IH ]; [ reflexivity | ].
  change (ev :: l) with ([ev] ++ l). now rewrite gate_app, Hev, IH.
Qed.

Lemma run_xsolid_caught node xcsg_file w obj w1 e csg w2 t :
  make_solid X node w = (Ret (Some obj), w1) ->
  (solid_nbool X obj <= max_bool m_cmd)%N ->
  try_boolean obj (solid_nbool X obj) carve_boolean_new w1
    = (Raise e, csg, w2, t) ->
  is_carve_exception e = true ->
  run_xsolid node xcsg_file w =
    (outcome (after_boolean3d csg xcsg_file (flag "fullpath") w2),
     world_after (after_boolean3d csg xcsg_file (flag "fullpath") w2),
     solid_head node obj ++ t
       ++ Cout (Warning ("(carve error): " ++ what e))
       :: trace (after_boolean3d csg xcsg_file (flag "fullpath") w2)).
Proof.
  intros Hmake Hle Htry He.
  rewrite (run_xsolid_within _ _ _ _ _ Hmake Hle).
  rewrite (bind_returns _ _ _ _ _ _ (boolean3d_caught _ _ _ _ _ _ _ Htry He)).
  projections. rewrite <- app_assoc. reflexivity.
Qed.

(** ** The claims *)

(** C1, as amended.  A solid within the ceiling whose boolean reduction
    throws the kernel's [carve::exception] (from [create_carve_mesh] or from
    [csg.compute]), leaving [csg] in the accumulator: the run does not end
    there.  It prints the warning and goes on exactly as after a reduction
    that returned [csg]: it counts the lumps of [csg] and triangulates them.
    When the triangulation of every lump returns, each lump has been
    decided, the export line is printed and the encoders are run on the
    combined mesh of the lumps of [csg]; this is always so when no lump of
    [csg] needs triangulation, in particular when there is none.  When the
    triangulation kernel throws on a lump, that exception ends the run: no
    export line is printed and no encoder is called. *)
Theorem carve_error_is_survived :
  forall (node : cf_xmlNode) (xcsg_file : string) (w : W)
         (obj : xsolid) (w1 : W) (e : exn) (csg : carve_boolean) (w2 : W)
         (t : list event),
    make_solid X node w = (Ret (Some obj), w1) ->
    (solid_nbool X obj <= max_bool m_cmd)%N ->
    try_boolean obj (solid_nbool X obj) carve_boolean_new w1
      = (Raise e, csg, w2, t) ->
    is_carve_exception e = true ->
    run_xsolid node xcsg_file w =
      (outcome (after_boolean3d csg xcsg_file (flag "fullpath") w2),
       world_after (after_boolean3d csg xcsg_file (flag "fullpath") w2),
       solid_head node obj ++ t
         ++ Cout (Warning ("(carve error): " ++ what e))
         :: trace (after_boolean3d csg xcsg_file (flag "fullpath") w2))
    /\ (forall mesh w3,
          combined_mesh csg w2 = (Ret mesh, w3) ->
          Forall2 passed_through csg mesh
          /\ exists t3,
               run_xsolid node xcsg_file w =
                 (then_true (outcome (export3d mesh xcsg_file
                                        (flag "fullpath") w3)),
                  world_after (export3d mesh xcsg_file (flag "fullpath") w3),
                  solid_head node obj ++ t
                    ++ Cout (Warning ("(carve error): " ++ what e))
                    :: Cout (ResultLumps (N.of_nat (length csg))) :: t3
                    ++ Cout Exporting
                    :: trace (export3d mesh xcsg_file (flag "fullpath") w3))
               /\ gate t3 = map decision csg
               /\ encoders t3 = [])
    /\ (forall e' w3,
          combined_mesh csg w2 = (Raise e', w3) ->
          outcome (run_xsolid node xcsg_file w) = Raise e'
          /\ encoders (trace (run_xsolid node xcsg_file w)) = []
          /\ ~ In (Cout Exporting) (trace (run_xsolid node xcsg_file w)))
    /\ (forallb (fun p => negb (needs_triangulation p)) csg = true ->
        combined_mesh csg w2 = (Ret csg, w2))
    /\ (csg = [] ->
        after_boolean3d csg xcsg_file (flag "fullpath") w2 =
          (then_true (outcome (export3d [] xcsg_file (flag "fullpath") w2)),
           world_after (export3d [] xcsg_file (flag "fullpath") w2),
           [Cout (ResultLumps 0); Cout Exporting]
             ++ trace (export3d [] xcsg_file (flag "fullpath") w2))).
Proof.
  intros node xcsg_file w obj w1 e csg w2 t Hmake Hle Htry He.
  pose proof (run_xsolid_caught _ xcsg_file _ _ _ _ _ _ _ Hmake Hle Htry He)
    as Hrun.
  split; [ exact Hrun | ]. split; [ | split; [ | split ] ].
  - intros mesh w3 Hc. split; [ exact (combined_mesh_entries _ _ _ _ Hc) | ].
    destruct (after_boolean3d_mesh csg xcsg_file (flag "fullpath") _ _ _ Hc)
      as (t3 & Hafter & Hgate & Henc & _).
    exists t3. rewrite Hrun, Hafter. projections.
    split; [ reflexivity | ]. now split.
  - intros e' w3 Hc.
    destruct (after_boolean3d_no_mesh csg xcsg_file (flag "fullpath") _ _ _ Hc)
      as (t3 & Hafter & Henc & Hnot).
    rewrite Hrun, Hafter. projections. split; [ reflexivity | ].
    destruct (still_trace _ (solid_head_still node obj)) as (Eh & Nh).
    destruct (still_trace _ (try_boolean_still _ _ _ _ _ _ _ _ Htry))
      as (Et & Nt).
    split.
    + rewrite !encoders_app, Eh, Et. cbn. exact Henc.
    + intros Hin. apply in_app_or in Hin as [Hin | Hin]; [ now apply Nh | ].
      apply in_app_or in Hin as [Hin | Hin]; [ now apply Nt | ].
      destruct Hin as [Hin | [Hin | Hin]];
        [ discriminate Hin | discriminate Hin | now apply Hnot ].
  - apply combined_mesh_of_triangles.
  - intros ->. now rewrite (after_boolean3d_exports [] _ _ w2 [] w2 []).
Qed.

(** C2.  A node, solid or 2D shape, whose model graph reports more boolean
    operations than the ceiling [max_bool]: its processing throws right
    after the factory has built the graph and the count has been printed,
    and by then no call into a boolean kernel or the triangulation kernel
    has been made; the exception leaves [run], whose whole trace is free of
    kernel calls. *)
Theorem over_the_ceiling_no_kernel_call :
  forall (node : cf_xmlNode) (xcsg_file : string) (w : W),
    (forall obj w1,
        make_solid X node w = (Ret (Some obj), w1) ->
        (max_bool m_cmd < solid_nbool X obj)%N ->
        run_xsolid node xcsg_file w =
          (Raise (logic_error max_message), w1,
           [Cout (ProcessingSolid (tag node)); EvMakeSolid node;
            Cout (CompletedTree (solid_nbool X obj))])
        /\ existsb is_kernel_call (trace (run_xsolid node xcsg_file w)) = false)
    /\ (forall obj w1,
          make_shape2d X node w = (Ret (Some obj), w1) ->
          (max_bool m_cmd < shape2d_nbool X obj)%N ->
          run_xshape2d node xcsg_file w =
            (Raise (logic_error max_message), w1,
             [Cout (ProcessingShape2d (tag node)); EvMakeShape2d node;
              Cout (CompletedTree (shape2d_nbool X obj))])
          /\ existsb is_kernel_call (trace (run_xshape2d node xcsg_file w))
             = false)
    /\ (forall w0 before,
          reaches w0 node xcsg_file w before ->
          over_ceiling node w ->
          outcome (run w0) = Raise (logic_error max_message)
          /\ existsb is_kernel_call (trace (run w0)) = false).
Proof.
  intros node xcsg_file w. split; [ | split ].
  - intros obj w1 Hmake Hover.
    rewrite (run_xsolid_over _ xcsg_file _ _ _ Hmake Hover).
    split; reflexivity.
  - intros obj w1 Hmake Hover.
    rewrite (run_xshape2d_over _ xcsg_file _ _ _ Hmake Hover).
    split; reflexivity.
  - intros w0 before Hreach Hover.
    rewrite (run_reaches _ _ _ _ _ Hreach). projections.
    assert (Hbefore : existsb is_kernel_call before = false).
    { destruct Hreach as (raw & tree1 & file1 & w2 & t2 & tree3 & w3 & root
                          & _ & _ & Hconv & _ & _ & _ & _ & _ & ->).
      pose proof (no_kernel_call_before (replace backslash slash raw) None
                    (filename_of X (replace backslash slash raw)) w0) as Hq.
      rewrite Hconv in Hq. cbn [trace snd] in Hq.
      cbn [existsb is_kernel_call orb]. rewrite existsb_app.
      cbn [existsb is_kernel_call orb]. rewrite orb_false_r.
      clear Hconv. induction Hq as [ | ev l Hev _ IH ]; [ reflexivity | ].
      cbn. now rewrite Hev. }
    unfold over_ceiling, process_child in *.
    destruct (is_solid X node).
    + destruct Hover as (obj & w1 & Hmake & Hover).
      rewrite (run_xsolid_over _ xcsg_file _ _ _ Hmake Hover). projections.
      split; [ reflexivity | ].
      rewrite existsb_app, Hbefore. reflexivity.
    + destruct Hover as (obj & w1 & Hmake & Hover).
      rewrite (run_xshape2d_over _ xcsg_file _ _ _ Hmake Hover). projections.
      split; [ reflexivity | ].
      rewrite existsb_app, Hbefore. reflexivity.
Qed.

(** C3.  Over the children of the scene root, the loop of [run] does exactly
    what processing the first child that is no attribute node and is
    classified as a solid or a 2D shape does (the solid path for a solid, the
    2D path otherwise) and nothing else: children before it are skipped,
    children after it are never looked at, whatever they are, and
    [run_xsolid] / [run_xshape2d] is entered exactly once.  With no such
    child the loop does nothing.  No run of [run] enters [run_xsolid] /
    [run_xshape2d] more than once. *)
Theorem first_classified_child_only :
  forall (before after : list cf_xmlNode) (xcsg_file : string) (w : W),
    forallb (fun c => negb (classified c)) before = true ->
    (forall child,
        classified child = true ->
        children_loop (before ++ child :: after) 0 xcsg_file w
          = (process_child child xcsg_file ;; ret tt) w
        /\ entries (trace (children_loop (before ++ child :: after) 0
                             xcsg_file w)) = 1)
    /\ children_loop before 0 xcsg_file w = (Ret tt, w, [])
    /\ (forall w0, entries (trace (run w0)) <= 1).
Proof.
  intros before after xcsg_file w Hbefore.
  assert (Hnone : find classified before = None).
  { induction before as [ | c cs IH ]; [ reflexivity | ].
    cbn in Hbefore |- *. apply andb_prop in Hbefore as [Hc Hcs].
    apply negb_true_iff in Hc. rewrite Hc. now apply IH. }
  split.
  - intros child Hchild.
    assert (Hfind : find classified (before ++ child :: after) = Some child).
    { clear Hnone. induction before as [ | c cs IH ]; cbn.
      - now rewrite Hchild.
      - cbn in Hbefore. apply andb_prop in Hbefore as [Hc Hcs].
        apply negb_true_iff in Hc. rewrite Hc. now apply IH. }
    rewrite children_loop_find, Hfind. split; [ reflexivity | ].
    rewrite bind_run.
    pose proof (process_child_entries child xcsg_file w) as Hone.
    destruct (process_child child xcsg_file w) as [[[b | e] w1] t1];
      projections; cbn [trace snd] in Hone; [ | exact Hone ].
    cbn [ret]. now rewrite app_nil_r.
  - split; [ now rewrite children_loop_find, Hnone | apply run_entries ].
Qed.

(** C4.  Whatever the flags and whatever the encoders do, a run invokes the
    encoders in strictly increasing rank, where the ranks are script format,
    AMF, OBJ, OFF, STL for a solid and script format, SVG, DXF for a 2D shape:
    so in that order, each at most once, and at most one of the two STL
    variants, last.  Only encoders of the node's kind that the flags enable
    are invoked, the ASCII STL one only when the flag for binary STL is not
    set; and when the run returns, every enabled one has been invoked. *)
Theorem encoders_run_in_fixed_order :
  forall (node : cf_xmlNode) (xcsg_file : string) (w : W),
    (StronglySorted lt
       (map rank (encoders (trace (run_xsolid node xcsg_file w))))
     /\ (forall e, In e (encoders (trace (run_xsolid node xcsg_file w))) ->
                   is_3d e = true /\ enabled e = true)
     /\ (forall b, outcome (run_xsolid node xcsg_file w) = Ret b ->
                   forall e, is_3d e = true /\ enabled e = true ->
                             In e (encoders (trace (run_xsolid node xcsg_file w)))))
    /\
    (StronglySorted lt
       (map rank (encoders (trace (run_xshape2d node xcsg_file w))))
     /\ (forall e, In e (encoders (trace (run_xshape2d node xcsg_file w))) ->
                   is_3d e = false /\ enabled e = true)
     /\ (forall b, outcome (run_xshape2d node xcsg_file w) = Ret b ->
                   forall e, is_3d e = false /\ enabled e = true ->
                             In e (encoders (trace (run_xshape2d node xcsg_file w))))).
Proof.
  intros node xcsg_file w. split.
  - apply (follows_in_order _ planned3d).
    + apply run_xsolid_follows.
    + apply planned3d_sorted.
    + apply planned3d_enabled.
  - apply (follows_in_order _ planned2d).
    + apply run_xshape2d_follows.
    + apply planned2d_sorted.
    + apply planned2d_enabled.
Qed.

(** C5.  After the boolean reduction, with [csg] what it left: the loop
    takes the lumps in order and, for each, calls the triangulation kernel
    if and only if some face of the lump has more than 3 vertices, and
    otherwise adds the lump as it is; it stops early only when the kernel
    throws, and has decided every lump once the export starts.  What the
    loop accumulates is the combined mesh of the specification: one entry
    per lump, in order, which is the lump itself when it needs no
    triangulation and what the triangulation kernel returned for it when it
    does; it has no face with more than 3 vertices as long as the kernel
    returns none.  When every triangulation returns, the export starts and
    every encoder that is called is given that one mesh and the path of the
    input; when the kernel throws, the exception ends the processing and no
    encoder is called. *)
Theorem triangulation_gate :
  forall (csg : carve_boolean) (xcsg_file : string) (show_path : bool) (w : W),
    (exists done,
        done <= length csg
        /\ gate (trace (after_boolean3d csg xcsg_file show_path w))
             = map decision (firstn done csg)
        /\ (In (Cout Exporting)
                (trace (after_boolean3d csg xcsg_file show_path w)) ->
            done = length csg))
    /\ (forall mesh w1,
          combined_mesh csg w = (Ret mesh, w1) ->
          Forall2 passed_through csg mesh
          /\ ((forall p w0 tris w2,
                  triangulate_kernel X p w0 = (Ret tris, w2) ->
                  needs_triangulation tris = false) ->
              Forall (fun out => needs_triangulation out = false) mesh)
          /\ (exists t1,
                 after_boolean3d csg xcsg_file show_path w =
                   (then_true (outcome (export3d mesh xcsg_file show_path w1)),
                    world_after (export3d mesh xcsg_file show_path w1),
                    Cout (ResultLumps (N.of_nat (length csg))) :: t1
                      ++ Cout Exporting
                      :: trace (export3d mesh xcsg_file show_path w1))
                 /\ gate t1 = map decision csg
                 /\ encoders t1 = [])
          /\ (forall f m path,
                In (EvEncode3d f m path)
                   (trace (after_boolean3d csg xcsg_file show_path w)) ->
                m = mesh /\ path = xcsg_file))
    /\ (forall e w1,
          combined_mesh csg w = (Raise e, w1) ->
          outcome (after_boolean3d csg xcsg_file show_path w) = Raise e
          /\ world_after (after_boolean3d csg xcsg_file show_path w) = w1
          /\ encoders (trace (after_boolean3d csg xcsg_file show_path w)) = []
          /\ ~ In (Cout Exporting)
                  (trace (after_boolean3d csg xcsg_file show_path w))).
Proof.
  intros csg xcsg_file show_path w.
  destruct (combined_mesh csg w) as [[mesh | e] w1] eqn:Hc.
  - destruct (after_boolean3d_mesh csg xcsg_file show_path _ _ _ Hc)
      as (t1 & Hafter & Hgate & Henc & Hnot).
    pose proof (export3d_mesh mesh xcsg_file show_path w1) as Hexp.
    split; [ | split; [ | discriminate ] ].
    + exists (length csg). split; [ reflexivity | ].
      split; [ | reflexivity ].
      rewrite Hafter, firstn_all. projections. cbn [gate].
      rewrite gate_app, Hgate. cbn [gate].
      rewrite (gate_none _ (Forall_impl _ (fun ev H => proj1 H) Hexp)).
      apply app_nil_r.
    + intros mesh' w1' E. injection E as <- <-.
      split; [ exact (combined_mesh_entries _ _ _ _ Hc) | ].
      split; [ intros Hk; exact (combined_mesh_triangles _ Hk _ _ _ Hc) | ].
      split; [ exists t1; now split | ].
      intros f m path Hin. rewrite Hafter in Hin. projections.
      destruct Hin as [Hin | Hin]; [ discriminate Hin | ].
      apply in_app_or in Hin as [Hin | [Hin | Hin]].
      * exfalso. assert (Hf : encoders [EvEncode3d f m path] = []).
        { apply in_split in Hin as (l1 & l2 & ->).
          rewrite encoders_app in Henc. apply app_eq_nil in Henc as (_ & H2).
          discriminate H2. }
        discriminate Hf.
      * discriminate Hin.
      * rewrite Forall_forall in Hexp.
        exact (proj2 (Hexp _ Hin) f m path eq_refl).
  - destruct (after_boolean3d_no_mesh csg xcsg_file show_path _ _ _ Hc)
      as (t1 & Hafter & Henc & Hnot).
    destruct (lumps_gate csg (csg_size csg) 0 carve_triangulate_new w)
      as (done & Hle & Hgate & _).
    rewrite (decisions_firstn csg done Hle) in Hgate.
    assert (Ht1 : t1 = trace (lumps csg (csg_size csg) 0
                                carve_triangulate_new w)).
    { pose proof (after_boolean3d_raises csg xcsg_file show_path w e w1 _
                    (lumps_raises _ _ _ _ Hc)) as H.
      rewrite Hafter in H. now injection H. }
    rewrite Hafter. projections.
    split; [ | split; [ discriminate | ] ].
    + exists done. split; [ exact Hle | ]. split.
      * cbn [gate]. now rewrite Ht1.
      * intros [H | H]; [ discriminate H | now destruct (Hnot H) ].
    + intros e' w1' E. injection E as <- <-.
      split; [ reflexivity | ]. split; [ reflexivity | ].
      split; [ exact Henc | ].
      intros [H | H]; [ discriminate H | now apply Hnot ].
Qed.

(** C6, as amended.  When the ceiling is exceeded, the exception thrown is a
    [logic_error] whose message is [Max <ceiling> boolean operations allowed
    in this configuration.]: it contains the ceiling.  The count of the
    model is in the line printed just before, [...completed CSG tree:
    <count> boolean operations to process.] *)
Theorem ceiling_error_names_the_ceiling :
  forall (node : cf_xmlNode) (xcsg_file : string) (w : W),
    (forall obj w1,
        make_solid X node w = (Ret (Some obj), w1) ->
        (max_bool m_cmd < solid_nbool X obj)%N ->
        outcome (run_xsolid node xcsg_file w) = Raise (logic_error max_message)
        /\ In (Cout (CompletedTree (solid_nbool X obj)))
              (trace (run_xsolid node xcsg_file w)))
    /\ (forall obj w1,
          make_shape2d X node w = (Ret (Some obj), w1) ->
          (max_bool m_cmd < shape2d_nbool X obj)%N ->
          outcome (run_xshape2d node xcsg_file w)
            = Raise (logic_error max_message)
          /\ In (Cout (CompletedTree (shape2d_nbool X obj)))
                (trace (run_xshape2d node xcsg_file w)))
    /\ contains (show_N (max_bool m_cmd)) max_message = true
    /\ (forall nbool,
          contains (show_N nbool) (render (CompletedTree nbool)) = true).
Proof.
  intros node xcsg_file w. split; [ | split; [ | split ] ].
  - intros obj w1 Hmake Hover.
    rewrite (run_xsolid_over _ xcsg_file _ _ _ Hmake Hover).
    split; [ reflexivity | cbn; auto ].
  - intros obj w1 Hmake Hover.
    rewrite (run_xshape2d_over _ xcsg_file _ _ _ Hmake Hover).
    split; [ reflexivity | cbn; auto ].
  - unfold max_message. apply contains_app.
  - intros nbool. unfold render. apply contains_app.
Qed.

(** C7, as amended.  For an input tree whose root is the scene root and has
    no child classified as a solid or a 2D shape, nothing is processed and
    no failure is reported: after the [xcsg processing] line and the setting
    of the tolerance, [run] returns [true].  The build failure [xcsg tree
    contains no data.] is thrown, and ends the processing of the node, when
    the factory returns no object for a classified child. *)
Theorem unclassified_scene_is_accepted_in_silence :
  forall (raw : string) (w : W) (tree1 : cf_xmlTree) (file1 : std_filename)
         (xcsg_file1 : string) (w1 : W) (t1 : list event)
         (tree2 : cf_xmlTree) (w2 : W) (root : cf_xmlNode),
    names_input raw ->
    Exists X (replace backslash slash raw) w = true ->
    convert None (filename_of X (replace backslash slash raw))
      (replace backslash slash raw) w
      = (Ret (tree1, file1, xcsg_file1), w1, t1) ->
    read_xml X tree1 xcsg_file1 w1 = (true, tree2, w2) ->
    get_root tree2 = Some root ->
    tag root = "xcsg" ->
    forallb (fun c => negb (classified c)) (children root) = true ->
    run w =
      (Ret true, set_secant_tolerance X root w2,
       EvExists (replace backslash slash raw) :: t1
         ++ [EvReadXml xcsg_file1;
             Cout (Processing (DisplayName file1 (flag "fullpath")));
             EvSetSecantTolerance root])
    /\ (forall node xcsg_file w3 w4,
          make_solid X node w3 = (Ret None, w4) ->
          run_xsolid node xcsg_file w3
            = (Raise no_data, w4,
               [Cout (ProcessingSolid (tag node)); EvMakeSolid node]))
    /\ (forall node xcsg_file w3 w4,
          make_shape2d X node w3 = (Ret None, w4) ->
          run_xshape2d node xcsg_file w3
            = (Raise no_data, w4,
               [Cout (ProcessingShape2d (tag node)); EvMakeShape2d node])).
Proof.
  intros raw w tree1 file1 xcsg_file1 w1 t1 tree2 w2 root
         Hin Hex Hconv Hread Hroot Htag Hnone.
  split; [ | split ].
  - rewrite (run_processes _ _ _ _ _ _ _ Hin Hex Hconv).
    rewrite (process_scene _ _ _ _ _ _ _ _ Hread Hroot Htag).
    rewrite (children_loop_none _ _ _ Hnone). reflexivity.
  - intros node xcsg_file w3 w4. apply run_xsolid_no_data.
  - intros node xcsg_file w3 w4. apply run_xshape2d_no_data.
Qed.


(** C9.  The command line names an input file, the file exists and its
    conversion from [.csg], when there is one, has completed.  If then the
    tree cannot be read, or has no root, or its root is not tagged [xcsg],
    or no child of the root is classified, [run] returns [true]: it throws
    nothing and enters neither [run_xsolid] nor [run_xshape2d].  After the
    tree is read it prints one line, the error line when the tree could not
    be read and the [xcsg processing] line otherwise. *)
Theorem run_returns_true_with_nothing_to_process :
  forall (raw : string) (w : W) (tree1 : cf_xmlTree) (file1 : std_filename)
         (xcsg_file1 : string) (w1 : W) (t1 : list event),
    names_input raw ->
    Exists X (replace backslash slash raw) w = true ->
    convert None (filename_of X (replace backslash slash raw))
      (replace backslash slash raw) w
      = (Ret (tree1, file1, xcsg_file1), w1, t1) ->
    nothing_to_process (fst (fst (read_xml X tree1 xcsg_file1 w1)))
                       (snd (fst (read_xml X tree1 xcsg_file1 w1))) = true ->
    outcome (run w) = Ret true
    /\ entries (trace (run w)) = 0
    /\ exists line rest,
         trace (run w)
           = EvExists (replace backslash slash raw) :: t1
             ++ [EvReadXml xcsg_file1; Cout line] ++ rest
         /\ (line = NotFound xcsg_file1
             \/ line = Processing (DisplayName file1 (flag "fullpath")))
         /\ Forall (fun ev => forall m, ev <> Cout m) rest.
Proof.
  intros raw w tree1 file1 xcsg_file1 w1 t1 Hin Hex Hconv Hnothing.
  rewrite (run_processes _ _ _ _ _ _ _ Hin Hex Hconv). projections.
  assert (Ht1 : entries t1 = 0).
  { apply entries_none.
    pose proof (emits_convert (fun ev => is_entry ev = false) None
                  (filename_of X (replace backslash slash raw))
                  (replace backslash slash raw) eq_refl eq_refl eq_refl w)
      as Hq.
    now rewrite Hconv in Hq. }
  change (EvExists (replace backslash slash raw)
            :: t1 ++ trace (process tree1 file1 xcsg_file1 (flag "fullpath") w1))
    with ([EvExists (replace backslash slash raw)]
            ++ t1 ++ trace (process tree1 file1 xcsg_file1 (flag "fullpath") w1)).
  rewrite !entries_app, Ht1.
  destruct (read_xml X tree1 xcsg_file1 w1) as [[ok tree2] w2] eqn:Hread.
  cbn [fst snd] in Hnothing. unfold nothing_to_process in Hnothing.
  destruct ok; cbn [negb orb] in Hnothing.
  - destruct (get_root tree2) as [root | ] eqn:Hroot.
    + destruct (String.eqb "xcsg" (tag root)) eqn:Htag;
        cbn [negb orb] in Hnothing.
      * apply String.eqb_eq in Htag. symmetry in Htag.
        rewrite (process_scene _ _ _ _ _ _ _ _ Hread Hroot Htag).
        rewrite (children_loop_none _ _ _ Hnothing). projections.
        repeat split.
        exists (Processing (DisplayName file1 (flag "fullpath"))),
          [EvSetSecantTolerance root].
        repeat split; [ now right | ].
        repeat constructor. discriminate.
      * rewrite (process_no_scene _ _ _ _ _ _ _ Hread);
          [ | now rewrite Hroot ].
        projections. repeat split.
        exists (Processing (DisplayName file1 (flag "fullpath"))), [].
        repeat split; [ now right | constructor ].
    + rewrite (process_no_scene _ _ _ _ _ _ _ Hread);
        [ | now rewrite Hroot ].
      projections. repeat split.
      exists (Processing (DisplayName file1 (flag "fullpath"))), [].
      repeat split; [ now right | constructor ].
  - rewrite (process_unreadable _ _ _ _ _ _ _ Hread).
    projections. repeat split.
    exists (NotFound xcsg_file1), [].
    repeat split; [ now left | constructor ].
Qed.

(** C10, as amended.  When the command line names an input file, as [raw],
    the path the run works with is [raw] with every backslash replaced by a
    slash: it contains no backslash, and is [raw] itself when [raw] has
    none.  The first thing the run does is the existence check, on that
    path, and a file that does not exist is reported under that path.  For
    an input that is not a [.csg] file every path shown to a collaborator or
    printed is that path, so none has a backslash.  For a [.csg] input the
    conversion is given that path; what follows it (the writing and the
    reading of the tree, the exports) is given the path that [std_filename]
    returns for the file with the extension [xcsg], which is not normalised
    again: those stages see a backslash exactly if [std_filename] puts one
    there. *)
Theorem input_path_is_normalised :
  forall (raw : string) (w : W),
    names_input raw ->
    occurs backslash (replace backslash slash raw) = false
    /\ (occurs backslash raw = false -> replace backslash slash raw = raw)
    /\ (exists rest,
          trace (run w) = EvExists (replace backslash slash raw) :: rest)
    /\ (Exists X (replace backslash slash raw) w = false ->
        outcome (run w)
          = Raise (file_not_found (replace backslash slash raw)))
    /\ Forall (fun ev => sees (seen_paths raw) ev = true) (trace (run w))
    /\ (GetExt X (filename_of X (replace backslash slash raw)) <> ".csg" ->
        Forall (fun ev => sees [replace backslash slash raw] ev = true)
          (trace (run w))
        /\ Forall (fun ev => slashed ev = true) (trace (run w)))
    /\ (GetExt X (filename_of X (replace backslash slash raw)) = ".csg" ->
        Exists X (replace backslash slash raw) w = true ->
        exists rest,
          trace (run w)
            = EvExists (replace backslash slash raw)
              :: Cout (Converting (replace backslash slash raw))
              :: EvToXcsg (replace backslash slash raw) :: rest
          /\ Forall (fun ev =>
                       sees [GetFullPath X
                               (SetExt X (filename_of X
                                            (replace backslash slash raw))
                                  "xcsg")] ev = true) rest)
    /\ (occurs backslash
          (GetFullPath X
             (SetExt X (filename_of X (replace backslash slash raw)) "xcsg"))
        = false ->
        Forall (fun ev => slashed ev = true) (trace (run w)))
    /\ (GetExt X (filename_of X (replace backslash slash raw)) = ".csg" ->
        Exists X (replace backslash slash raw) w = true ->
        forall tree1 w1,
          to_xcsg X (replace backslash slash raw) None w = (Ret tree1, w1) ->
          In (EvWriteXml
                (GetFullPath X
                   (SetExt X (filename_of X (replace backslash slash raw))
                      "xcsg")))
             (trace (run w))
          /\ (Forall (fun ev => slashed ev = true) (trace (run w)) ->
              occurs backslash
                (GetFullPath X
                   (SetExt X (filename_of X (replace backslash slash raw))
                      "xcsg")) = false)).
Proof.
  intros raw w Hin.
  split; [ apply occurs_replace | ].
  split; [ apply replace_without | ].
  assert (H : (exists rest,
                  trace (run w) = EvExists (replace backslash slash raw) :: rest)
              /\ (Exists X (replace backslash slash raw) w = false ->
                  outcome (run w)
                    = Raise (file_not_found (replace backslash slash raw)))
              /\ Forall (fun ev => sees (seen_paths raw) ev = true)
                   (trace (run w))).
  {
    assert (Hfirst : In (replace backslash slash raw) (seen_paths raw)).
    { unfold seen_paths. cbv zeta. destruct (String.eqb _ ".csg"); cbn; auto. }
    rewrite (run_named _ w Hin).
    destruct (Exists X (replace backslash slash raw) w).
    - projections. split; [ eexists; reflexivity | ].
      split; [ discriminate | ].
      constructor; [ now apply (sees_one _ (replace backslash slash raw)) | ].
      rewrite bind_run.
      destruct (convert None (filename_of X (replace backslash slash raw))
                  (replace backslash slash raw) w)
        as [[[[[tree1 file1] xcsg_file1] | e] w1] t1] eqn:Hconv.
      + projections.
        assert (Hsecond : In xcsg_file1 (seen_paths raw)
                          /\ Forall (fun ev => sees (seen_paths raw) ev = true) t1).
        { destruct (convert_result _ _ _ _ _ _ _ _ _ Hconv)
            as [(Hext & -> & -> & ->) | (Hext & -> & -> & ->)].
          - split; [ exact Hfirst | constructor ].
          - assert (Hin2 : In (GetFullPath X (SetExt X (filename_of X
                                 (replace backslash slash raw)) "xcsg"))
                              (seen_paths raw)).
            { unfold seen_paths. cbv zeta. rewrite Hext. cbn. auto. }
            split; [ exact Hin2 | ].
            repeat constructor.
            + now apply (sees_one _ (replace backslash slash raw)).
            + now apply (sees_one _ (replace backslash slash raw)).
            + now apply (sees_one _ (GetFullPath X (SetExt X (filename_of X
                                 (replace backslash slash raw)) "xcsg"))). }
        destruct Hsecond as (Hin2 & Ht1).
        apply Forall_app. split; [ exact Ht1 | ].
        apply emits_bind; [ | intros _; apply emits_ret ].
        intros w2. now apply process_sees.
      + projections.
        assert (Hcsg : String.eqb (GetExt X (filename_of X
                          (replace backslash slash raw))) ".csg" = true).
        { unfold convert in Hconv.
          destruct (String.eqb _ ".csg"); [ reflexivity | discriminate Hconv ]. }
        assert (Hin2 : In (GetFullPath X (SetExt X (filename_of X
                               (replace backslash slash raw)) "xcsg"))
                            (seen_paths raw)).
        { unfold seen_paths. cbv zeta. rewrite Hcsg. cbn. auto. }
        pose proof (emits_convert (fun ev => sees (seen_paths raw) ev = true) None
                      (filename_of X (replace backslash slash raw))
                      (replace backslash slash raw)
                      (sees_one _ _ (Cout (Converting _)) Hfirst eq_refl)
                      (sees_one _ _ (EvToXcsg _) Hfirst eq_refl)
                      (sees_one _ _ (EvWriteXml _) Hin2 eq_refl) w) as Hq.
        now rewrite Hconv in Hq.
    - split; [ eexists; reflexivity | ]. split; [ reflexivity | ].
      repeat constructor. now apply (sees_one _ (replace backslash slash raw)).
  }
  destruct H as (Hfirst & Hmissing & Hsees).
  split; [ exact Hfirst | ]. split; [ exact Hmissing | ].
  split; [ exact Hsees | ]. split; [ | split; [ | split ] ].
  - intros Hext. apply String.eqb_neq in Hext.
    assert (Hone : Forall (fun ev => sees [replace backslash slash raw] ev
                                     = true) (trace (run w))).
    { unfold seen_paths in Hsees. cbv zeta in Hsees.
      now rewrite Hext in Hsees. }
    split; [ exact Hone | ].
    refine (Forall_impl _ _ Hone). intros ev Hev.
    apply (sees_slashed [replace backslash slash raw]); [ | exact Hev ].
    intros q [<- | []]. apply occurs_replace.
  - intros Hext Hex.
    destruct (to_xcsg X (replace backslash slash raw) None w)
      as [[tree1 | e] w1] eqn:Hto.
    + destruct (write_xml X tree1
                  (GetFullPath X
                     (SetExt X (filename_of X (replace backslash slash raw))
                        "xcsg")) w1) as [[[] | e] w2] eqn:Hwr.
      * rewrite (run_processes _ _ _ _ _ _ _ Hin Hex
                   (convert_done _ _ _ _ _ _ _ Hext Hto Hwr)).
        projections. eexists. split; [ reflexivity | ].
        constructor;
          [ apply (sees_one _ (GetFullPath X
                                 (SetExt X (filename_of X
                                              (replace backslash slash raw))
                                    "xcsg")));
            [ now left | reflexivity ] | ].
        apply process_sees. now left.
      * rewrite (run_convert_fails _ _ _ _ _ Hin Hex
                   (convert_write_fails _ _ _ _ _ _ _ _ Hext Hto Hwr)).
        projections. eexists. split; [ reflexivity | ].
        constructor;
          [ apply (sees_one _ (GetFullPath X
                                 (SetExt X (filename_of X
                                              (replace backslash slash raw))
                                    "xcsg")));
            [ now left | reflexivity ] | ].
        constructor.
    + rewrite (run_convert_fails _ _ _ _ _ Hin Hex
                 (convert_parse_fails _ _ _ _ _ _ Hext Hto)).
      projections. exists []. split; [ reflexivity | constructor ].
  - intros Hext. exact (Forall_impl _ (seen_paths_slashed raw Hext) Hsees).
  - intros Hext Hex tree1 w1 Hto.
    assert (Hwritten : In (EvWriteXml
                             (GetFullPath X
                                (SetExt X (filename_of X
                                             (replace backslash slash raw))
                                   "xcsg")))
                          (trace (run w))).
    { destruct (write_xml X tree1
                  (GetFullPath X
                     (SetExt X (filename_of X (replace backslash slash raw))
                        "xcsg")) w1) as [[[] | e] w2] eqn:Hwr.
      - rewrite (run_processes _ _ _ _ _ _ _ Hin Hex
                   (convert_done _ _ _ _ _ _ _ Hext Hto Hwr)).
        cbn. tauto.
      - rewrite (run_convert_fails _ _ _ _ _ Hin Hex
                   (convert_write_fails _ _ _ _ _ _ _ _ Hext Hto Hwr)).
        cbn. tauto. }
    split; [ exact Hwritten | ].
    intros Hall. rewrite Forall_forall in Hall.
    specialize (Hall _ Hwritten).
    unfold slashed in Hall. cbn [paths forallb] in Hall.
    rewrite andb_true_r in Hall. now apply negb_true_iff.
Qed.

(** ** Further properties *)

(** *** The command line *)

Lemma bind_not_false {A} (m : M A) (k : A -> M bool) :
  (forall a w, outcome (k a w) <> Ret false) ->
  forall w, outcome (bind m k w) <> Ret false.
Proof.
  intros Hk w. rewrite bind_run.
  destruct (m w) as [[[a | e] w1] t1]; projections; [ apply Hk | discriminate ].
Qed.

Lemma ret_true_not_false (w : W) : outcome (ret true w) <> Ret false.
Proof. discriminate. Qed.

Lemma throw_not_false e (w : W) : outcome (@throw bool e w) <> Ret false.
Proof. discriminate. Qed.

Lemma run_xsolid_not_false node xcsg_file w :
  outcome (run_xsolid node xcsg_file w) <> Ret false.
Proof.
  unfold run_xsolid. revert w.
  apply bind_not_false. intros _. apply bind_not_false.
  intros [obj | ]; [ | apply throw_not_false ]. cbv zeta.
  do 4 (apply bind_not_false; intros ?).
  unfold after_boolean3d. cbv zeta.
  do 4 (apply bind_not_false; intros ?). apply ret_true_not_false.
Qed.

Lemma run_xshape2d_not_false node xcsg_file w :
  outcome (run_xshape2d node xcsg_file w) <> Ret false.
Proof.
  unfold run_xshape2d. revert w.
  apply bind_not_false. intros _. apply bind_not_false.
  intros [obj | ]; [ | apply throw_not_false ]. cbv zeta.
  do 6 (apply bind_not_false; intros ?). apply ret_true_not_false.
Qed.

Lemma run_unnamed ex w :
  parsed_ok m_cmd = true ->
  count m_cmd "xcsg-file" <> 0 ->
  get_string m_cmd "xcsg-file" = Raise ex ->
  run w =
    (Raise (if is_std_exception ex then command_line_error ex else ex), w, []).
Proof.
  intros Hok Hcount Hget. unfold run, input_path. rewrite Hok, Hget.
  apply Nat.eqb_neq in Hcount. rewrite Hcount. cbn [negb].
  destruct (is_std_exception ex); now rewrite bind_throw.
Qed.

(** X1.  [run] returns [false] for a command line that did not parse, at
    once and in silence, and for one without the input file, after the line
    about the missing parameter; in both cases it has called nothing.  It
    returns [false] in no other case: once an input file is named, a run
    returns [true] or throws.  [run_xsolid] and [run_xshape2d] never return
    [false]. *)
Theorem false_is_a_usage_error :
  forall w : W,
    (parsed_ok m_cmd = false -> run w = (Ret false, w, []))
    /\ (parsed_ok m_cmd = true -> count m_cmd "xcsg-file" = 0 ->
        run w = (Ret false, w, [Cout MissingInput]))
    /\ (outcome (run w) = Ret false <-> usage_error)
    /\ (forall node xcsg_file,
          outcome (run_xsolid node xcsg_file w) <> Ret false)
    /\ (forall node xcsg_file,
          outcome (run_xshape2d node xcsg_file w) <> Ret false).
Proof.
  intros w.
  assert (H1 : parsed_ok m_cmd = false -> run w = (Ret false, w, [])).
  { intros Hok. unfold run. now rewrite Hok. }
  assert (H2 : parsed_ok m_cmd = true -> count m_cmd "xcsg-file" = 0 ->
               run w = (Ret false, w, [Cout MissingInput])).
  { intros Hok Hcount. unfold run. now rewrite Hok, Hcount. }
  split; [ exact H1 | ]. split; [ exact H2 | ].
  split; [ | split; intros; [ apply run_xsolid_not_false
                            | apply run_xshape2d_not_false ] ].
  unfold usage_error. split.
  - intros Hfalse.
    destruct (parsed_ok m_cmd) eqn:Hok; [ | now left ].
    destruct (count m_cmd "xcsg-file" =? 0)%nat eqn:Hcount;
      [ right; now apply Nat.eqb_eq | ].
    exfalso. revert Hfalse. unfold run. rewrite Hok, Hcount. cbn [negb].
    revert w H1 H2. intros w _ _. revert w.
    apply bind_not_false. intros xcsg_file. apply bind_not_false.
    intros [ | ]; cbn [negb]; [ | apply throw_not_false ]. cbv zeta.
    apply bind_not_false. intros [[tree1 file1] xcsg_file1].
    apply bind_not_false. intros _. apply ret_true_not_false.
  - intros [Hok | Hcount].
    + now rewrite (H1 Hok).
    + destruct (parsed_ok m_cmd) eqn:Hok.
      * now rewrite (H2 eq_refl Hcount).
      * now rewrite (H1 eq_refl).
Qed.

(** X2.  When reading the argument [xcsg-file] throws, the run ends there:
    nothing has been printed or called.  An exception derived from
    [std::exception] is replaced by a [logic_error] whose message starts
    with [xcsg  command line processing error: ] and contains what the
    original one said; an exception of another class leaves [run] as it
    is. *)
Theorem argument_failure_is_reported :
  forall (ex : exn) (w : W),
    parsed_ok m_cmd = true ->
    count m_cmd "xcsg-file" <> 0 ->
    get_string m_cmd "xcsg-file" = Raise ex ->
    (is_std_exception ex = true ->
     run w = (Raise (command_line_error ex), w, []))
    /\ (is_std_exception ex = false -> run w = (Raise ex, w, []))
    /\ is_std_exception (command_line_error ex) = true
    /\ is_prefix "xcsg  command line processing error: "
         (what (command_line_error ex)) = true
    /\ contains (what ex) (what (command_line_error ex)) = true.
Proof.
  intros ex w Hok Hcount Hget.
  rewrite (run_unnamed ex w Hok Hcount Hget).
  split; [ now intros -> | ]. split; [ now intros -> | ].
  split; [ reflexivity | ]. split; [ reflexivity | ].
  unfold command_line_error, what at 2. apply contains_app.
Qed.

(** *** The conversion of a [.csg] input *)

Lemma process_starts tree file xcsg_file show_path w :
  exists rest,
    trace (process tree file xcsg_file show_path w) = EvReadXml xcsg_file :: rest.
Proof. unfold process. rewrite bind_act. eexists. reflexivity. Qed.

Lemma process_names_the_file tree file xcsg_file show_path w :
  fst (fst (read_xml X tree xcsg_file w)) = true ->
  In (Cout (Processing (DisplayName file show_path)))
     (trace (process tree file xcsg_file show_path w)).
Proof.
  intros H. unfold process. rewrite bind_act. projections.
  destruct (read_xml X tree xcsg_file w) as [[ok tree1] w1].
  cbn [fst snd] in *. subst ok. rewrite bind_cout. projections.
  right. now left.
Qed.

Lemma no_conversion_after_entry xcsg_file :
  holds_after_entry (fun ev => is_conversion ev = false) xcsg_file.
Proof. repeat split; auto. intros m; now destruct m. Qed.

Lemma process_converts_nothing tree file xcsg_file show_path w :
  Forall (fun ev => is_conversion ev = false)
    (trace (process tree file xcsg_file show_path w)).
Proof.
  apply emits_process; try reflexivity. apply no_conversion_after_entry.
Qed.

(** X3.  An input with the extension [.csg], when the parser and the writer
    return: the tree the parser built is written to the file of the same
    name with the extension [xcsg], and the run goes on with that tree, that
    file name and that path.  The tree is read back from the path just
    written; every path shown from then on is that path, so the output files
    are named after the converted file; and the [xcsg processing] line names
    the converted file. *)
Theorem csg_input_is_converted :
  forall (raw : string) (w : W) (tree1 : cf_xmlTree) (w1 w2 : W),
    names_input raw ->
    Exists X (replace backslash slash raw) w = true ->
    GetExt X (filename_of X (replace backslash slash raw)) = ".csg" ->
    to_xcsg X (replace backslash slash raw) None w = (Ret tree1, w1) ->
    write_xml X tree1
      (GetFullPath X
         (SetExt X (filename_of X (replace backslash slash raw)) "xcsg")) w1
      = (Ret tt, w2) ->
    forall (file1 : std_filename) (xcsg_file1 : string),
      file1 = SetExt X (filename_of X (replace backslash slash raw)) "xcsg" ->
      xcsg_file1 = GetFullPath X file1 ->
      run w =
        (then_true
           (outcome (process tree1 file1 xcsg_file1 (flag "fullpath") w2)),
         world_after (process tree1 file1 xcsg_file1 (flag "fullpath") w2),
         [EvExists (replace backslash slash raw);
          Cout (Converting (replace backslash slash raw));
          EvToXcsg (replace backslash slash raw);
          EvWriteXml xcsg_file1]
           ++ trace (process tree1 file1 xcsg_file1 (flag "fullpath") w2))
      /\ (exists rest,
             trace (process tree1 file1 xcsg_file1 (flag "fullpath") w2)
               = EvReadXml xcsg_file1 :: rest)
      /\ Forall (fun ev => sees [xcsg_file1] ev = true)
           (trace (process tree1 file1 xcsg_file1 (flag "fullpath") w2))
      /\ (fst (fst (read_xml X tree1 xcsg_file1 w2)) = true ->
          In (Cout (Processing (DisplayName file1 (flag "fullpath"))))
             (trace (run w))).
Proof.
  intros raw w tree1 w1 w2 Hin Hex Hext Hto Hwr file1 xcsg_file1 -> ->.
  pose proof (run_processes _ _ _ _ _ _ _ Hin Hex
                (convert_done _ _ _ _ _ _ _ Hext Hto Hwr)) as Hrun.
  split; [ exact Hrun | ]. split; [ apply process_starts | ].
  split; [ apply process_sees; now left | ].
  intros Hread. rewrite Hrun. projections.
  do 4 right. now apply process_names_the_file.
Qed.

(** X4.  For an input file that exists, the parser of [.csg] files is called
    if and only if the extension of the file is exactly [.csg].  For any
    other extension nothing of the conversion happens: the run is the
    existence check followed by the reading and processing of the input
    file itself, with an empty tree to read into. *)
Theorem conversion_depends_on_the_extension :
  forall (raw : string) (w : W),
    names_input raw ->
    Exists X (replace backslash slash raw) w = true ->
    (In (EvToXcsg (replace backslash slash raw)) (trace (run w))
     <-> GetExt X (filename_of X (replace backslash slash raw)) = ".csg")
    /\ (GetExt X (filename_of X (replace backslash slash raw)) <> ".csg" ->
        Forall (fun ev => is_conversion ev = false) (trace (run w))
        /\ run w =
             (then_true
                (outcome (process None
                            (filename_of X (replace backslash slash raw))
                            (replace backslash slash raw) (flag "fullpath") w)),
              world_after (process None
                             (filename_of X (replace backslash slash raw))
                             (replace backslash slash raw) (flag "fullpath") w),
              EvExists (replace backslash slash raw)
                :: trace (process None
                            (filename_of X (replace backslash slash raw))
                            (replace backslash slash raw) (flag "fullpath") w))).
Proof.
  intros raw w Hin Hex.
  assert (Hother :
            GetExt X (filename_of X (replace backslash slash raw)) <> ".csg" ->
            Forall (fun ev => is_conversion ev = false) (trace (run w))
            /\ run w =
                 (then_true
                    (outcome (process None
                                (filename_of X (replace backslash slash raw))
                                (replace backslash slash raw)
                                (flag "fullpath") w)),
                  world_after (process None
                                 (filename_of X (replace backslash slash raw))
                                 (replace backslash slash raw)
                                 (flag "fullpath") w),
                  EvExists (replace backslash slash raw)
                    :: trace (process None
                                (filename_of X (replace backslash slash raw))
                                (replace backslash slash raw)
                                (flag "fullpath") w))).
  { intros Hext.
    pose proof (run_processes _ _ _ _ _ _ _ Hin Hex
                  (convert_skipped None _ _ w Hext)) as Hrun.
    split; [ | exact Hrun ]. rewrite Hrun. projections.
    constructor; [ reflexivity | apply process_converts_nothing ]. }
  split; [ | exact Hother ]. split.
  - intros Hcall.
    destruct (String.eqb_spec
                (GetExt X (filename_of X (replace backslash slash raw))) ".csg")
      as [Hext | Hext]; [ exact Hext | exfalso ].
    destruct (Hother Hext) as (Hnone & _).
    rewrite Forall_forall in Hnone. specialize (Hnone _ Hcall).
    discriminate Hnone.
  - intros Hext.
    destruct (to_xcsg X (replace backslash slash raw) None w)
      as [[tree1 | e] w1] eqn:Hto.
    + destruct (write_xml X tree1
                  (GetFullPath X
                     (SetExt X (filename_of X (replace backslash slash raw))
                        "xcsg")) w1) as [[[] | e] w2] eqn:Hwr.
      * rewrite (run_processes _ _ _ _ _ _ _ Hin Hex
                   (convert_done _ _ _ _ _ _ _ Hext Hto Hwr)).
        projections. cbn. tauto.
      * rewrite (run_convert_fails _ _ _ _ _ Hin Hex
                   (convert_write_fails _ _ _ _ _ _ _ _ Hext Hto Hwr)).
        cbn. tauto.
    + rewrite (run_convert_fails _ _ _ _ _ Hin Hex
                 (convert_parse_fails _ _ _ _ _ _ Hext Hto)).
      cbn. tauto.
Qed.

(** X5.  A conversion that fails ends the run: an exception thrown by the
    parser of the [.csg] file, or by the writing of the converted tree, is
    the outcome of [run], and nothing is read or processed after it. *)
Theorem failed_conversion_ends_the_run :
  forall (raw : string) (w : W),
    names_input raw ->
    Exists X (replace backslash slash raw) w = true ->
    GetExt X (filename_of X (replace backslash slash raw)) = ".csg" ->
    (forall e w1,
        to_xcsg X (replace backslash slash raw) None w = (Raise e, w1) ->
        run w =
          (Raise e, w1,
           [EvExists (replace backslash slash raw);
            Cout (Converting (replace backslash slash raw));
            EvToXcsg (replace backslash slash raw)]))
    /\ (forall tree1 w1 e w2,
          to_xcsg X (replace backslash slash raw) None w = (Ret tree1, w1) ->
          write_xml X tree1
            (GetFullPath X
               (SetExt X (filename_of X (replace backslash slash raw)) "xcsg"))
            w1 = (Raise e, w2) ->
          run w =
            (Raise e, w2,
             [EvExists (replace backslash slash raw);
              Cout (Converting (replace backslash slash raw));
              EvToXcsg (replace backslash slash raw);
              EvWriteXml
                (GetFullPath X
                   (SetExt X (filename_of X (replace backslash slash raw))
                      "xcsg"))])).
Proof.
  intros raw w Hin Hex Hext. split.
  - intros e w1 Hto.
    exact (run_convert_fails _ _ _ _ _ Hin Hex
             (convert_parse_fails _ _ _ _ _ _ Hext Hto)).
  - intros tree1 w1 e w2 Hto Hwr.
    exact (run_convert_fails _ _ _ _ _ Hin Hex
             (convert_write_fails _ _ _ _ _ _ _ _ Hext Hto Hwr)).
Qed.

(** *** The boolean stage *)

Lemma run_xsolid_factory_fails node xcsg_file w e w1 :
  make_solid X node w = (Raise e, w1) ->
  run_xsolid node xcsg_file w
    = (Raise e, w1, [Cout (ProcessingSolid (tag node)); EvMakeSolid node]).
Proof.
  intros Hmake. unfold run_xsolid.
  now rewrite bind_cout, (bind_call_raises _ _ _ _ _ _ Hmake).
Qed.

Lemma run_xshape2d_factory_fails node xcsg_file w e w1 :
  make_shape2d X node w = (Raise e, w1) ->
  run_xshape2d node xcsg_file w
    = (Raise e, w1, [Cout (ProcessingShape2d (tag node)); EvMakeShape2d node]).
Proof.
  intros Hmake. unfold run_xshape2d.
  now rewrite bind_cout, (bind_call_raises _ _ _ _ _ _ Hmake).
Qed.

(** The four ways through [run_xsolid]: the factory throws, it returns no
    object, the object is over the ceiling, or the boolean stage is
    entered. *)
Lemma run_xsolid_cases node xcsg_file w :
  (exists e w1,
      make_solid X node w = (Raise e, w1)
      /\ trace (run_xsolid node xcsg_file w)
         = [Cout (ProcessingSolid (tag node)); EvMakeSolid node])
  \/ (exists w1,
         make_solid X node w = (Ret None, w1)
         /\ trace (run_xsolid node xcsg_file w)
            = [Cout (ProcessingSolid (tag node)); EvMakeSolid node])
  \/ (exists obj w1,
         make_solid X node w = (Ret (Some obj), w1)
         /\ (max_bool m_cmd < solid_nbool X obj)%N
         /\ trace (run_xsolid node xcsg_file w)
            = [Cout (ProcessingSolid (tag node)); EvMakeSolid node;
               Cout (CompletedTree (solid_nbool X obj))])
  \/ (exists obj w1,
         make_solid X node w = (Ret (Some obj), w1)
         /\ (solid_nbool X obj <= max_bool m_cmd)%N
         /\ trace (run_xsolid node xcsg_file w)
            = solid_head node obj
              ++ trace ((csg <- boolean3d obj (solid_nbool X obj) ;;
                         after_boolean3d csg xcsg_file (flag "fullpath")) w1)).
Proof.
  destruct (make_solid X node w) as [[[obj | ] | e] w1] eqn:Hmake.
  - destruct (N.le_gt_cases (solid_nbool X obj) (max_bool m_cmd)) as [Hle | Hgt].
    + do 3 right. exists obj, w1.
      now rewrite (run_xsolid_within _ xcsg_file _ _ _ Hmake Hle).
    + do 2 right. left. exists obj, w1.
      now rewrite (run_xsolid_over _ xcsg_file _ _ _ Hmake Hgt).
  - right. left. exists w1.
    now rewrite (run_xsolid_no_data _ xcsg_file _ _ Hmake).
  - left. exists e, w1.
    now rewrite (run_xsolid_factory_fails _ xcsg_file _ _ _ Hmake).
Qed.

Lemma run_xshape2d_cases node xcsg_file w :
  (exists e w1,
      make_shape2d X node w = (Raise e, w1)
      /\ trace (run_xshape2d node xcsg_file w)
         = [Cout (ProcessingShape2d (tag node)); EvMakeShape2d node])
  \/ (exists w1,
         make_shape2d X node w = (Ret None, w1)
         /\ trace (run_xshape2d node xcsg_file w)
            = [Cout (ProcessingShape2d (tag node)); EvMakeShape2d node])
  \/ (exists obj w1,
         make_shape2d X node w = (Ret (Some obj), w1)
         /\ (max_bool m_cmd < shape2d_nbool X obj)%N
         /\ trace (run_xshape2d node xcsg_file w)
            = [Cout (ProcessingShape2d (tag node)); EvMakeShape2d node;
               Cout (CompletedTree (shape2d_nbool X obj))])
  \/ (exists obj w1,
         make_shape2d X node w = (Ret (Some obj), w1)
         /\ (shape2d_nbool X obj <= max_bool m_cmd)%N
         /\ trace (run_xshape2d node xcsg_file w)
            = shape2d_head node obj
              ++ trace ((polyset <- boolean2d obj ;;
                         cout (ResultLumps (N.of_nat (length polyset))) ;;
                         export2d polyset xcsg_file (flag "fullpath") ;;
                         ret true) w1)).
Proof.
  destruct (make_shape2d X node w) as [[[obj | ] | e] w1] eqn:Hmake.
  - destruct (N.le_gt_cases (shape2d_nbool X obj) (max_bool m_cmd))
      as [Hle | Hgt].
    + do 3 right. exists obj, w1.
      now rewrite (run_xshape2d_within _ xcsg_file _ _ _ Hmake Hle).
    + do 2 right. left. exists obj, w1.
      now rewrite (run_xshape2d_over _ xcsg_file _ _ _ Hmake Hgt).
  - right. left. exists w1.
    now rewrite (run_xshape2d_no_data _ xcsg_file _ _ Hmake).
  - left. exists e, w1.
    now rewrite (run_xshape2d_factory_fails _ xcsg_file _ _ _ Hmake).
Qed.

(** What the two paths can emit from their boolean stage on. *)
Lemma emits_after_boolean3d (P : event -> Prop) csg xcsg_file show_path :
  (forall n, P (Cout (ResultLumps n))) ->
  (forall i v f, P (Cout (Lump i v f))) ->
  P (Cout Triangulating) ->
  P (Cout TriangulationCompleted) ->
  (forall n, P (Cout (Triangulated n))) ->
  (forall p, P (EvTriangulate p)) ->
  (forall p, P (EvAdd p)) ->
  P (Cout Exporting) ->
  (forall f mesh, P (EvEncode3d f mesh xcsg_file)) ->
  (forall label, P (Cout (CreatedLabel label))) ->
  (forall name, P (Cout (CreatedFile name))) ->
  emits P (after_boolean3d csg xcsg_file show_path).
Proof.
  intros. unfold after_boolean3d. emits_all; auto.
  - apply emits_lumps; auto.
  - apply emits_export3d; auto.
Qed.

Lemma emits_solid_tail (P : event -> Prop) obj nbool xcsg_file show_path :
  P (EvTimerInit (to_int nbool)) ->
  P (EvCreateCarveMesh obj) ->
  (forall mesh, P (EvCarveCompute mesh)) ->
  P (Cout CompletedBooleans) ->
  (forall msg, P (Cout (Warning msg))) ->
  (forall n, P (Cout (ResultLumps n))) ->
  (forall i v f, P (Cout (Lump i v f))) ->
  P (Cout Triangulating) ->
  P (Cout TriangulationCompleted) ->
  (forall n, P (Cout (Triangulated n))) ->
  (forall p, P (EvTriangulate p)) ->
  (forall p, P (EvAdd p)) ->
  P (Cout Exporting) ->
  (forall f mesh, P (EvEncode3d f mesh xcsg_file)) ->
  (forall label, P (Cout (CreatedLabel label))) ->
  (forall name, P (Cout (CreatedFile name))) ->
  emits P (csg <- boolean3d obj nbool ;;
           after_boolean3d csg xcsg_file show_path).
Proof.
  intros. apply emits_bind.
  - apply emits_boolean3d; auto.
  - intros csg. apply emits_after_boolean3d; auto.
Qed.

Lemma emits_shape2d_tail (P : event -> Prop) obj xcsg_file show_path :
  P (EvCreateClipperProfile obj) ->
  (forall profile, P (EvClipperCompute profile)) ->
  (forall n, P (Cout (ResultLumps n))) ->
  P (EvOpenscad xcsg_file) ->
  (forall p, P (EvWritePolygon p)) ->
  (forall f polyset, P (EvEncode2d f polyset xcsg_file)) ->
  (forall label, P (Cout (CreatedLabel label))) ->
  (forall name, P (Cout (CreatedFile name))) ->
  emits P (polyset <- boolean2d obj ;;
           cout (ResultLumps (N.of_nat (length polyset))) ;;
           export2d polyset xcsg_file show_path ;;
           ret true).
Proof.
  intros. unfold boolean2d. emits_all; auto.
  apply emits_export2d; auto.
Qed.

Lemma boolean3d_starts obj nbool w :
  exists rest,
    trace (boolean3d obj nbool w)
      = EvTimerInit (to_int nbool) :: EvCreateCarveMesh obj :: rest.
Proof.
  unfold boolean3d, try_boolean.
  destruct (create_carve_mesh X obj _) as [[mesh | e] w2].
  - destruct (carve_compute X mesh _ w2) as [[csg1 [e | ]] w3].
    + destruct (is_carve_exception e); eexists; reflexivity.
    + eexists; reflexivity.
  - destruct (is_carve_exception e); eexists; reflexivity.
Qed.

Lemma boolean2d_starts obj w :
  exists rest, trace (boolean2d obj w) = EvCreateClipperProfile obj :: rest.
Proof.
  unfold boolean2d. rewrite bind_run. unfold call.
  destruct (create_clipper_profile X obj w) as [[profile | e] w2].
  - destruct (clipper_compute X profile w2) as [r w3]. eexists; reflexivity.
  - eexists; reflexivity.
Qed.

Lemma bind_trace {A B} (m : M A) (k : A -> M B) w :
  exists rest, trace (bind m k w) = trace (m w) ++ rest.
Proof.
  rewrite bind_run. destruct (m w) as [[[a | e] w1] t1]; projections.
  - eexists; reflexivity.
  - exists []. now rewrite app_nil_r.
Qed.

(** X6.  A boolean kernel is called for a node if and only if the factory
    returned an object for it whose count of boolean operations is within
    the ceiling; a count equal to the ceiling is within it, and so is a count
    of zero: the kernel is called for a model without any boolean
    operation.  The stage starts with the timer and the mesh of the object
    on the 3D path, with the profile of the object on the 2D path. *)
Theorem boolean_stage_is_entered_iff :
  forall (node : cf_xmlNode) (xcsg_file : string) (w : W),
    (existsb is_kernel_call (trace (run_xsolid node xcsg_file w)) = true
     <-> exists obj w1,
           make_solid X node w = (Ret (Some obj), w1)
           /\ (solid_nbool X obj <= max_bool m_cmd)%N)
    /\ (forall obj w1,
          make_solid X node w = (Ret (Some obj), w1) ->
          (solid_nbool X obj <= max_bool m_cmd)%N ->
          exists rest,
            trace (run_xsolid node xcsg_file w)
              = solid_head node obj
                ++ EvTimerInit (to_int (solid_nbool X obj))
                :: EvCreateCarveMesh obj :: rest)
    /\ (existsb is_kernel_call (trace (run_xshape2d node xcsg_file w)) = true
        <-> exists obj w1,
              make_shape2d X node w = (Ret (Some obj), w1)
              /\ (shape2d_nbool X obj <= max_bool m_cmd)%N)
    /\ (forall obj w1,
          make_shape2d X node w = (Ret (Some obj), w1) ->
          (shape2d_nbool X obj <= max_bool m_cmd)%N ->
          exists rest,
            trace (run_xshape2d node xcsg_file w)
              = shape2d_head node obj ++ EvCreateClipperProfile obj :: rest).
Proof.
  intros node xcsg_file w.
  assert (H3 : forall obj w1,
             make_solid X node w = (Ret (Some obj), w1) ->
             (solid_nbool X obj <= max_bool m_cmd)%N ->
             exists rest,
               trace (run_xsolid node xcsg_file w)
                 = solid_head node obj
                   ++ EvTimerInit (to_int (solid_nbool X obj))
                   :: EvCreateCarveMesh obj :: rest).
  { intros obj w1 Hmake Hle.
    rewrite (run_xsolid_within _ xcsg_file _ _ _ Hmake Hle). projections.
    destruct (bind_trace (boolean3d obj (solid_nbool X obj))
                (fun csg => after_boolean3d csg xcsg_file (flag "fullpath")) w1)
      as (rest & ->).
    destruct (boolean3d_starts obj (solid_nbool X obj) w1) as (rest1 & ->).
    eexists. cbn [app]. reflexivity. }
  assert (H2 : forall obj w1,
             make_shape2d X node w = (Ret (Some obj), w1) ->
             (shape2d_nbool X obj <= max_bool m_cmd)%N ->
             exists rest,
               trace (run_xshape2d node xcsg_file w)
                 = shape2d_head node obj ++ EvCreateClipperProfile obj :: rest).
  { intros obj w1 Hmake Hle.
    rewrite (run_xshape2d_within _ xcsg_file _ _ _ Hmake Hle). projections.
    destruct (bind_trace (boolean2d obj)
                (fun polyset =>
                   cout (ResultLumps (N.of_nat (length polyset))) ;;
                   export2d polyset xcsg_file (flag "fullpath") ;; ret true) w1)
      as (rest & ->).
    destruct (boolean2d_starts obj w1) as (rest1 & ->).
    eexists. cbn [app]. reflexivity. }
  split; [ | split; [ exact H3 | split; [ | exact H2 ] ] ].
  - split.
    + intros Hcall.
      destruct (run_xsolid_cases node xcsg_file w)
        as [(e & w1 & _ & Ht) | [(w1 & _ & Ht) | [(obj & w1 & _ & _ & Ht)
           | (obj & w1 & Hmake & Hle & _)]]];
        try (rewrite Ht in Hcall; discriminate Hcall).
      now exists obj, w1.
    + intros (obj & w1 & Hmake & Hle).
      destruct (H3 obj w1 Hmake Hle) as (rest & ->).
      rewrite existsb_app. cbn. apply orb_true_r.
  - split.
    + intros Hcall.
      destruct (run_xshape2d_cases node xcsg_file w)
        as [(e & w1 & _ & Ht) | [(w1 & _ & Ht) | [(obj & w1 & _ & _ & Ht)
           | (obj & w1 & Hmake & Hle & _)]]];
        try (rewrite Ht in Hcall; discriminate Hcall).
      now exists obj, w1.
    + intros (obj & w1 & Hmake & Hle).
      destruct (H2 obj w1 Hmake Hle) as (rest & ->).
      rewrite existsb_app. cbn. apply orb_true_r.
Qed.

Lemma in_starting nbool :
  In (Cout StartingBooleans) (starting nbool) <-> (0 < nbool)%N.
Proof.
  unfold starting. destruct (0 <? nbool)%N eqn:E.
  - apply N.ltb_lt in E. split; [ intros _; exact E | intros _; now left ].
  - apply N.ltb_ge in E. split; [ intros [] | lia ].
Qed.

(** X7.  The line [...starting boolean operations] is printed if and only if
    the factory returned an object whose count of boolean operations is
    greater than zero and within the ceiling.  With X6: for a model without
    boolean operations the kernel is called without that line. *)
Theorem boolean_operations_are_announced_iff :
  forall (node : cf_xmlNode) (xcsg_file : string) (w : W),
    (In (Cout StartingBooleans) (trace (run_xsolid node xcsg_file w))
     <-> exists obj w1,
           make_solid X node w = (Ret (Some obj), w1)
           /\ (0 < solid_nbool X obj <= max_bool m_cmd)%N)
    /\ (In (Cout StartingBooleans) (trace (run_xshape2d node xcsg_file w))
        <-> exists obj w1,
              make_shape2d X node w = (Ret (Some obj), w1)
              /\ (0 < shape2d_nbool X obj <= max_bool m_cmd)%N).
Proof.
  intros node xcsg_file w. split; split.
  - intros Hin.
    destruct (run_xsolid_cases node xcsg_file w)
      as [(e & w1 & _ & Ht) | [(w1 & _ & Ht) | [(obj & w1 & _ & _ & Ht)
         | (obj & w1 & Hmake & Hle & Ht)]]];
      rewrite Ht in Hin;
      try (cbn in Hin; intuition discriminate).
    exists obj, w1. split; [ exact Hmake | ]. split; [ | exact Hle ].
    apply in_app_or in Hin as [Hin | Hin].
    + unfold solid_head in Hin. apply in_app_or in Hin as [Hin | Hin].
      * cbn in Hin. intuition discriminate.
      * now apply in_starting.
    + exfalso.
      pose proof (emits_solid_tail (fun ev => ev <> Cout StartingBooleans)
                    obj (solid_nbool X obj) xcsg_file (flag "fullpath")) as Hq.
      repeat (lazymatch type of Hq with
              | emits _ _ => fail
              | _ => specialize (Hq ltac:(intros; discriminate))
              end).
      specialize (Hq w1). rewrite Forall_forall in Hq.
      now apply (Hq _ Hin).
  - intros (obj & w1 & Hmake & Hpos & Hle).
    rewrite (run_xsolid_within _ xcsg_file _ _ _ Hmake Hle). projections.
    apply in_or_app. left. unfold solid_head. apply in_or_app. right.
    now apply in_starting.
  - intros Hin.
    destruct (run_xshape2d_cases node xcsg_file w)
      as [(e & w1 & _ & Ht) | [(w1 & _ & Ht) | [(obj & w1 & _ & _ & Ht)
         | (obj & w1 & Hmake & Hle & Ht)]]];
      rewrite Ht in Hin;
      try (cbn in Hin; intuition discriminate).
    exists obj, w1. split; [ exact Hmake | ]. split; [ | exact Hle ].
    apply in_app_or in Hin as [Hin | Hin].
    + unfold shape2d_head in Hin. apply in_app_or in Hin as [Hin | Hin].
      * cbn in Hin. intuition discriminate.
      * now apply in_starting.
    + exfalso.
      pose proof (emits_shape2d_tail (fun ev => ev <> Cout StartingBooleans)
                    obj xcsg_file (flag "fullpath")) as Hq.
      repeat (lazymatch type of Hq with
              | emits _ _ => fail
              | _ => specialize (Hq ltac:(intros; discriminate))
              end).
      specialize (Hq w1). rewrite Forall_forall in Hq.
      now apply (Hq _ Hin).
  - intros (obj & w1 & Hmake & Hpos & Hle).
    rewrite (run_xshape2d_within _ xcsg_file _ _ _ Hmake Hle). projections.
    apply in_or_app. left. unfold shape2d_head. apply in_or_app. right.
    now apply in_starting.
Qed.

Lemma to_int_small (n : N) : (n < 2 ^ 31)%N -> to_int n = Z.of_N n.
Proof.
  intros H. unfold to_int. cbv zeta.
  assert (Hz : (0 <= Z.of_N n < 2 ^ 31)%Z).
  { split; [ apply N2Z.is_nonneg | ].
    change (2 ^ 31)%Z with (Z.of_N (2 ^ 31)). now apply N2Z.inj_lt. }
  rewrite Z.mod_small by lia.
  destruct (Z.ltb_spec (Z.of_N n) (2 ^ 31)); [ reflexivity | lia ].
Qed.

Lemma to_int_range (n : N) : (- 2 ^ 31 <= to_int n < 2 ^ 31)%Z.
Proof.
  unfold to_int. cbv zeta.
  pose proof (Z.mod_pos_bound (Z.of_N n) (2 ^ 32) ltac:(lia)) as Hm.
  destruct (Z.ltb_spec (Z.of_N n mod 2 ^ 32) (2 ^ 31)); lia.
Qed.

(** X8.  [boolean_timer::init] takes an [int] and is given the count of
    boolean operations, a [size_t], through a cast.  With a ceiling below
    2^31 the cast never changes the value: whenever the timer is
    initialised, it is with the count of the object the factory returned.
    Whatever the ceiling, the value passed is in the range of [int].  The
    timer is never initialised on the 2D path. *)
Theorem timer_is_given_the_count :
  (max_bool m_cmd < 2 ^ 31)%N ->
  forall (node : cf_xmlNode) (xcsg_file : string) (w : W) (n : Z),
    (In (EvTimerInit n) (trace (run_xsolid node xcsg_file w)) ->
     exists obj w1,
       make_solid X node w = (Ret (Some obj), w1)
       /\ n = Z.of_N (solid_nbool X obj))
    /\ (forall nbool, (- 2 ^ 31 <= to_int nbool < 2 ^ 31)%Z)
    /\ ~ In (EvTimerInit n) (trace (run_xshape2d node xcsg_file w)).
Proof.
  intros Hmax node xcsg_file w n. split; [ | split; [ apply to_int_range | ] ].
  - intros Hin.
    destruct (run_xsolid_cases node xcsg_file w)
      as [(e & w1 & _ & Ht) | [(w1 & _ & Ht) | [(obj & w1 & _ & _ & Ht)
         | (obj & w1 & Hmake & Hle & Ht)]]];
      rewrite Ht in Hin;
      try (cbn in Hin; intuition discriminate).
    exists obj, w1. split; [ exact Hmake | ].
    apply in_app_or in Hin as [Hin | Hin].
    + unfold solid_head, starting in Hin.
      destruct (0 <? solid_nbool X obj)%N; cbn in Hin; intuition discriminate.
    + pose proof (emits_solid_tail
                    (fun ev => forall k, ev = EvTimerInit k ->
                                         k = Z.of_N (solid_nbool X obj))
                    obj (solid_nbool X obj) xcsg_file (flag "fullpath")) as Hq.
      specialize (Hq ltac:(intros k E; injection E as <-;
                           apply to_int_small; lia)).
      repeat (lazymatch type of Hq with
              | emits _ _ => fail
              | _ => specialize (Hq ltac:(intros; discriminate))
              end).
      specialize (Hq w1). rewrite Forall_forall in Hq.
      exact (Hq _ Hin n eq_refl).
  - intros Hin.
    destruct (run_xshape2d_cases node xcsg_file w)
      as [(e & w1 & _ & Ht) | [(w1 & _ & Ht) | [(obj & w1 & _ & _ & Ht)
         | (obj & w1 & Hmake & Hle & Ht)]]];
      rewrite Ht in Hin;
      try (cbn in Hin; intuition discriminate).
    apply in_app_or in Hin as [Hin | Hin].
    + unfold shape2d_head, starting in Hin.
      destruct (0 <? shape2d_nbool X obj)%N; cbn in Hin; intuition discriminate.
    + pose proof (emits_shape2d_tail (fun ev => ev <> EvTimerInit n)
                    obj xcsg_file (flag "fullpath")) as Hq.
      repeat (lazymatch type of Hq with
              | emits _ _ => fail
              | _ => specialize (Hq ltac:(intros; discriminate))
              end).
      specialize (Hq w1). rewrite Forall_forall in Hq.
      now apply (Hq _ Hin).
Qed.

(** *** The lumps *)

Lemma lump_lines_app t1 t2 :
  lump_lines (t1 ++ t2) = lump_lines t1 ++ lump_lines t2.
Proof.
  induction t1 as [ | ev t1 IH ]; [ reflexivity | ].
  destruct ev as [ [ ] | | | | | | | | | | | | | | | | | | ]; cbn;
    now rewrite IH.
Qed.

Lemma lump_lines_none t :
  Forall (fun ev => lump_lines [ev] = []) t -> lump_lines t = [].
Proof.
  induction 1 as [ | ev t Hev _ IH ]; [ reflexivity | ].
  change (ev :: t) with ([ev] ++ t). now rewrite lump_lines_app, Hev, IH.
Qed.

Lemma size_t_succ_small (i : nat) :
  (N.of_nat (S i) < 2 ^ 64)%N -> size_t_succ (N.of_nat i) = N.of_nat (S i).
Proof.
  intros H. unfold size_t_succ.
  replace (N.of_nat i + 1)%N with (N.of_nat (S i)) by lia.
  now apply N.mod_small.
Qed.

Lemma lump_line csg imani tri w :
  (N.of_nat (S imani) < 2 ^ 64)%N ->
  lump_lines (trace (lump csg imani tri w))
    = [(N.of_nat (S imani), v_size (create_manifold csg imani),
        f_size (create_manifold csg imani))].
Proof.
  intros H. unfold lump. cbv zeta.
  rewrite bind_cout, (size_t_succ_small _ H). projections.
  cbn [lump_lines]. f_equal. apply lump_lines_none.
  revert w. as_emits. emits_all; reflexivity.
Qed.

Lemma lumps_lines csg :
  forall remaining imani tri w,
    (N.of_nat (imani + remaining) < 2 ^ 64)%N ->
    exists done,
      done <= remaining
      /\ lump_lines (trace (lumps csg remaining imani tri w))
         = map (fun i => (N.of_nat (S i), v_size (create_manifold csg i),
                          f_size (create_manifold csg i)))
             (seq imani done)
      /\ (forall tri1, outcome (lumps csg remaining imani tri w) = Ret tri1 ->
            done = remaining).
Proof.
  induction remaining as [ | k IH ]; intros imani tri w Hsmall; cbn [lumps].
  - exists 0. split; [ lia | ]. split; reflexivity.
  - rewrite bind_run.
    pose proof (lump_line csg imani tri w ltac:(lia)) as Hline.
    destruct (lump csg imani tri w) as [[[tri1 | e] w1] t1]; projections;
      cbn [trace snd] in Hline.
    + destruct (IH (S imani) tri1 w1 ltac:(lia)) as (done & Hle & Hl & Hret).
      exists (S done). split; [ lia | ]. split.
      * rewrite lump_lines_app, Hline, Hl. reflexivity.
      * intros tri2 H. now rewrite (Hret tri2 H).
    + exists 1. split; [ lia | ]. split; [ exact Hline | discriminate ].
Qed.

Lemma numbered_seq (csg : list xpolyhedron) :
  forall first done,
    done <= length csg ->
    map (fun i => (N.of_nat (first + i), v_size (create_manifold csg i),
                   f_size (create_manifold csg i)))
      (seq 0 done)
    = firstn done (numbered first csg).
Proof.
  unfold create_manifold.
  induction csg as [ | p csg IH ]; intros first done Hle.
  - cbn in Hle. replace done with 0 by lia. reflexivity.
  - destruct done as [ | done ]; [ reflexivity | ].
    cbn [seq map firstn numbered nth]. rewrite Nat.add_0_r. f_equal.
    rewrite <- seq_shift, map_map. cbn in Hle.
    rewrite <- (IH (S first) done ltac:(lia)).
    apply map_ext. intros i. now rewrite Nat.add_succ_r.
Qed.

(** X9.  After the boolean reduction the run prints the number of lumps,
    then one line per lump as it comes to it: the lumps in order, numbered
    from 1, each with its number of vertices and of faces.  The lines stop
    early only when the triangulation kernel throws, and all lumps have
    been reported once the export starts. *)
Theorem lumps_are_reported_in_order :
  forall (csg : carve_boolean) (xcsg_file : string) (show_path : bool) (w : W),
    (N.of_nat (length csg) < 2 ^ 64)%N ->
    (exists rest,
        trace (after_boolean3d csg xcsg_file show_path w)
          = Cout (ResultLumps (N.of_nat (length csg))) :: rest)
    /\ exists done,
         done <= length csg
         /\ lump_lines (trace (after_boolean3d csg xcsg_file show_path w))
            = firstn done (numbered 1 csg)
         /\ (In (Cout Exporting)
                (trace (after_boolean3d csg xcsg_file show_path w)) ->
             done = length csg).
Proof.
  intros csg xcsg_file show_path w Hsmall.
  destruct (lumps_lines csg (csg_size csg) 0 carve_triangulate_new w Hsmall)
    as (done & Hle & Hl & Hret).
  change (fun i => (N.of_nat (S i), v_size (create_manifold csg i),
                    f_size (create_manifold csg i)))
    with (fun i => (N.of_nat (1 + i), v_size (create_manifold csg i),
                    f_size (create_manifold csg i))) in Hl.
  rewrite (numbered_seq csg 1 done Hle) in Hl.
  destruct (lumps csg (csg_size csg) 0 carve_triangulate_new w)
    as [[[tri | e] w1] t1] eqn:Hlumps;
    cbn [trace outcome fst snd] in Hl, Hret.
  - rewrite (after_boolean3d_exports _ _ _ _ _ _ _ Hlumps). projections.
    split; [ eexists; reflexivity | ].
    exists done. split; [ exact Hle | ]. split.
    + cbn [lump_lines]. rewrite lump_lines_app, Hl. cbn [lump_lines].
      rewrite lump_lines_none; [ apply app_nil_r | ].
      apply emits_export3d; reflexivity.
    + intros _. exact (Hret tri eq_refl).
  - rewrite (after_boolean3d_raises _ _ _ _ _ _ _ Hlumps). projections.
    split; [ eexists; reflexivity | ].
    exists done. split; [ exact Hle | ]. split; [ exact Hl | ].
    intros [H | H]; [ discriminate H | exfalso ].
    pose proof (emits_lumps (fun ev => ev <> Cout Exporting) csg
                  ltac:(discriminate) ltac:(discriminate) ltac:(discriminate)
                  ltac:(discriminate) ltac:(discriminate) ltac:(discriminate)
                  (csg_size csg) 0 carve_triangulate_new w) as Hq.
    rewrite Hlumps in Hq. cbn [trace snd] in Hq. rewrite Forall_forall in Hq.
    now apply (Hq _ H).
Qed.

(** *** The two paths are apart *)

(** X10.  The path of a solid calls nothing of the 2D path: no clipper, no
    SVG or DXF encoder, no polygon writer.  The path of a 2D shape calls
    nothing of the 3D path: no timer, no carve kernel, no triangulation, no
    3D encoder; it prints no [completed boolean operations] line, no lump
    line and no [Exporting results] line.  Neither path touches the input
    file or the tolerance. *)
Theorem the_two_paths_are_apart :
  forall (node : cf_xmlNode) (xcsg_file : string) (w : W),
    Forall (fun ev => shape2d_only ev = false
                      /\ is_input_event ev = false
                      /\ is_tolerance ev = false)
      (trace (run_xsolid node xcsg_file w))
    /\ Forall (fun ev => solid_only ev = false
                         /\ is_input_event ev = false
                         /\ is_tolerance ev = false)
         (trace (run_xshape2d node xcsg_file w)).
Proof.
  intros node xcsg_file w. split.
  - destruct (run_xsolid_cases node xcsg_file w)
      as [(e & w1 & _ & ->) | [(w1 & _ & ->) | [(obj & w1 & _ & _ & ->)
         | (obj & w1 & _ & _ & ->)]]];
      try (repeat constructor).
    apply Forall_app. split.
    + unfold solid_head, starting.
      destruct (0 <? solid_nbool X obj)%N; repeat constructor.
    + apply emits_solid_tail; intros; repeat split.
  - destruct (run_xshape2d_cases node xcsg_file w)
      as [(e & w1 & _ & ->) | [(w1 & _ & ->) | [(obj & w1 & _ & _ & ->)
         | (obj & w1 & _ & _ & ->)]]];
      try (repeat constructor).
    apply Forall_app. split.
    + unfold shape2d_head, starting.
      destruct (0 <? shape2d_nbool X obj)%N; repeat constructor.
    + apply emits_shape2d_tail; intros; repeat split.
Qed.

(** *** The export of a 2D shape *)

Lemma written_app t1 t2 : written (t1 ++ t2) = written t1 ++ written t2.
Proof.
  induction t1 as [ | ev t1 IH ]; [ reflexivity | ].
  destruct ev; cbn; now rewrite IH.
Qed.

Lemma written_none t :
  Forall (fun ev => written [ev] = []) t -> written t = [].
Proof.
  induction 1 as [ | ev t Hev _ IH ]; [ reflexivity | ].
  change (ev :: t) with ([ev] ++ t). now rewrite written_app, Hev, IH.
Qed.

Lemma write_polygons_written openscad :
  forall polyset w,
  exists done,
    done <= length polyset
    /\ written (trace (write_polygons openscad polyset w)) = firstn done polyset
    /\ (forall u, outcome (write_polygons openscad polyset w) = Ret u ->
          done = length polyset).
Proof.
  induction polyset as [ | p ps IH ]; intros w; cbn [write_polygons].
  - exists 0. split; [ reflexivity | ]. split; reflexivity.
  - destruct (write_polygon X openscad p w) as [[[] | e] w1] eqn:Hwr.
    + rewrite (bind_call_returns _ _ _ _ _ _ Hwr). projections.
      destruct (IH w1) as (done & Hle & Hw & Hret).
      exists (S done). cbn [length written firstn]. split; [ lia | ].
      split; [ now rewrite Hw | ].
      intros u H. now rewrite (Hret u H).
    + rewrite (bind_call_raises _ _ _ _ _ _ Hwr). projections.
      exists 1. cbn. split; [ lia | ]. split; [ reflexivity | discriminate ].
Qed.

(** The SVG and DXF encoders, lines 262-272. *)
Lemma emits_write2d (P : event -> Prop) f label polyset xcsg_file show_path :
  P (EvEncode2d f polyset xcsg_file) ->
  P (Cout (CreatedLabel label)) ->
  (forall name, P (Cout (CreatedFile name))) ->
  emits P (write2d f label polyset xcsg_file show_path).
Proof. intros H1 H2 H3. unfold write2d. emits_all; auto. Qed.

Lemma export2d_written polyset xcsg_file show_path w :
  exists done,
    done <= length polyset
    /\ written (trace (export2d polyset xcsg_file show_path w))
       = firstn done polyset
    /\ (flag "csg" = false -> done = 0)
    /\ (flag "csg" = true ->
        forall u, outcome (export2d polyset xcsg_file show_path w) = Ret u ->
                  done = length polyset).
Proof.
  unfold export2d.
  assert (Hquiet : forall w1,
             written (trace ((when (flag "svg")
                                (write2d fmt_svg "Created SVG      file: "
                                   polyset xcsg_file show_path) ;;
                              when (flag "dxf")
                                (write2d fmt_dxf "Created DXF      file: "
                                   polyset xcsg_file show_path)) w1)) = []).
  { intros w1. apply written_none. revert w1. as_emits.
    apply emits_bind; [ | intros _ ];
      apply emits_when, emits_write2d; reflexivity. }
  destruct (flag "csg"); cbn [when].
  - rewrite bind_run.
    destruct (openscad_open X xcsg_file w) as [[openscad | e] w1] eqn:Hopen.
    + rewrite (bind_call_returns _ _ _ _ _ _ Hopen).
      destruct (write_polygons_written openscad polyset w1)
        as (done & Hle & Hw & Hret).
      rewrite bind_run.
      destruct (write_polygons openscad polyset w1) as [[[[] | e] w2] t2];
        cbn [trace outcome fst snd] in Hw, Hret; projections.
      * exists done. split; [ exact Hle | ].
        rewrite bind_cout. unfold cout, note. projections.
        split; [ | split; [ discriminate | intros _ u _; now apply (Hret tt) ] ].
        cbn [written]. rewrite !written_app, Hw, Hquiet. cbn [written].
        now rewrite !app_nil_r.
      * exists done. split; [ exact Hle | ].
        split; [ exact Hw | split; discriminate ].
    + rewrite (bind_call_raises _ _ _ _ _ _ Hopen). projections.
      exists 0. split; [ lia | ]. split; [ reflexivity | split; discriminate ].
  - rewrite bind_ret. exists 0. split; [ lia | ].
    split; [ apply Hquiet | ]. split; [ reflexivity | discriminate ].
Qed.

(** X11.  On the 2D path, with [polyset] what the clipper returned: the run
    prints the number of its polygons; with the flag [csg] it writes the
    polygons to the OpenSCAD file in the order of the polyset, stopping
    early only when a call throws, and all of them when the run returns;
    without that flag it writes none.  The SVG and the DXF encoder are given
    that same polyset and the path of the input. *)
Theorem polygons_are_written_in_order :
  forall (node : cf_xmlNode) (xcsg_file : string) (w : W) (obj : xshape2d)
         (w1 : W) (polyset : polyset2d) (w2 : W) (t : list event),
    make_shape2d X node w = (Ret (Some obj), w1) ->
    (shape2d_nbool X obj <= max_bool m_cmd)%N ->
    boolean2d obj w1 = (Ret polyset, w2, t) ->
    In (Cout (ResultLumps (N.of_nat (length polyset))))
       (trace (run_xshape2d node xcsg_file w))
    /\ (exists done,
          done <= length polyset
          /\ written (trace (run_xshape2d node xcsg_file w))
             = firstn done polyset
          /\ (flag "csg" = false -> done = 0)
          /\ (flag "csg" = true ->
              outcome (run_xshape2d node xcsg_file w) = Ret true ->
              done = length polyset))
    /\ (forall f ps path,
          In (EvEncode2d f ps path) (trace (run_xshape2d node xcsg_file w)) ->
          ps = polyset /\ path = xcsg_file).
Proof.
  intros node xcsg_file w obj w1 polyset w2 t Hmake Hle Hb.
  rewrite (run_xshape2d_exports _ xcsg_file _ _ _ _ _ _ Hmake Hle Hb).
  projections.
  assert (Hhead : Forall (fun ev => written [ev] = []
                                    /\ forall f ps path,
                                         ev <> EvEncode2d f ps path)
                    (shape2d_head node obj ++ t)).
  { apply Forall_app. split.
    - unfold shape2d_head, starting.
      destruct (0 <? shape2d_nbool X obj)%N; repeat constructor; discriminate.
    - pose proof (fun H1 H2 =>
                    emits_bind (fun ev => written [ev] = []
                                          /\ forall f ps path,
                                               ev <> EvEncode2d f ps path)
                      (call (EvCreateClipperProfile obj)
                         (create_clipper_profile X obj))
                      (fun profile => call (EvClipperCompute profile)
                                        (clipper_compute X profile))
                      H1 H2 w1) as Hq.
      unfold boolean2d in Hb. rewrite Hb in Hq. apply Hq.
      + apply emits_call. split; [ reflexivity | discriminate ].
      + intros profile. apply emits_call. split; [ reflexivity | discriminate ]. }
  split; [ | split ].
  - apply in_or_app. right. apply in_or_app. right. now left.
  - destruct (export2d_written polyset xcsg_file (flag "fullpath") w2)
      as (done & Hdone & Hw & Hnone & Hall).
    exists done. split; [ exact Hdone | ]. split; [ | split ].
    + rewrite app_assoc, written_app.
      rewrite (written_none (shape2d_head node obj ++ t)).
      * cbn [app written]. exact Hw.
      * exact (Forall_impl _ (fun ev H => proj1 H) Hhead).
    + exact Hnone.
    + intros Hcsg Hret.
      destruct (outcome (export2d polyset xcsg_file (flag "fullpath") w2))
        as [[] | e] eqn:Hout; [ | discriminate Hret ].
      exact (Hall Hcsg tt eq_refl).
  - intros f ps path Hin. rewrite app_assoc in Hin.
    apply in_app_or in Hin as [Hin | [Hin | Hin]].
    + rewrite Forall_forall in Hhead.
      now destruct (proj2 (Hhead _ Hin) f ps path).
    + discriminate Hin.
    + pose proof (emits_export2d
                    (fun ev => forall f ps path,
                         ev = EvEncode2d f ps path ->
                         ps = polyset /\ path = xcsg_file)
                    polyset xcsg_file (flag "fullpath")
                    ltac:(discriminate) ltac:(discriminate)
                    ltac:(intros ? ? ? ? E; injection E as <- <- <-; now split)
                    ltac:(discriminate) ltac:(discriminate) w2) as Hq.
      rewrite Forall_forall in Hq. exact (Hq _ Hin f ps path eq_refl).
Qed.

(** *** Files are written last *)

Lemma created_app t1 t2 : created (t1 ++ t2) = created t1 + created t2.
Proof. unfold created. now rewrite filter_app, length_app. Qed.

Lemma created_none t :
  Forall (fun ev => is_created ev = false) t -> created t = 0.
Proof.
  unfold created. induction 1 as [ | ev l Hev _ IH ]; [ reflexivity | ].
  cbn. now rewrite Hev.
Qed.

Lemma starting_quiet nbool :
  Forall (fun ev => encoder_of ev = None /\ is_created ev = false)
    (starting nbool).
Proof. unfold starting. destruct (0 <? nbool)%N; repeat constructor. Qed.

Lemma boolean3d_quiet obj nbool :
  emits (fun ev => encoder_of ev = None /\ is_created ev = false)
    (boolean3d obj nbool).
Proof. apply emits_boolean3d; intros; split; reflexivity. Qed.

Lemma lumps_quiet csg remaining imani tri :
  emits (fun ev => encoder_of ev = None /\ is_created ev = false)
    (lumps csg remaining imani tri).
Proof. apply emits_lumps; intros; split; reflexivity. Qed.

Lemma boolean2d_quiet obj :
  emits (fun ev => encoder_of ev = None /\ is_created ev = false)
    (boolean2d obj).
Proof. unfold boolean2d. emits_all; split; reflexivity. Qed.

Lemma quiet_encoders t :
  Forall (fun ev => encoder_of ev = None /\ is_created ev = false) t ->
  encoders t = [] /\ created t = 0.
Proof.
  intros H. split.
  - apply encoders_none. exact (Forall_impl _ (fun ev H => proj1 H) H).
  - apply created_none. exact (Forall_impl _ (fun ev H => proj2 H) H).
Qed.

(** X12.  No file is written before the geometry is complete.  The trace of
    a solid is a part without any encoder call followed, if the export is
    reached at all, by the line [...Exporting results] and a part without
    any call into the factory, the timer, the kernels or the mesh; the trace
    of a 2D shape is likewise cut by the line with the number of lumps.  So
    a failure of the factory, of the ceiling check, of a kernel or of the
    triangulation leaves no output file behind. *)
Theorem files_are_written_last :
  forall (node : cf_xmlNode) (xcsg_file : string) (w : W),
    (exists pre post,
        trace (run_xsolid node xcsg_file w) = pre ++ post
        /\ encoders pre = [] /\ created pre = 0
        /\ (post = []
            \/ exists post',
                 post = Cout Exporting :: post'
                 /\ Forall (fun ev => builds_geometry ev = false) post'))
    /\ (exists pre post,
          trace (run_xshape2d node xcsg_file w) = pre ++ post
          /\ encoders pre = [] /\ created pre = 0
          /\ (post = []
              \/ exists n post',
                   post = Cout (ResultLumps n) :: post'
                   /\ Forall (fun ev => builds_geometry ev = false) post')).
Proof.
  intros node xcsg_file w. split.
  - destruct (run_xsolid_cases node xcsg_file w)
      as [(e & w1 & _ & ->) | [(w1 & _ & ->) | [(obj & w1 & _ & _ & ->)
         | (obj & w1 & _ & _ & ->)]]];
      try (eexists; exists []; rewrite app_nil_r;
           split; [ reflexivity | ]; split; [ reflexivity | ];
           split; [ reflexivity | now left ]).
    assert (Hhead : Forall (fun ev => encoder_of ev = None
                                      /\ is_created ev = false)
                      (solid_head node obj)).
    { unfold solid_head. apply Forall_app.
      split; [ repeat constructor | apply starting_quiet ]. }
    rewrite bind_run. pose proof (boolean3d_quiet obj (solid_nbool X obj) w1) as Hb.
    destruct (boolean3d obj (solid_nbool X obj) w1) as [[[csg | e] w2] t2];
      projections; cbn [trace snd] in Hb.
    + pose proof (lumps_quiet csg (csg_size csg) 0 carve_triangulate_new w2)
        as Hl.
      destruct (lumps csg (csg_size csg) 0 carve_triangulate_new w2)
        as [[[tri | e] w3] t3] eqn:Hlumps; cbn [trace snd] in Hl.
      * rewrite (after_boolean3d_exports _ _ _ _ _ _ _ Hlumps). projections.
        exists (solid_head node obj ++ t2
                  ++ Cout (ResultLumps (N.of_nat (csg_size csg))) :: t3),
          (Cout Exporting
             :: trace (export3d (carve_polyset tri) xcsg_file
                         (flag "fullpath") w3)).
        split; [ now rewrite <- !app_assoc | ].
        assert (Hpre : Forall (fun ev => encoder_of ev = None
                                         /\ is_created ev = false)
                         (solid_head node obj ++ t2
                            ++ Cout (ResultLumps (N.of_nat (csg_size csg)))
                            :: t3)).
        { apply Forall_app. split; [ exact Hhead | ].
          apply Forall_app. split; [ exact Hb | ].
          constructor; [ split; reflexivity | exact Hl ]. }
        destruct (quiet_encoders _ Hpre) as (He & Hc).
        split; [ exact He | ]. split; [ exact Hc | ].
        right. eexists. split; [ reflexivity | ].
        apply emits_export3d; reflexivity.
      * rewrite (after_boolean3d_raises _ _ _ _ _ _ _ Hlumps). projections.
        eexists; exists []; rewrite app_nil_r. split; [ reflexivity | ].
        assert (Hpre : Forall (fun ev => encoder_of ev = None
                                         /\ is_created ev = false)
                         (solid_head node obj ++ t2
                            ++ Cout (ResultLumps (N.of_nat (csg_size csg)))
                            :: t3)).
        { apply Forall_app. split; [ exact Hhead | ].
          apply Forall_app. split; [ exact Hb | ].
          constructor; [ split; reflexivity | exact Hl ]. }
        destruct (quiet_encoders _ Hpre) as (He & Hc).
        split; [ exact He | ]. split; [ exact Hc | now left ].
    + eexists; exists []; rewrite app_nil_r. split; [ reflexivity | ].
      assert (Hpre : Forall (fun ev => encoder_of ev = None
                                       /\ is_created ev = false)
                       (solid_head node obj ++ t2)).
      { apply Forall_app. now split. }
      destruct (quiet_encoders _ Hpre) as (He & Hc).
      split; [ exact He | ]. split; [ exact Hc | now left ].
  - destruct (run_xshape2d_cases node xcsg_file w)
      as [(e & w1 & _ & ->) | [(w1 & _ & ->) | [(obj & w1 & _ & _ & ->)
         | (obj & w1 & _ & _ & ->)]]];
      try (eexists; exists []; rewrite app_nil_r;
           split; [ reflexivity | ]; split; [ reflexivity | ];
           split; [ reflexivity | now left ]).
    assert (Hhead : Forall (fun ev => encoder_of ev = None
                                      /\ is_created ev = false)
                      (shape2d_head node obj)).
    { unfold shape2d_head. apply Forall_app.
      split; [ repeat constructor | apply starting_quiet ]. }
    rewrite bind_run. pose proof (boolean2d_quiet obj w1) as Hb.
    destruct (boolean2d obj w1) as [[[polyset | e] w2] t2];
      projections; cbn [trace snd] in Hb.
    + rewrite bind_cout. projections.
      exists (shape2d_head node obj ++ t2),
        (Cout (ResultLumps (N.of_nat (length polyset)))
           :: trace ((export2d polyset xcsg_file (flag "fullpath") ;; ret true)
                       w2)).
      split; [ now rewrite <- !app_assoc | ].
      assert (Hpre : Forall (fun ev => encoder_of ev = None
                                       /\ is_created ev = false)
                       (shape2d_head node obj ++ t2)).
      { apply Forall_app. now split. }
      destruct (quiet_encoders _ Hpre) as (He & Hc).
      split; [ exact He | ]. split; [ exact Hc | ].
      right. eexists; eexists. split; [ reflexivity | ].
      apply emits_bind; [ | intros _; apply emits_ret ].
      apply emits_export2d; reflexivity.
    + eexists; exists []; rewrite app_nil_r. split; [ reflexivity | ].
      assert (Hpre : Forall (fun ev => encoder_of ev = None
                                       /\ is_created ev = false)
                       (shape2d_head node obj ++ t2)).
      { apply Forall_app. now split. }
      destruct (quiet_encoders _ Hpre) as (He & Hc).
      split; [ exact He | ]. split; [ exact Hc | now left ].
Qed.

(** *** What the console says about the files *)

Lemma labels_app t1 t2 : labels (t1 ++ t2) = labels t1 + labels t2.
Proof. unfold labels. now rewrite filter_app, length_app. Qed.

Lemma files_app t1 t2 : files (t1 ++ t2) = files t1 + files t2.
Proof. unfold files. now rewrite filter_app, length_app. Qed.

Lemma quiet_counts t :
  Forall (fun ev => encoder_of ev = None /\ is_created ev = false) t ->
  encoders t = [] /\ labels t = 0 /\ files t = 0.
Proof.
  unfold labels, files.
  induction 1 as [ | ev t [He Hc] _ (IH1 & IH2 & IH3) ]; [ now repeat split | ].
  cbn [encoders filter]. rewrite He.
  destruct ev as [ [ ] | | | | | | | | | | | | | | | | | | ];
    cbn in Hc |- *; try discriminate Hc; now repeat split.
Qed.

Lemma reports_quiet {A} (m : M A) :
  emits (fun ev => encoder_of ev = None /\ is_created ev = false) m ->
  reports_its_files m.
Proof.
  intros H w. destruct (quiet_counts _ (H w)) as (-> & -> & ->).
  destruct (outcome (m w)); cbn; lia.
Qed.

Lemma reports_bind {A B} (m : M A) (k : A -> M B) :
  reports_its_files m -> (forall a, reports_its_files (k a)) ->
  reports_its_files (bind m k).
Proof.
  intros Hm Hk w. rewrite bind_run. specialize (Hm w).
  destruct (m w) as [[[a | e] w1] t1]; projections;
    cbn [outcome trace fst snd] in Hm; [ | exact Hm ].
  specialize (Hk a w1).
  rewrite labels_app, files_app, encoders_app, length_app.
  destruct (outcome (k a w1)); lia.
Qed.

Lemma reports_when b (m : M unit) :
  reports_its_files m -> reports_its_files (when b m).
Proof.
  intros H. destruct b; [ exact H | ].
  apply reports_quiet, emits_ret.
Qed.

(** The two ways through one line of 209-215. *)
Lemma write3d_returns f label mesh xcsg_file show_path w path w1 :
  encode3d X f mesh xcsg_file w = (Ret path, w1) ->
  write3d f label mesh xcsg_file show_path w
    = (Ret tt, w1,
       [Cout (CreatedLabel label); EvEncode3d f mesh xcsg_file;
        Cout (CreatedFile (DisplayName (filename_of X path) show_path))]).
Proof.
  intros Henc. unfold write3d.
  now rewrite bind_cout, (bind_call_returns _ _ _ _ _ _ Henc).
Qed.

Lemma write3d_raises f label mesh xcsg_file show_path w e w1 :
  encode3d X f mesh xcsg_file w = (Raise e, w1) ->
  write3d f label mesh xcsg_file show_path w
    = (Raise e, w1, [Cout (CreatedLabel label); EvEncode3d f mesh xcsg_file]).
Proof.
  intros Henc. unfold write3d.
  now rewrite bind_cout, (bind_call_raises _ _ _ _ _ _ Henc).
Qed.

Lemma write2d_returns f label polyset xcsg_file show_path w path w1 :
  encode2d X f polyset xcsg_file w = (Ret path, w1) ->
  write2d f label polyset xcsg_file show_path w
    = (Ret tt, w1,
       [Cout (CreatedLabel label); EvEncode2d f polyset xcsg_file;
        Cout (CreatedFile (DisplayName (filename_of X path) show_path))]).
Proof.
  intros Henc. unfold write2d.
  now rewrite bind_cout, (bind_call_returns _ _ _ _ _ _ Henc).
Qed.

Lemma write2d_raises f label polyset xcsg_file show_path w e w1 :
  encode2d X f polyset xcsg_file w = (Raise e, w1) ->
  write2d f label polyset xcsg_file show_path w
    = (Raise e, w1,
       [Cout (CreatedLabel label); EvEncode2d f polyset xcsg_file]).
Proof.
  intros Henc. unfold write2d.
  now rewrite bind_cout, (bind_call_raises _ _ _ _ _ _ Henc).
Qed.

Lemma reports_write3d f label mesh xcsg_file show_path :
  reports_its_files (write3d f label mesh xcsg_file show_path).
Proof.
  intros w.
  destruct (encode3d X f mesh xcsg_file w) as [[path | e] w1] eqn:Henc.
  - rewrite (write3d_returns _ _ _ _ _ _ _ _ Henc). cbn. lia.
  - rewrite (write3d_raises _ _ _ _ _ _ _ _ Henc). cbn. lia.
Qed.

Lemma reports_write2d f label polyset xcsg_file show_path :
  reports_its_files (write2d f label polyset xcsg_file show_path).
Proof.
  intros w.
  destruct (encode2d X f polyset xcsg_file w) as [[path | e] w1] eqn:Henc.
  - rewrite (write2d_returns _ _ _ _ _ _ _ _ Henc). cbn. lia.
  - rewrite (write2d_raises _ _ _ _ _ _ _ _ Henc). cbn. lia.
Qed.

Lemma reports_openscad polyset xcsg_file show_path :
  reports_its_files
    (openscad <- call (EvOpenscad xcsg_file) (openscad_open X xcsg_file) ;;
     write_polygons openscad polyset ;;
     cout (CreatedLabel "Created OpenSCAD file: ") ;;
     cout (CreatedFile (DisplayName (filename_of X openscad) show_path))).
Proof.
  intros w.
  destruct (openscad_open X xcsg_file w) as [[openscad | e] w1] eqn:Hopen.
  - rewrite (bind_call_returns _ _ _ _ _ _ Hopen). projections.
    rewrite bind_run.
    pose proof (emits_write_polygons
                  (fun ev => encoder_of ev = None /\ is_created ev = false)
                  openscad polyset ltac:(intros; split; reflexivity) w1) as Hq.
    destruct (write_polygons openscad polyset w1) as [[[[] | e] w2] t2];
      cbn [trace snd] in Hq; destruct (quiet_counts _ Hq) as (He & Hl & Hf);
      projections; [ rewrite bind_cout; unfold cout, note; projections | ];
      change (?a :: ?l) with ([a] ++ l);
      rewrite ?labels_app, ?files_app, ?encoders_app, ?length_app, He, Hl, Hf;
      cbn; lia.
  - rewrite (bind_call_raises _ _ _ _ _ _ Hopen). cbn. lia.
Qed.

Lemma reports_export3d mesh xcsg_file show_path :
  reports_its_files (export3d mesh xcsg_file show_path).
Proof.
  unfold export3d.
  repeat (apply reports_bind; [ apply reports_when, reports_write3d | intros _ ]).
  destruct (flag "stl"); [ apply reports_write3d | ].
  apply reports_when, reports_write3d.
Qed.

Lemma reports_export2d polyset xcsg_file show_path :
  reports_its_files (export2d polyset xcsg_file show_path).
Proof.
  unfold export2d.
  apply reports_bind; [ apply reports_when, reports_openscad | intros _ ].
  apply reports_bind; [ | intros _ ]; apply reports_when, reports_write2d.
Qed.

(** X13.  The console tells which files were written.  The statement that
    reports an encoder streams its label [Created ... file: ] first, then
    calls the encoder, then streams the name of the file the encoder
    returned, as [DisplayName] shows it, and ends the line.  So an encoder
    that throws leaves its label on the console with no name after it.
    Over the processing of a node no name is printed without its label and
    no label without an encoder having been invoked; when the processing
    returns there are as many names as encoders were invoked, when it
    throws at most one less. *)
Theorem created_lines_report_the_files :
  forall (node : cf_xmlNode) (xcsg_file : string),
    reports_its_files (run_xsolid node xcsg_file)
    /\ reports_its_files (run_xshape2d node xcsg_file)
    /\ (forall f label mesh show_path w,
          (forall path w1,
              encode3d X f mesh xcsg_file w = (Ret path, w1) ->
              write3d f label mesh xcsg_file show_path w
                = (Ret tt, w1,
                   [Cout (CreatedLabel label); EvEncode3d f mesh xcsg_file;
                    Cout (CreatedFile
                            (DisplayName (filename_of X path) show_path))]))
          /\ (forall e w1,
                encode3d X f mesh xcsg_file w = (Raise e, w1) ->
                write3d f label mesh xcsg_file show_path w
                  = (Raise e, w1,
                     [Cout (CreatedLabel label);
                      EvEncode3d f mesh xcsg_file])))
    /\ (forall f label polyset show_path w,
          (forall path w1,
              encode2d X f polyset xcsg_file w = (Ret path, w1) ->
              write2d f label polyset xcsg_file show_path w
                = (Ret tt, w1,
                   [Cout (CreatedLabel label); EvEncode2d f polyset xcsg_file;
                    Cout (CreatedFile
                            (DisplayName (filename_of X path) show_path))]))
          /\ (forall e w1,
                encode2d X f polyset xcsg_file w = (Raise e, w1) ->
                write2d f label polyset xcsg_file show_path w
                  = (Raise e, w1,
                     [Cout (CreatedLabel label);
                      EvEncode2d f polyset xcsg_file]))).
Proof.
  intros node xcsg_file. split; [ | split; [ | split ] ].
  - unfold run_xsolid.
    apply reports_bind; [ apply reports_quiet; now apply emits_note | intros _ ].
    apply reports_bind; [ apply reports_quiet; now apply emits_call | ].
    intros [obj | ]; [ | apply reports_quiet, emits_throw ]. cbv zeta.
    apply reports_bind; [ apply reports_quiet; now apply emits_note | intros _ ].
    apply reports_bind;
      [ apply reports_quiet, emits_check_max_bool | intros _ ].
    apply reports_bind;
      [ apply reports_quiet, emits_when; now apply emits_note | intros _ ].
    apply reports_bind; [ apply reports_quiet, boolean3d_quiet | intros csg ].
    unfold after_boolean3d. cbv zeta.
    apply reports_bind; [ apply reports_quiet; now apply emits_note | intros _ ].
    apply reports_bind; [ apply reports_quiet, lumps_quiet | intros tri ].
    apply reports_bind; [ apply reports_quiet; now apply emits_note | intros _ ].
    apply reports_bind; [ apply reports_export3d | intros _ ].
    apply reports_quiet, emits_ret.
  - unfold run_xshape2d.
    apply reports_bind; [ apply reports_quiet; now apply emits_note | intros _ ].
    apply reports_bind; [ apply reports_quiet; now apply emits_call | ].
    intros [obj | ]; [ | apply reports_quiet, emits_throw ]. cbv zeta.
    apply reports_bind; [ apply reports_quiet; now apply emits_note | intros _ ].
    apply reports_bind;
      [ apply reports_quiet, emits_check_max_bool | intros _ ].
    apply reports_bind;
      [ apply reports_quiet, emits_when; now apply emits_note | intros _ ].
    apply reports_bind; [ apply reports_quiet, boolean2d_quiet | intros polyset ].
    apply reports_bind; [ apply reports_quiet; now apply emits_note | intros _ ].
    apply reports_bind; [ apply reports_export2d | intros _ ].
    apply reports_quiet, emits_ret.
  - intros f label mesh show_path w. split.
    + intros path w1. apply write3d_returns.
    + intros e w1. apply write3d_raises.
  - intros f label polyset show_path w. split.
    + intros path w1. apply write2d_returns.
    + intros e w1. apply write2d_raises.
Qed.

(** *** The phases of a run *)

Lemma after_tolerance_after_entry xcsg_file :
  holds_after_entry
    (fun ev => is_input_event ev = false /\ is_tolerance ev = false) xcsg_file.
Proof.
  unfold holds_after_entry.
  split; [ intros m Hm; now destruct m | repeat split ].
Qed.

Lemma process_phases tree file xcsg_file show_path w :
  exists pre post,
    trace (process tree file xcsg_file show_path w) = pre ++ post
    /\ Forall (fun ev => is_input_event ev = true) pre
    /\ (post = []
        \/ exists root post',
             post = EvSetSecantTolerance root :: post'
             /\ tag root = "xcsg"
             /\ Forall (fun ev => is_input_event ev = false
                                  /\ is_tolerance ev = false) post').
Proof.
  unfold process. rewrite bind_act.
  destruct (read_xml X tree xcsg_file w) as [[ok tree1] w1]. cbn [fst snd].
  destruct ok.
  - rewrite bind_cout. projections.
    destruct (get_root tree1) as [root | ].
    + destruct (String.eqb_spec "xcsg" (tag root)) as [Htag | Htag].
      * rewrite bind_act. projections.
        exists [EvReadXml xcsg_file; Cout (Processing (DisplayName file show_path))],
          (EvSetSecantTolerance root
             :: trace (children_loop (children root) 0 xcsg_file
                         (set_secant_tolerance X root w1))).
        split; [ reflexivity | ]. split; [ repeat constructor | ].
        right. exists root. eexists. split; [ reflexivity | ].
        split; [ now symmetry | ].
        apply emits_children_loop.
        -- apply after_tolerance_after_entry.
        -- intros; split; reflexivity.
        -- intros; split; reflexivity.
      * eexists; exists []. rewrite app_nil_r. split; [ reflexivity | ].
        split; [ repeat constructor | now left ].
    + eexists; exists []. rewrite app_nil_r. split; [ reflexivity | ].
      split; [ repeat constructor | now left ].
  - eexists; exists []. rewrite app_nil_r. split; [ reflexivity | ].
    split; [ repeat constructor | now left ].
Qed.

(** X14.  Every run has the same phases.  First [run] deals with its input:
    the command line, the existence check, the conversion, the reading of
    the tree, the [xcsg processing] line.  Then, if the tree has a root
    tagged [xcsg], it sets the secant tolerance from that root, once; only
    after that is anything built: whatever follows belongs to the processing
    of a node, touches no input file and does not set the tolerance
    again. *)
Theorem tolerance_is_set_before_any_node :
  forall w : W,
    exists pre post,
      trace (run w) = pre ++ post
      /\ Forall (fun ev => is_input_event ev = true) pre
      /\ (post = []
          \/ exists root post',
               post = EvSetSecantTolerance root :: post'
               /\ tag root = "xcsg"
               /\ Forall (fun ev => is_input_event ev = false
                                    /\ is_tolerance ev = false) post').
Proof.
  intros w.
  destruct (parsed_ok m_cmd) eqn:Hok.
  2: { exists [], []. unfold run. rewrite Hok. cbn.
       split; [ reflexivity | ]. split; [ constructor | now left ]. }
  destruct (count m_cmd "xcsg-file" =? 0)%nat eqn:Hcount.
  { exists [Cout MissingInput], []. unfold run. rewrite Hok, Hcount. cbn.
    split; [ reflexivity | ]. split; [ repeat constructor | now left ]. }
  apply Nat.eqb_neq in Hcount.
  destruct (get_string m_cmd "xcsg-file") as [raw | ex] eqn:Hget.
  2: { exists [], []. rewrite (run_unnamed ex w Hok Hcount Hget). cbn.
       split; [ reflexivity | ]. split; [ constructor | now left ]. }
  assert (Hin : names_input raw) by (repeat split; assumption).
  destruct (Exists X (replace backslash slash raw) w) eqn:Hex.
  2: { eexists; exists []. rewrite (run_named _ _ Hin), Hex, app_nil_r.
       split; [ reflexivity | ]. split; [ repeat constructor | now left ]. }
  pose proof (emits_convert (fun ev => is_input_event ev = true) None
                (filename_of X (replace backslash slash raw))
                (replace backslash slash raw) eq_refl eq_refl eq_refl w) as Hc.
  destruct (convert None (filename_of X (replace backslash slash raw))
              (replace backslash slash raw) w)
    as [[[[[tree1 file1] xcsg_file1] | e] w1] t1] eqn:Hconv;
    cbn [trace snd] in Hc.
  - rewrite (run_processes _ _ _ _ _ _ _ Hin Hex Hconv). projections.
    destruct (process_phases tree1 file1 xcsg_file1 (flag "fullpath") w1)
      as (pre & post & -> & Hpre & Hpost).
    exists (EvExists (replace backslash slash raw) :: t1 ++ pre), post.
    split; [ cbn [app]; now rewrite <- app_assoc | ].
    split; [ | exact Hpost ].
    constructor; [ reflexivity | ]. apply Forall_app. now split.
  - rewrite (run_convert_fails _ _ _ _ _ Hin Hex Hconv).
    eexists; exists []. rewrite app_nil_r. split; [ reflexivity | ].
    split; [ | now left ]. constructor; [ reflexivity | exact Hc ].
Qed.

(** *** Where a failure comes from *)

Lemma raises_ret {A} Q (a : A) : raises_only Q (ret a).
Proof. intros w e H. discriminate H. Qed.

Lemma raises_throw {A} (Q : exn -> Prop) e : Q e -> raises_only Q (@throw A e).
Proof. intros H w e' E. injection E as <-. exact H. Qed.

Lemma raises_note Q ev : raises_only Q (note ev).
Proof. intros w e H. discriminate H. Qed.

Lemma raises_act {A} Q ev (f : W -> A * W) : raises_only Q (act ev f).
Proof. intros w e. unfold act. destruct (f w). discriminate. Qed.

Lemma raises_call {A} (Q : exn -> Prop) ev (f : W -> result A * W) :
  (forall w e w1, f w = (Raise e, w1) -> Q e) -> raises_only Q (call ev f).
Proof.
  intros H w e. unfold call. destruct (f w) as [[a | e'] w1] eqn:E;
    [ discriminate | ].
  intros E'. injection E' as <-. exact (H _ _ _ E).
Qed.

Lemma raises_bind {A B} Q (m : M A) (k : A -> M B) :
  raises_only Q m -> (forall a, raises_only Q (k a)) ->
  raises_only Q (bind m k).
Proof.
  intros Hm Hk w e. rewrite bind_run. specialize (Hm w).
  destruct (m w) as [[[a | e'] w1] t1]; projections.
  - apply Hk.
  - intros E. injection E as <-. exact (Hm e' eq_refl).
Qed.

Lemma raises_when Q b (m : M unit) : raises_only Q m -> raises_only Q (when b m).
Proof. intros H. destruct b; [ exact H | apply raises_ret ]. Qed.

Lemma raises_impl {A} (Q Q' : exn -> Prop) (m : M A) :
  (forall e, Q e -> Q' e) -> raises_only Q m -> raises_only Q' m.
Proof. intros H Hm w e E. exact (H _ (Hm w e E)). Qed.

Lemma raises_check_max_bool nbool :
  raises_only own_failure (check_max_bool nbool).
Proof.
  unfold check_max_bool. destruct (_ <? _)%N.
  - apply raises_throw. now right.
  - apply raises_ret.
Qed.

Lemma raises_boolean3d obj nbool :
  raises_only thrown_on_solid_path (boolean3d obj nbool).
Proof.
  intros w e. unfold boolean3d, try_boolean.
  destruct (create_carve_mesh X obj _) as [[mesh | e1] w2] eqn:Hmesh.
  - destruct (carve_compute X mesh _ w2) as [[csg1 [e1 | ]] w3] eqn:Hcomp;
      [ | discriminate ].
    destruct (is_carve_exception e1) eqn:Hc; [ discriminate | ].
    intros E. injection E as <-.
    right. right. left. now exists mesh, carve_boolean_new, w2, csg1, w3.
  - destruct (is_carve_exception e1) eqn:Hc; [ discriminate | ].
    intros E. injection E as <-.
    right. left. eexists obj, _, w2. split; [ exact Hmesh | exact Hc ].
Qed.

Lemma raises_lumps csg :
  forall remaining imani tri,
    raises_only thrown_on_solid_path (lumps csg remaining imani tri).
Proof.
  induction remaining as [ | k IH ]; intros imani tri; cbn [lumps].
  - apply raises_ret.
  - apply raises_bind; [ | intros a; apply IH ].
    unfold lump. cbv zeta.
    apply raises_bind; [ apply raises_note | intros _ ].
    destruct (0 <? _)%nat.
    + apply raises_bind; [ apply raises_note | intros _ ].
      apply raises_bind; [ apply raises_note | intros _ ].
      apply raises_bind; [ | intros tris ].
      * apply raises_call. intros w e w1 H.
        do 3 right. left. eauto.
      * apply raises_bind; [ apply raises_note | intros _; apply raises_ret ].
    + apply raises_bind; [ apply raises_note | intros _; apply raises_ret ].
Qed.

Lemma raises_write3d f label mesh xcsg_file show_path :
  raises_only thrown_on_solid_path (write3d f label mesh xcsg_file show_path).
Proof.
  unfold write3d. apply raises_bind; [ apply raises_note | intros _ ].
  apply raises_bind; [ | intros path; apply raises_note ].
  apply raises_call. intros w e w1 H. do 4 right. eauto 6.
Qed.

Lemma raises_export3d mesh xcsg_file show_path :
  raises_only thrown_on_solid_path (export3d mesh xcsg_file show_path).
Proof.
  unfold export3d.
  repeat (apply raises_bind; [ apply raises_when, raises_write3d | intros _ ]).
  destruct (flag "stl"); [ apply raises_write3d | ].
  apply raises_when, raises_write3d.
Qed.

Lemma raises_run_xsolid node xcsg_file :
  raises_only (fun e => own_failure e \/ thrown_on_solid_path e)
    (run_xsolid node xcsg_file).
Proof.
  unfold run_xsolid.
  apply raises_bind; [ apply raises_note | intros _ ].
  apply raises_bind.
  { apply raises_call. intros w e w1 H. right. left. eauto. }
  intros [obj | ]; [ | apply raises_throw; left; now left ]. cbv zeta.
  apply raises_bind; [ apply raises_note | intros _ ].
  apply raises_bind.
  { apply (raises_impl own_failure); [ now left | ].
    apply raises_check_max_bool. }
  intros _.
  apply raises_bind; [ apply raises_when, raises_note | intros _ ].
  apply (raises_impl thrown_on_solid_path); [ now right | ].
  apply raises_bind; [ apply raises_boolean3d | intros csg ].
  unfold after_boolean3d. cbv zeta.
  apply raises_bind; [ apply raises_note | intros _ ].
  apply raises_bind; [ apply raises_lumps | intros tri ].
  apply raises_bind; [ apply raises_note | intros _ ].
  apply raises_bind; [ apply raises_export3d | intros _; apply raises_ret ].
Qed.

Lemma raises_write_polygons openscad polyset :
  raises_only thrown_on_shape2d_path (write_polygons openscad polyset).
Proof.
  induction polyset as [ | p ps IH ]; cbn [write_polygons].
  - apply raises_ret.
  - apply raises_bind; [ | intros _; exact IH ].
    apply raises_call. intros w e w1 H. do 4 right. left. eauto.
Qed.

Lemma raises_write2d f label polyset xcsg_file show_path :
  raises_only thrown_on_shape2d_path
    (write2d f label polyset xcsg_file show_path).
Proof.
  unfold write2d. apply raises_bind; [ apply raises_note | intros _ ].
  apply raises_bind; [ | intros path; apply raises_note ].
  apply raises_call. intros w e w1 H. do 5 right. eauto 6.
Qed.

Lemma raises_run_xshape2d node xcsg_file :
  raises_only (fun e => own_failure e \/ thrown_on_shape2d_path e)
    (run_xshape2d node xcsg_file).
Proof.
  unfold run_xshape2d.
  apply raises_bind; [ apply raises_note | intros _ ].
  apply raises_bind.
  { apply raises_call. intros w e w1 H. right. left. eauto. }
  intros [obj | ]; [ | apply raises_throw; left; now left ]. cbv zeta.
  apply raises_bind; [ apply raises_note | intros _ ].
  apply raises_bind.
  { apply (raises_impl own_failure); [ now left | ].
    apply raises_check_max_bool. }
  intros _.
  apply raises_bind; [ apply raises_when, raises_note | intros _ ].
  apply (raises_impl thrown_on_shape2d_path); [ now right | ].
  apply raises_bind.
  { unfold boolean2d. apply raises_bind; [ | intros profile ].
    - apply raises_call. intros w e w1 H. right. left. eauto.
    - apply raises_call. intros w e w1 H. do 2 right. left. eauto. }
  intros polyset.
  apply raises_bind; [ apply raises_note | intros _ ].
  apply raises_bind; [ | intros _; apply raises_ret ].
  unfold export2d.
  apply raises_bind; [ | intros _ ].
  - apply raises_when. apply raises_bind; [ | intros openscad ].
    + apply raises_call. intros w e w1 H. do 3 right. left. eauto.
    + apply raises_bind; [ apply raises_write_polygons | intros _ ].
      apply raises_bind; [ apply raises_note | intros _; apply raises_note ].
  - apply raises_bind; [ | intros _ ]; apply raises_when, raises_write2d.
Qed.

Lemma raises_children_loop xcsg_file :
  forall rest icount,
    raises_only (fun e => own_failure e
                          \/ thrown_on_solid_path e
                          \/ thrown_on_shape2d_path e)
      (children_loop rest icount xcsg_file).
Proof.
  induction rest as [ | child rest IH ]; intros icount; cbn [children_loop].
  - apply raises_ret.
  - apply raises_bind.
    + unfold child_step.
      destruct (negb _); [ | apply raises_ret ].
      destruct (is_solid X child).
      * apply raises_bind; [ | intros _; apply raises_ret ].
        apply (raises_impl (fun e => own_failure e \/ thrown_on_solid_path e));
          [ tauto | apply raises_run_xsolid ].
      * destruct (is_shape2d X child); [ | apply raises_ret ].
        apply raises_bind; [ | intros _; apply raises_ret ].
        apply (raises_impl (fun e => own_failure e \/ thrown_on_shape2d_path e));
          [ tauto | apply raises_run_xshape2d ].
    + intros icount1. destruct (0 <? icount1)%N; [ apply raises_ret | apply IH ].
Qed.

(** X16.  The driver fails in four ways of its own: the argument cannot be
    read, the input file does not exist, the factory returns no object for a
    classified node, the ceiling on boolean operations is exceeded.  Every
    other exception that leaves [run_xsolid], [run_xshape2d] or [run] was
    thrown by a collaborator: by the factory, the kernels, the triangulation
    or an encoder of the path taken, or by the conversion of the input; and
    if it left [run_xsolid] from the boolean stage it is no
    [carve::exception].  So when no collaborator throws, the only failures
    are those four. *)
Theorem failures_come_from_collaborators :
  forall (node : cf_xmlNode) (xcsg_file : string),
    raises_only (fun e => own_failure e \/ thrown_on_solid_path e)
      (run_xsolid node xcsg_file)
    /\ raises_only (fun e => own_failure e \/ thrown_on_shape2d_path e)
         (run_xshape2d node xcsg_file)
    /\ raises_only (fun e => input_failure e
                             \/ own_failure e
                             \/ thrown_on_solid_path e
                             \/ thrown_on_shape2d_path e)
         run.
Proof.
  intros node xcsg_file.
  split; [ apply raises_run_xsolid | ].
  split; [ apply raises_run_xshape2d | ].
  unfold run.
  destruct (negb (parsed_ok m_cmd)); [ apply raises_ret | ].
  destruct (count m_cmd "xcsg-file" =? 0)%nat.
  { apply raises_bind; [ apply raises_note | intros _; apply raises_ret ]. }
  unfold input_path.
  destruct (get_string m_cmd "xcsg-file") as [raw | ex] eqn:Hget.
  - intros w e. rewrite bind_ret. revert w e.
    apply raises_bind; [ apply raises_act | intros found ].
    destruct found; cbn [negb].
    + cbv zeta. apply raises_bind.
      * unfold convert. destruct (String.eqb _ ".csg"); [ | apply raises_ret ].
        apply raises_bind; [ apply raises_note | intros _ ].
        apply raises_bind; [ | intros tree1 ].
        -- apply raises_call. intros w e w1 H. left. do 2 right. left. eauto.
        -- cbv zeta. apply raises_bind; [ | intros _; apply raises_ret ].
           apply raises_call. intros w e w1 H. left. do 3 right. eauto.
      * intros [[tree1 file1] xcsg_file1].
        apply raises_bind; [ | intros _; apply raises_ret ].
        unfold process. apply raises_bind; [ apply raises_act | ].
        intros [ok tree2]. destruct ok; [ | apply raises_note ].
        apply raises_bind; [ apply raises_note | intros _ ].
        destruct (get_root tree2) as [root | ]; [ | apply raises_ret ].
        destruct (String.eqb "xcsg" (tag root)); [ | apply raises_ret ].
        apply raises_bind; [ apply raises_act | intros _ ].
        apply (raises_impl (fun e => own_failure e
                                     \/ thrown_on_solid_path e
                                     \/ thrown_on_shape2d_path e));
          [ tauto | apply raises_children_loop ].
    + apply raises_throw. left. right. left. now exists raw.
  - destruct (is_std_exception ex) eqn:Hstd; intros w e;
      rewrite bind_throw; cbn [outcome fst];
      intros E; injection E as <-;
      left; left; exists ex; rewrite Hstd; now split.
Qed.

(** *** What the console says about the boolean stage *)

Lemma try_boolean_lines obj nbool csg0 w r csg w1 t :
  try_boolean obj nbool csg0 w = (r, csg, w1, t) ->
  (In (Cout CompletedBooleans) t <-> r = Ret tt)
  /\ (forall msg, ~ In (Cout (Warning msg)) t).
Proof.
  unfold try_boolean.
  destruct (create_carve_mesh X obj _) as [[mesh | e] w2].
  - destruct (carve_compute X mesh csg0 w2) as [[csg1 [e | ]] w3];
      intros E; injection E as <- <- <- <-; split;
      try (intros msg H; cbn in H; intuition discriminate);
      split; try discriminate; try reflexivity;
      try (intros H; cbn in H; intuition discriminate).
    intros _. cbn. tauto.
  - intros E; injection E as <- <- <- <-; split;
      try (intros msg H; cbn in H; intuition discriminate);
      split; try discriminate;
      try (intros H; cbn in H; intuition discriminate).
Qed.

Lemma after_boolean3d_no_stage_line csg xcsg_file show_path :
  emits (fun ev => ev <> Cout CompletedBooleans
                   /\ forall msg, ev <> Cout (Warning msg))
    (after_boolean3d csg xcsg_file show_path).
Proof. apply emits_after_boolean3d; intros; split; discriminate. Qed.

(** X17.  For a solid within the ceiling, the console tells how the boolean
    reduction ended.  The line [...completed boolean operations] is printed
    if and only if the reduction returned normally; a [WARNING] line is
    printed if and only if the reduction threw a [carve::exception], and
    then it reads [(carve error): ] followed by what the exception said.  A
    reduction that throws anything else prints neither. *)
Theorem console_tells_how_the_reduction_ended :
  forall (node : cf_xmlNode) (xcsg_file : string) (w : W) (obj : xsolid)
         (w1 : W) (r : result unit) (csg : carve_boolean) (w2 : W)
         (t : list event),
    make_solid X node w = (Ret (Some obj), w1) ->
    (solid_nbool X obj <= max_bool m_cmd)%N ->
    try_boolean obj (solid_nbool X obj) carve_boolean_new w1 = (r, csg, w2, t) ->
    (In (Cout CompletedBooleans) (trace (run_xsolid node xcsg_file w))
     <-> r = Ret tt)
    /\ (forall msg,
          In (Cout (Warning msg)) (trace (run_xsolid node xcsg_file w))
          <-> exists e, r = Raise e
                        /\ is_carve_exception e = true
                        /\ msg = ("(carve error): " ++ what e)%string).
Proof.
  intros node xcsg_file w obj w1 r csg w2 t Hmake Hle Htry.
  destruct (try_boolean_lines _ _ _ _ _ _ _ _ Htry) as (Hdone & Hwarn).
  rewrite (run_xsolid_within _ xcsg_file _ _ _ Hmake Hle). projections.
  assert (Hhead : forall ev,
             In ev (solid_head node obj) ->
             ev <> Cout CompletedBooleans
             /\ forall msg, ev <> Cout (Warning msg)).
  { intros ev H. unfold solid_head, starting in H.
    destruct (0 <? solid_nbool X obj)%N; cbn in H;
      repeat (destruct H as [<- | H]; [ split; discriminate | ]);
      destruct H. }
  assert (Hafter : forall csg1 w3 ev,
             In ev (trace (after_boolean3d csg1 xcsg_file (flag "fullpath") w3)) ->
             ev <> Cout CompletedBooleans
             /\ forall msg, ev <> Cout (Warning msg)).
  { intros csg1 w3 ev H.
    pose proof (after_boolean3d_no_stage_line csg1 xcsg_file (flag "fullpath")
                  w3) as Hq.
    rewrite Forall_forall in Hq. exact (Hq _ H). }
  rewrite bind_run. unfold boolean3d. rewrite Htry.
  destruct r as [[] | e].
  - projections. split.
    + split; [ reflexivity | ]. intros _.
      apply in_or_app. right. apply in_or_app. left. now apply Hdone.
    + intros msg. split.
      * intros H. exfalso.
        apply in_app_or in H as [H | H];
          [ now apply (proj2 (Hhead _ H) msg) | ].
        apply in_app_or in H as [H | H]; [ now apply (Hwarn msg) | ].
        now apply (proj2 (Hafter _ _ _ H) msg).
      * intros (e & E & _). discriminate E.
  - destruct (is_carve_exception e) eqn:Hc; projections.
    + split.
      * split; [ | discriminate ]. intros H. exfalso.
        apply in_app_or in H as [H | H];
          [ now apply (proj1 (Hhead _ H)) | ].
        apply in_app_or in H as [H | H];
          [ | now apply (proj1 (Hafter _ _ _ H)) ].
        apply in_app_or in H as [H | [H | []]]; [ | discriminate H ].
        apply Hdone in H. discriminate H.
      * intros msg. split.
        -- intros H. exists e. split; [ reflexivity | ].
           split; [ exact Hc | ].
           apply in_app_or in H as [H | H];
             [ now destruct (proj2 (Hhead _ H) msg) | ].
           apply in_app_or in H as [H | H];
             [ | now destruct (proj2 (Hafter _ _ _ H) msg) ].
           apply in_app_or in H as [H | [H | []]];
             [ now destruct (Hwarn msg) | ].
           now injection H as <-.
        -- intros (e' & E & _ & ->). injection E as <-.
           apply in_or_app. right. apply in_or_app. left.
           apply in_or_app. right. now left.
    + split.
      * split; [ | discriminate ]. intros H. exfalso.
        apply in_app_or in H as [H | H];
          [ now apply (proj1 (Hhead _ H)) | ].
        apply Hdone in H. discriminate H.
      * intros msg. split.
        -- intros H. exfalso.
           apply in_app_or in H as [H | H];
             [ now apply (proj2 (Hhead _ H) msg) | now apply (Hwarn msg) ].
        -- intros (e' & E & Hc' & _). injection E as <-.
           rewrite Hc in Hc'. discriminate Hc'.
Qed.

(** *** A missing input file *)

Lemma append_empty (s : string) : (s ++ "")%string = s.
Proof. induction s as [ | c s IH ]; [ reflexivity | cbn; now rewrite IH ]. Qed.

(** X18.  An input file that does not exist: the run ends with a
    [runtime_error] whose message is [File does not exist: ] followed by the
    path with its separators replaced.  The existence check is all that has
    happened: nothing is converted, read or printed, and the world is as it
    was. *)
Theorem missing_file_is_reported :
  forall (raw : string) (w : W),
    names_input raw ->
    Exists X (replace backslash slash raw) w = false ->
    run w =
      (Raise (runtime_error
                ("File does not exist: " ++ replace backslash slash raw)),
       w, [EvExists (replace backslash slash raw)])
    /\ console (trace (run w)) = []
    /\ contains (replace backslash slash raw)
         (what (file_not_found (replace backslash slash raw))) = true.
Proof.
  intros raw w Hin Hex. rewrite (run_named _ _ Hin), Hex.
  split; [ reflexivity | ]. split; [ reflexivity | ].
  pose proof (contains_app (replace backslash slash raw)
                "File does not exist: " "") as H.
  now rewrite append_empty in H.
Qed.

End Driver.

Arguments Cout {xsolid xshape2d carve_mesh clipper_profile pos3d polygon2d} m.
Arguments EvExists {xsolid xshape2d carve_mesh clipper_profile pos3d polygon2d}
  path.
Arguments EvReadXml {xsolid xshape2d carve_mesh clipper_profile pos3d polygon2d}
  path.
Arguments EvToXcsg {xsolid xshape2d carve_mesh clipper_profile pos3d polygon2d}
  path.
Arguments EvWriteXml {xsolid xshape2d carve_mesh clipper_profile pos3d
  polygon2d} path.
Arguments EvSetSecantTolerance
  {xsolid xshape2d carve_mesh clipper_profile pos3d polygon2d} root.
Arguments EvMakeSolid
  {xsolid xshape2d carve_mesh clipper_profile pos3d polygon2d} node.
Arguments EvMakeShape2d
  {xsolid xshape2d carve_mesh clipper_profile pos3d polygon2d} node.
Arguments EvTimerInit
  {xsolid xshape2d carve_mesh clipper_profile pos3d polygon2d} nsteps.
Arguments EvCreateCarveMesh {xsolid xshape2d carve_mesh clipper_profile pos3d
  polygon2d} obj.
Arguments EvCarveCompute {xsolid xshape2d carve_mesh clipper_profile pos3d
  polygon2d} mesh.
Arguments EvCreateClipperProfile {xsolid xshape2d carve_mesh clipper_profile
  pos3d polygon2d} obj.
Arguments EvClipperCompute {xsolid xshape2d carve_mesh clipper_profile pos3d
  polygon2d} profile.
Arguments EvAdd {xsolid xshape2d carve_mesh clipper_profile pos3d polygon2d}
  lump.
Arguments EvEncode3d {xsolid xshape2d carve_mesh clipper_profile pos3d
  polygon2d} f mesh path.

(** * The claims on the concrete world *)

(** The command lines of [Demo] name their input file. *)
Lemma demo_names xcsg_file :
  names_input (Demo.solid_cmd xcsg_file) xcsg_file.
Proof. repeat split. discriminate. Qed.

(** The run on [union.xcsg] gets to its only child, a union of 5 boolean
    operations. *)
Lemma demo_reaches_union :
  reaches Demo.X (Demo.solid_cmd "union.xcsg") "" (Demo.leaf "union3d")
    "union.xcsg" ""
    [EvExists "union.xcsg"; EvReadXml "union.xcsg";
     Cout (Processing "union.xcsg");
     EvSetSecantTolerance (Demo.scene_root [Demo.leaf "union3d"])].
Proof.
  exists "union.xcsg", None, "union.xcsg", "", [],
    (Demo.content "union.xcsg"), "", (Demo.scene_root [Demo.leaf "union3d"]).
  repeat split; try reflexivity. discriminate.
Qed.

(** C1, as amended, at work: the kernel throws after one lump, a
    tetrahedron, which needs no triangulation; the run warns, exports that
    lump in three formats and returns [true].  When the mesh cannot even be
    built there is no lump, and the run still exports. *)
Lemma carve_error_is_survived_witness :
  make_solid Demo.X (Demo.leaf "cube") "carve" = (Ret (Some "cube"), "carve")
  /\ (solid_nbool Demo.X "cube" <= 3)%N
  /\ try_boolean Demo.X "cube" 0 [] "carve"
       = (Raise (carve_exception "intersection"), [Demo.tetrahedron], "carve",
          [EvTimerInit 0%Z; EvCreateCarveMesh "cube"; EvCarveCompute "cube"])
  /\ combined_mesh Demo.X [Demo.tetrahedron] "carve"
     = (Ret [Demo.tetrahedron], "carve")
  /\ outcome (run_xsolid Demo.X (Demo.solid_cmd Demo.cube_path)
                (Demo.leaf "cube") "models/cube.xcsg" "carve") = Ret true
  /\ console (trace (run_xsolid Demo.X (Demo.solid_cmd Demo.cube_path)
                       (Demo.leaf "cube") "models/cube.xcsg" "carve"))
     = [ProcessingSolid "cube"; CompletedTree 0;
        Warning "(carve error): intersection";
        ResultLumps 1; Lump 1 4 4; Exporting;
        CreatedLabel "Created OpenSCAD file: "; CreatedFile "cube.csg";
        CreatedLabel "Created OBJ file     : "; CreatedFile "cube.obj";
        CreatedLabel "Created STL file     : "; CreatedFile "cube.stl"]
  /\ try_boolean Demo.X "cube" 0 [] "mesh"
       = (Raise (carve_exception "degenerate mesh"), [], "mesh",
          [EvTimerInit 0%Z; EvCreateCarveMesh "cube"])
  /\ outcome (run_xsolid Demo.X (Demo.solid_cmd Demo.cube_path)
                (Demo.leaf "cube") "models/cube.xcsg" "mesh") = Ret true
  /\ console (trace (run_xsolid Demo.X (Demo.solid_cmd Demo.cube_path)
                       (Demo.leaf "cube") "models/cube.xcsg" "mesh"))
     = [ProcessingSolid "cube"; CompletedTree 0;
        Warning "(carve error): degenerate mesh";
        ResultLumps 0; Exporting;
        CreatedLabel "Created OpenSCAD file: "; CreatedFile "cube.csg";
        CreatedLabel "Created OBJ file     : "; CreatedFile "cube.obj";
        CreatedLabel "Created STL file     : "; CreatedFile "cube.stl"].
Proof.
  split; [ reflexivity | ]. split; [ cbn; lia | ]. split; [ reflexivity | ].
  destruct (carve_error_is_survived _ _ _ _ _ _ _ _ Demo.X
              (Demo.solid_cmd Demo.cube_path) (Demo.leaf "cube")
              "models/cube.xcsg" "carve" "cube" "carve"
              (carve_exception "intersection") [Demo.tetrahedron]
              "carve"
              [EvTimerInit 0%Z; EvCreateCarveMesh "cube";
               EvCarveCompute "cube"]
              eq_refl ltac:(cbn; lia) eq_refl eq_refl)
    as (Hrun & _ & _ & Hplain & _).
  split; [ exact (Hplain eq_refl) | ].
  rewrite Hrun.
  split; [ reflexivity | ]. split; [ reflexivity | ].
  split; [ reflexivity | ].
  destruct (carve_error_is_survived _ _ _ _ _ _ _ _ Demo.X
              (Demo.solid_cmd Demo.cube_path) (Demo.leaf "cube")
              "models/cube.xcsg" "mesh" "cube" "mesh"
              (carve_exception "degenerate mesh") [] "mesh"
              [EvTimerInit 0%Z; EvCreateCarveMesh "cube"]
              eq_refl ltac:(cbn; lia) eq_refl eq_refl)
    as (Hrun' & _ & _ & _ & Hempty).
  rewrite Hrun', (Hempty eq_refl). split; reflexivity.
Defined.

(** The kernel leaves a box and throws a [carve::exception]; the warning is
    printed and the box goes to the triangulation kernel, which throws: the
    run ends there, without the export line and without any encoder. *)
Lemma carve_error_then_triangulation_error :
  make_solid Demo.brittle (Demo.leaf "cube") "" = (Ret (Some "cube"), "")
  /\ (solid_nbool Demo.brittle "cube"
        <= max_bool (Demo.solid_cmd Demo.cube_path))%N
  /\ try_boolean Demo.brittle "cube" 0 [] ""
       = (Raise (carve_exception "intersection"), [Demo.box], "",
          [EvTimerInit 0%Z; EvCreateCarveMesh "cube"; EvCarveCompute "cube"])
  /\ is_carve_exception (carve_exception "intersection") = true
  /\ outcome (run_xsolid Demo.brittle (Demo.solid_cmd Demo.cube_path)
                (Demo.leaf "cube") "models/cube.xcsg" "")
     = Raise (carve_exception "not planar")
  /\ encoders (trace (run_xsolid Demo.brittle (Demo.solid_cmd Demo.cube_path)
                        (Demo.leaf "cube") "models/cube.xcsg" "")) = []
  /\ console (trace (run_xsolid Demo.brittle (Demo.solid_cmd Demo.cube_path)
                       (Demo.leaf "cube") "models/cube.xcsg" ""))
     = [ProcessingSolid "cube"; CompletedTree 0;
        Warning "(carve error): intersection";
        ResultLumps 1; Lump 1 8 6; Triangulating; TriangulationCompleted].
Proof.
  split; [ reflexivity | ]. split; [ cbn; lia | ].
  repeat (split; [ reflexivity | ]). reflexivity.
Qed.

(** C2 at work: 5 boolean operations under a ceiling of 3. *)
Lemma over_the_ceiling_no_kernel_call_witness :
  (max_bool (Demo.solid_cmd "union.xcsg") < solid_nbool Demo.X "union3d")%N
  /\ run_xsolid Demo.X (Demo.solid_cmd "union.xcsg") (Demo.leaf "union3d")
       "union.xcsg" ""
     = (Raise (logic_error
                 "Max 3 boolean operations allowed in this configuration."),
        "",
        [Cout (ProcessingSolid "union3d"); EvMakeSolid (Demo.leaf "union3d");
         Cout (CompletedTree 5)])
  /\ outcome (run Demo.X (Demo.solid_cmd "union.xcsg") "")
     = Raise (logic_error
                "Max 3 boolean operations allowed in this configuration.")
  /\ existsb (@is_kernel_call _ _ _ _ _ _)
       (trace (run Demo.X (Demo.solid_cmd "union.xcsg") "")) = false.
Proof.
  pose proof (over_the_ceiling_no_kernel_call _ _ _ _ _ _ _ _ Demo.X
                (Demo.solid_cmd "union.xcsg") (Demo.leaf "union3d")
                "union.xcsg" "") as (Hsolid & _ & Hrun).
  split; [ reflexivity | ]. split.
  - exact (proj1 (Hsolid "union3d" "" eq_refl eq_refl)).
  - apply (Hrun "" _ demo_reaches_union).
    exists "union3d", "". split; reflexivity.
Defined.

(** C3 at work: an attribute node and a note, then a cube, a square and a
    union; only the cube is processed. *)
Lemma first_classified_child_only_witness :
  forallb (fun c => negb (classified Demo.X c))
    [Demo.attribute "secant_tolerance"; Demo.leaf "note"] = true
  /\ classified Demo.X (Demo.leaf "cube") = true
  /\ entries (trace (children_loop Demo.X (Demo.solid_cmd Demo.cube_path)
                       ([Demo.attribute "secant_tolerance"; Demo.leaf "note"]
                          ++ Demo.leaf "cube"
                          :: [Demo.leaf "square"; Demo.leaf "union3d"])
                       0 "models/cube.xcsg" "")) = 1
  /\ console (trace (children_loop Demo.X (Demo.solid_cmd Demo.cube_path)
                       ([Demo.attribute "secant_tolerance"; Demo.leaf "note"]
                          ++ Demo.leaf "cube"
                          :: [Demo.leaf "square"; Demo.leaf "union3d"])
                       0 "models/cube.xcsg" ""))
     = console (trace (run_xsolid Demo.X (Demo.solid_cmd Demo.cube_path)
                         (Demo.leaf "cube") "models/cube.xcsg" "")).
Proof.
  pose proof (first_classified_child_only _ _ _ _ _ _ _ _ Demo.X
                (Demo.solid_cmd Demo.cube_path)
                [Demo.attribute "secant_tolerance"; Demo.leaf "note"]
                [Demo.leaf "square"; Demo.leaf "union3d"]
                "models/cube.xcsg" "" eq_refl) as (Hfirst & _).
  destruct (Hfirst (Demo.leaf "cube") eq_refl) as (Hloop & Hone).
  split; [ reflexivity | ]. split; [ reflexivity | ].
  split; [ exact Hone | ]. rewrite Hloop. reflexivity.
Defined.

(** C4 at work: with the flags [obj], [astl], [stl] and [csg] the encoders
    run as script format, OBJ, binary STL; with [dxf], [svg] and [csg] as
    script format, SVG, DXF. *)
Lemma encoders_run_in_fixed_order_witness :
  encoders (trace (run_xsolid Demo.X (Demo.solid_cmd Demo.cube_path)
                     (Demo.leaf "cube") "models/cube.xcsg" ""))
    = [enc3d fmt_csg; enc3d fmt_obj; enc3d (fmt_stl true)]
  /\ StronglySorted lt
       (map rank (encoders (trace (run_xsolid Demo.X
                                     (Demo.solid_cmd Demo.cube_path)
                                     (Demo.leaf "cube") "models/cube.xcsg" ""))))
  /\ In (enc3d (fmt_stl true))
        (encoders (trace (run_xsolid Demo.X (Demo.solid_cmd Demo.cube_path)
                            (Demo.leaf "cube") "models/cube.xcsg" "")))
  /\ encoders (trace (run_xshape2d Demo.X (Demo.shape2d_cmd "square.xcsg")
                        (Demo.leaf "square") "square.xcsg" ""))
     = [enc_csg2d; enc2d fmt_svg; enc2d fmt_dxf].
Proof.
  pose proof (encoders_run_in_fixed_order _ _ _ _ _ _ _ _ Demo.X
                (Demo.solid_cmd Demo.cube_path) (Demo.leaf "cube")
                "models/cube.xcsg" "") as ((Hsorted & _ & Hall) & _).
  split; [ reflexivity | ]. split; [ exact Hsorted | ].
  split; [ | reflexivity ].
  apply (Hall true eq_refl). split; reflexivity.
Defined.

(** C5 at work: the tetrahedron is passed through, the box, with its six
    quadrilaterals, goes to the triangulation kernel; the mesh given to the
    encoders is the tetrahedron and the twelve triangles of the box. *)
Lemma triangulation_gate_witness :
  gate (trace (after_boolean3d Demo.X (Demo.solid_cmd Demo.cube_path)
                 [Demo.tetrahedron; Demo.box] "models/cube.xcsg" false ""))
  = [(false, Demo.tetrahedron); (true, Demo.box)]
  /\ combined_mesh Demo.X [Demo.tetrahedron; Demo.box] ""
     = (Ret [Demo.tetrahedron; Demo.triangles Demo.box], "")
  /\ f_size (Demo.triangles Demo.box) = 12%N
  /\ forall f m path,
       In (EvEncode3d f m path)
          (trace (after_boolean3d Demo.X (Demo.solid_cmd Demo.cube_path)
                    [Demo.tetrahedron; Demo.box] "models/cube.xcsg" false "")) ->
       m = [Demo.tetrahedron; Demo.triangles Demo.box]
       /\ path = "models/cube.xcsg".
Proof.
  destruct (triangulation_gate _ _ _ _ _ _ _ _ Demo.X
              (Demo.solid_cmd Demo.cube_path)
              [Demo.tetrahedron; Demo.box] "models/cube.xcsg" false "")
    as ((done & _ & Hgate & Hdone) & Hmesh & _).
  split.
  - rewrite Hgate, Hdone; [ reflexivity | ]. cbn. tauto.
  - split; [ reflexivity | ]. split; [ reflexivity | ].
    exact (proj2 (proj2 (proj2 (Hmesh _ _ eq_refl)))).
Defined.

(** C6, as amended, at work. *)
Lemma ceiling_error_names_the_ceiling_witness :
  (max_bool (Demo.solid_cmd "union.xcsg") < solid_nbool Demo.X "union3d")%N
  /\ outcome (run_xsolid Demo.X (Demo.solid_cmd "union.xcsg")
                (Demo.leaf "union3d") "union.xcsg" "")
     = Raise (logic_error
                "Max 3 boolean operations allowed in this configuration.")
  /\ In (Cout (CompletedTree 5))
        (trace (run_xsolid Demo.X (Demo.solid_cmd "union.xcsg")
                  (Demo.leaf "union3d") "union.xcsg" "")).
Proof.
  split; [ reflexivity | ].
  exact (proj1 (ceiling_error_names_the_ceiling _ _ _ _ _ _ _ _ Demo.X
                  (Demo.solid_cmd "union.xcsg") (Demo.leaf "union3d")
                  "union.xcsg" "")
           "union3d" "" eq_refl eq_refl).
Defined.

(** The count of the model, 5, is not in the message of the exception. *)
Lemma ceiling_error_omits_the_count :
  (max_bool (Demo.solid_cmd "union.xcsg") < solid_nbool Demo.X "union3d")%N
  /\ solid_nbool Demo.X "union3d" = 5%N
  /\ outcome (run_xsolid Demo.X (Demo.solid_cmd "union.xcsg")
                (Demo.leaf "union3d") "union.xcsg" "")
     = Raise (logic_error
                "Max 3 boolean operations allowed in this configuration.")
  /\ contains (show_N 5)
       "Max 3 boolean operations allowed in this configuration." = false.
Proof. repeat split. Qed.

(** C7, as amended, at work. *)
Lemma unclassified_scene_is_accepted_in_silence_witness :
  forallb (fun c => negb (classified Demo.X c))
    [Demo.attribute "secant_tolerance"; Demo.leaf "note"] = true
  /\ run Demo.X (Demo.solid_cmd "notes.xcsg") ""
     = (Ret true, "",
        [EvExists "notes.xcsg"; EvReadXml "notes.xcsg";
         Cout (Processing "notes.xcsg");
         EvSetSecantTolerance
           (Demo.scene_root
              [Demo.attribute "secant_tolerance"; Demo.leaf "note"])]).
Proof.
  split; [ reflexivity | ].
  exact (proj1 (unclassified_scene_is_accepted_in_silence _ _ _ _ _ _ _ _
                  Demo.X (Demo.solid_cmd "notes.xcsg") "notes.xcsg" ""
                  None "notes.xcsg" "notes.xcsg" "" []
                  (Demo.content "notes.xcsg") ""
                  (Demo.scene_root
                     [Demo.attribute "secant_tolerance"; Demo.leaf "note"])
                  (demo_names "notes.xcsg") eq_refl eq_refl eq_refl eq_refl eq_refl
                  eq_refl)).
Defined.

(** A scene with an attribute node and an unknown tag, nothing else: the run
    prints its [xcsg processing] line and returns [true]. *)
Lemma unclassified_scene_reports_nothing :
  get_root (Demo.content "notes.xcsg")
    = Some (Demo.scene_root
              [Demo.attribute "secant_tolerance"; Demo.leaf "note"])
  /\ find (classified Demo.X)
       [Demo.attribute "secant_tolerance"; Demo.leaf "note"] = None
  /\ outcome (run Demo.X (Demo.solid_cmd "notes.xcsg") "") = Ret true
  /\ console (trace (run Demo.X (Demo.solid_cmd "notes.xcsg") ""))
     = [Processing "notes.xcsg"].
Proof. repeat split. Qed.


(** C9 at work: a file that exists and cannot be read, a tree whose root is
    not tagged [xcsg], and a scene without a classified child. *)
Lemma run_returns_true_with_nothing_to_process_witness :
  read_xml Demo.X None "unreadable.xcsg" "" = (false, None, "")
  /\ outcome (run Demo.X (Demo.solid_cmd "unreadable.xcsg") "") = Ret true
  /\ console (trace (run Demo.X (Demo.solid_cmd "unreadable.xcsg") ""))
     = [NotFound "unreadable.xcsg"]
  /\ outcome (run Demo.X (Demo.solid_cmd "page.xcsg") "") = Ret true
  /\ outcome (run Demo.X (Demo.solid_cmd "notes.xcsg") "") = Ret true
  /\ entries (trace (run Demo.X (Demo.solid_cmd "notes.xcsg") "")) = 0.
Proof.
  pose proof (run_returns_true_with_nothing_to_process _ _ _ _ _ _ _ _ Demo.X
                (Demo.solid_cmd "unreadable.xcsg") "unreadable.xcsg" ""
                None "unreadable.xcsg" "unreadable.xcsg" "" []
                (demo_names "unreadable.xcsg") eq_refl eq_refl eq_refl)
    as (Hunreadable & _).
  pose proof (run_returns_true_with_nothing_to_process _ _ _ _ _ _ _ _ Demo.X
                (Demo.solid_cmd "page.xcsg") "page.xcsg" ""
                None "page.xcsg" "page.xcsg" "" []
                (demo_names "page.xcsg") eq_refl eq_refl eq_refl)
    as (Hpage & _).
  pose proof (run_returns_true_with_nothing_to_process _ _ _ _ _ _ _ _ Demo.X
                (Demo.solid_cmd "notes.xcsg") "notes.xcsg" ""
                None "notes.xcsg" "notes.xcsg" "" []
                (demo_names "notes.xcsg") eq_refl eq_refl eq_refl)
    as (Hnotes & Hnone & _).
  split; [ reflexivity | ]. split; [ exact Hunreadable | ].
  split; [ reflexivity | ]. split; [ exact Hpage | ].
  split; [ exact Hnotes | exact Hnone ].
Defined.

(** C10, as amended, at work: [models\cube.xcsg] is worked on as
    [models/cube.xcsg]. *)
Lemma input_path_is_normalised_witness :
  occurs backslash Demo.cube_path = true
  /\ replace backslash slash Demo.cube_path = "models/cube.xcsg"
  /\ GetExt Demo.X (filename_of Demo.X "models/cube.xcsg") <> ".csg"
  /\ Forall (fun ev => sees ["models/cube.xcsg"] ev = true)
       (trace (run Demo.X (Demo.solid_cmd Demo.cube_path) ""))
  /\ Forall (fun ev => slashed ev = true)
       (trace (run Demo.X (Demo.solid_cmd Demo.cube_path) "")).
Proof.
  pose proof (input_path_is_normalised _ _ _ _ _ _ _ _ Demo.X
                (Demo.solid_cmd Demo.cube_path) Demo.cube_path ""
                (demo_names Demo.cube_path))
    as (_ & _ & _ & _ & _ & Hother & _).
  split; [ reflexivity | ]. split; [ reflexivity | ].
  split; [ discriminate | ].
  apply Hother. discriminate.
Defined.

(** The input [models\cube.csg] is converted.  Its normalised path is
    [models/cube.csg]; the tree is read from, and the encoders are given,
    [models/cube.xcsg], the path [std_filename] made of it.  With a
    [std_filename] that answers with backslashes, the tree is written to
    and read from a path with a backslash. *)
Lemma converted_input_is_not_renormalised :
  replace backslash slash Demo.cube_csg_path = "models/cube.csg"
  /\ encoders (trace (run Demo.X (Demo.solid_cmd Demo.cube_csg_path) ""))
     = [enc3d fmt_csg; enc3d fmt_obj; enc3d (fmt_stl true)]
  /\ In (EvReadXml "models/cube.xcsg")
        (trace (run Demo.X (Demo.solid_cmd Demo.cube_csg_path) ""))
  /\ filter (fun ev => negb (sees ["models/cube.csg"] ev))
       (trace (run Demo.X (Demo.solid_cmd Demo.cube_csg_path) ""))
     = [EvWriteXml "models/cube.xcsg"; EvReadXml "models/cube.xcsg";
        EvEncode3d fmt_csg [Demo.tetrahedron; Demo.triangles Demo.box]
          "models/cube.xcsg";
        EvEncode3d fmt_obj [Demo.tetrahedron; Demo.triangles Demo.box]
          "models/cube.xcsg";
        EvEncode3d (fmt_stl true) [Demo.tetrahedron; Demo.triangles Demo.box]
          "models/cube.xcsg"]
  /\ filter (fun ev => negb (slashed ev))
       (trace (run Demo.native (Demo.solid_cmd Demo.cube_csg_path) ""))
     = [EvWriteXml ("models" ++ String backslash "cube.xcsg");
        EvReadXml ("models" ++ String backslash "cube.xcsg")].
Proof. repeat (split; [ reflexivity | ]). cbn. tauto. Qed.

(** * The separators of the input path *)

Lemma replace_idempotent (s : string) :
  replace backslash slash (replace backslash slash s)
    = replace backslash slash s.
Proof. apply replace_without, occurs_replace. Qed.

Lemma replace_length (old new : ascii) (s : string) :
  String.length (replace old new s) = String.length s.
Proof. induction s as [ | c s IH ]; [ reflexivity | cbn; now rewrite IH ]. Qed.

(** X15.  The separators of the argument do not matter: a run on a command
    line and the run on the same command line with the separators of its
    arguments already written as slashes are the same run, with the same
    outcome, the same calls and the same console lines.  The replacement
    keeps the length of the path and changes nothing when applied twice. *)
Theorem separators_do_not_matter :
  forall (W std_filename xsolid xshape2d carve_mesh clipper_profile
            pos3d polygon2d : Type)
         (X : collaborators W std_filename xsolid xshape2d carve_mesh
                clipper_profile pos3d polygon2d)
         (cmd : boost_command_line) (w : W),
    run X (normalised cmd) w = run X cmd w
    /\ (forall raw,
          String.length (replace backslash slash raw) = String.length raw)
    /\ (forall raw,
          replace backslash slash (replace backslash slash raw)
            = replace backslash slash raw).
Proof.
  intros W std_filename xsolid xshape2d carve_mesh clipper_profile pos3d
         polygon2d X cmd w.
  split; [ | split; [ apply replace_length | apply replace_idempotent ] ].
  destruct cmd as [ok cnt get ceiling].
  unfold run, input_path, normalised.
  cbn [parsed_ok count get_string max_bool].
  destruct ok; [ | reflexivity ]. cbn [negb].
  destruct (cnt "xcsg-file" =? 0)%nat; [ reflexivity | ].
  destruct (get "xcsg-file") as [raw | ex]; [ | reflexivity ].
  rewrite replace_idempotent. reflexivity.
Qed.

(** * The further properties on the concrete world *)

(** X2 at work: the argument cannot be read as a string. *)
Lemma argument_failure_is_reported_witness :
  get_string Demo.broken_cmd "xcsg-file" = Raise (std_exception "bad any_cast")
  /\ run Demo.X Demo.broken_cmd ""
     = (Raise (logic_error
                 ("xcsg  command line processing error: bad any_cast"
                    ++ ", please report. " ++ endl)),
        "", []).
Proof.
  split; [ reflexivity | ].
  exact (proj1 (argument_failure_is_reported _ _ _ _ _ _ _ _ Demo.X
                  Demo.broken_cmd (std_exception "bad any_cast") ""
                  eq_refl ltac:(discriminate) eq_refl)
           eq_refl).
Defined.

(** X3 at work: [gear.csg] is converted to [gear.xcsg], which is then read. *)
Lemma csg_input_is_converted_witness :
  GetExt Demo.X (filename_of Demo.X "gear.csg") = ".csg"
  /\ GetFullPath Demo.X (SetExt Demo.X (filename_of Demo.X "gear.csg") "xcsg")
     = "gear.xcsg"
  /\ trace (run Demo.X (Demo.solid_cmd "gear.csg") "")
     = [EvExists "gear.csg"; Cout (Converting "gear.csg"); EvToXcsg "gear.csg";
        EvWriteXml "gear.xcsg"; EvReadXml "gear.xcsg";
        Cout (Processing "gear.xcsg")].
Proof.
  split; [ reflexivity | ]. split; [ reflexivity | ].
  rewrite (proj1 (csg_input_is_converted _ _ _ _ _ _ _ _ Demo.X
                    (Demo.solid_cmd "gear.csg") "gear.csg" ""
                    (Demo.scene [Demo.leaf "cube"]) "" ""
                    (demo_names "gear.csg") eq_refl eq_refl eq_refl eq_refl
                    "gear.xcsg" "gear.xcsg" eq_refl eq_refl)).
  reflexivity.
Defined.

(** X4 at work: [models/cube.xcsg] is not converted, [gear.csg] is. *)
Lemma conversion_depends_on_the_extension_witness :
  GetExt Demo.X (filename_of Demo.X "models/cube.xcsg") = ".xcsg"
  /\ ~ In (EvToXcsg "models/cube.xcsg")
          (trace (run Demo.X (Demo.solid_cmd Demo.cube_path) ""))
  /\ In (EvToXcsg "gear.csg")
        (trace (run Demo.X (Demo.solid_cmd "gear.csg") "")).
Proof.
  split; [ reflexivity | ]. split.
  - intros H.
    apply (proj1 (conversion_depends_on_the_extension _ _ _ _ _ _ _ _ Demo.X
                    (Demo.solid_cmd Demo.cube_path) Demo.cube_path ""
                    (demo_names Demo.cube_path) eq_refl)) in H.
    discriminate H.
  - apply (proj1 (conversion_depends_on_the_extension _ _ _ _ _ _ _ _ Demo.X
                    (Demo.solid_cmd "gear.csg") "gear.csg" ""
                    (demo_names "gear.csg") eq_refl)).
    reflexivity.
Defined.

(** X5 at work: the parser finds a syntax error in [gear.csg]. *)
Lemma failed_conversion_ends_the_run_witness :
  to_xcsg Demo.X "gear.csg" None "parser"
    = (Raise (runtime_error "syntax error"), "parser")
  /\ run Demo.X (Demo.solid_cmd "gear.csg") "parser"
     = (Raise (runtime_error "syntax error"), "parser",
        [EvExists "gear.csg"; Cout (Converting "gear.csg");
         EvToXcsg "gear.csg"]).
Proof.
  split; [ reflexivity | ].
  exact (proj1 (failed_conversion_ends_the_run _ _ _ _ _ _ _ _ Demo.X
                  (Demo.solid_cmd "gear.csg") "gear.csg" "parser"
                  (demo_names "gear.csg") eq_refl eq_refl)
           (runtime_error "syntax error") "parser" eq_refl).
Defined.

(** X8 at work: under a ceiling of 3 the timer of the cube, a model without
    boolean operations, is initialised with 0. *)
Lemma timer_is_given_the_count_witness :
  (max_bool (Demo.solid_cmd Demo.cube_path) < 2 ^ 31)%N
  /\ In (EvTimerInit 0)
        (trace (run_xsolid Demo.X (Demo.solid_cmd Demo.cube_path)
                  (Demo.leaf "cube") "models/cube.xcsg" ""))
  /\ exists obj w1,
       make_solid Demo.X (Demo.leaf "cube") "" = (Ret (Some obj), w1)
       /\ 0%Z = Z.of_N (solid_nbool Demo.X obj).
Proof.
  split; [ reflexivity | ]. split; [ cbn; tauto | ].
  apply (proj1 (timer_is_given_the_count _ _ _ _ _ _ _ _ Demo.X
                  (Demo.solid_cmd Demo.cube_path) eq_refl
                  (Demo.leaf "cube") "models/cube.xcsg" "" 0%Z)).
  cbn. tauto.
Defined.

(** X9 at work: a tetrahedron and a box. *)
Lemma lumps_are_reported_in_order_witness :
  lump_lines (trace (after_boolean3d Demo.X (Demo.solid_cmd Demo.cube_path)
                       [Demo.tetrahedron; Demo.box] "models/cube.xcsg" false ""))
  = [(1, 4, 4); (2, 8, 6)]%N.
Proof.
  destruct (proj2 (lumps_are_reported_in_order _ _ _ _ _ _ _ _ Demo.X
                     (Demo.solid_cmd Demo.cube_path)
                     [Demo.tetrahedron; Demo.box] "models/cube.xcsg" false ""
                     eq_refl))
    as (done & _ & Hlines & Hdone).
  rewrite Hlines, Hdone; [ reflexivity | ].
  cbn. tauto.
Defined.

(** X11 at work: the clipper returns the unit square, which is written to
    the OpenSCAD file. *)
Lemma polygons_are_written_in_order_witness :
  boolean2d Demo.X "square" ""
    = (Ret [Demo.unit_square], "",
       [EvCreateClipperProfile "square"; EvClipperCompute "square"])
  /\ written (trace (run_xshape2d Demo.X (Demo.shape2d_cmd "square.xcsg")
                       (Demo.leaf "square") "square.xcsg" ""))
     = [Demo.unit_square].
Proof.
  split; [ reflexivity | ].
  destruct (proj1 (proj2 (polygons_are_written_in_order _ _ _ _ _ _ _ _ Demo.X
                            (Demo.shape2d_cmd "square.xcsg")
                            (Demo.leaf "square") "square.xcsg" ""
                            "square" "" [Demo.unit_square] "" _
                            eq_refl ltac:(cbn; lia) eq_refl)))
    as (done & _ & Hwritten & _ & Hall).
  rewrite Hwritten, (Hall eq_refl eq_refl). reflexivity.
Defined.

(** X17 at work: a reduction that returns, and one in which the kernel
    throws a [carve::exception]. *)
Lemma console_tells_how_the_reduction_ended_witness :
  In (Cout CompletedBooleans)
     (trace (run_xsolid Demo.X (Demo.solid_cmd Demo.cube_path)
               (Demo.leaf "cube") "models/cube.xcsg" ""))
  /\ ~ In (Cout CompletedBooleans)
          (trace (run_xsolid Demo.X (Demo.solid_cmd Demo.cube_path)
                    (Demo.leaf "cube") "models/cube.xcsg" "carve"))
  /\ In (Cout (Warning "(carve error): intersection"))
        (trace (run_xsolid Demo.X (Demo.solid_cmd Demo.cube_path)
                  (Demo.leaf "cube") "models/cube.xcsg" "carve")).
Proof.
  pose proof (console_tells_how_the_reduction_ended _ _ _ _ _ _ _ _ Demo.X
                (Demo.solid_cmd Demo.cube_path) (Demo.leaf "cube")
                "models/cube.xcsg" "" "cube" "" (Ret tt)
                [Demo.tetrahedron; Demo.box] ""
                [EvTimerInit 0%Z; EvCreateCarveMesh "cube";
                 EvCarveCompute "cube"; Cout CompletedBooleans]
                eq_refl ltac:(cbn; lia) eq_refl) as (Hdone & _).
  pose proof (console_tells_how_the_reduction_ended _ _ _ _ _ _ _ _ Demo.X
                (Demo.solid_cmd Demo.cube_path) (Demo.leaf "cube")
                "models/cube.xcsg" "carve" "cube" "carve"
                (Raise (carve_exception "intersection"))
                [Demo.tetrahedron] "carve"
                [EvTimerInit 0%Z; EvCreateCarveMesh "cube";
                 EvCarveCompute "cube"]
                eq_refl ltac:(cbn; lia) eq_refl) as (Hnot & Hwarn).
  split; [ now apply Hdone | ]. split.
  - intros H. apply Hnot in H. discriminate H.
  - apply Hwarn. exists (carve_exception "intersection"). repeat split.
Defined.

(** X18 at work. *)
Lemma missing_file_is_reported_witness :
  Exists Demo.X "missing.xcsg" "" = false
  /\ run Demo.X (Demo.solid_cmd "missing.xcsg") ""
     = (Raise (runtime_error "File does not exist: missing.xcsg"), "",
        [EvExists "missing.xcsg"]).
Proof.
  split; [ reflexivity | ].
  exact (proj1 (missing_file_is_reported _ _ _ _ _ _ _ _ Demo.X
                  (Demo.solid_cmd "missing.xcsg") "missing.xcsg" ""
                  (demo_names "missing.xcsg") eq_refl)).
Defined.
